(** * Appointment booking client: a shallow embedding and its properties

    The development follows the TypeScript sources:
    - [JS]           the fragment of the JavaScript runtime the pages rely on
                     (truthiness, [includes], [slice], [parseInt]);
    - [JSDate]       the [Date] object: time values, local time,
                     [toTimeString];
    - [WireFormat]   the [HH:mm] form of a time in a request body;
    - [Api]          [src/services/api.ts] ([request], [getAvailableDates],
                     [getAvailableSlots], the booking request body);
    - [CustomerPage] the customer booking page (cascading selects, booking);
    - [ProviderPage] the schedule-configuration form of the provider page;
    - [Core]         the availability and admission engine of the scheduling
                     backend, which the client only consumes over HTTP;
    - [Scenarios]    concrete inputs for the examples;
    - [ApiClient], [ProviderDashboard], [LoginPage], [ReminderForm],
      [SignupPage], [ProviderSetupPage], [ProviderCards]
                     the rest of the service and of the pages;
    - [CustomerEvents] the customer page as a run of handlers and answers
                     that interleave.

    Part I holds the definitions, Parts II and IV the statements and
    proofs, Parts III and V the statements at concrete inputs. *)

From Stdlib Require Import ZArith List String Ascii Bool Lia DecimalString.
From Stdlib Require Import Permutation Sorted.
Import ListNotations.
Local Open Scope string_scope.
Set Warnings "-register-all".

(* ===================================================================== *)
(** * Part I. The embedding                                               *)
(* ===================================================================== *)

(** ** The JavaScript fragment used by the pages *)
Module JS.

(** A JavaScript number as far as the pages produce one: the result of
    [parseInt], a literal, or a JSON integer.  [NaN] is what [parseInt]
    returns on input without leading digits. *)
Inductive Number : Type :=
| NaN
| Num (z : Z).

(** [a <= b]: every comparison with [NaN] is [false]. *)
Definition num_le (a b : Number) : bool :=
  match a, b with
  | Num x, Num y => (x <=? y)%Z
  | _, _ => false
  end.

(** [a > b]. *)
Definition num_gt (a b : Number) : bool :=
  match a, b with
  | Num x, Num y => (y <? x)%Z
  | _, _ => false
  end.

(** Values as [JSON.parse] builds them, plus [undefined], which reading a
    missing property yields. *)
Inductive Value : Type :=
| VUndefined
| VNull
| VBool (b : bool)
| VNumber (n : Number)
| VString (s : string)
| VArray (items : list Value)
| VObject (fields : list (string * Value)).

(** What a [throw] carries: an [Error] object with its [name] and
    [message], or anything else. *)
Inductive Thrown : Type :=
| ErrorObject (name message : string)
| OtherThrown (v : Value).

(** The outcome of evaluating an expression or awaiting a promise. *)
Inductive Completion (A : Type) : Type :=
| Return (a : A)
| Throw (e : Thrown).
Arguments Return {A} a.
Arguments Throw {A} e.

Definition bind {A B} (c : Completion A) (k : A -> Completion B) : Completion B :=
  match c with
  | Return a => k a
  | Throw e => Throw e
  end.

(** [!!s] for a string: the empty string is falsy. *)
Definition truthy_string (s : string) : bool := negb (s =? "").

(** [s || undefined] for a string [s]. *)
Definition or_undefined (s : string) : option string :=
  if truthy_string s then Some s else None.

(** ToBoolean. *)
Definition truthy (v : Value) : bool :=
  match v with
  | VUndefined | VNull => false
  | VBool b => b
  | VNumber NaN => false
  | VNumber (Num z) => negb (z =? 0)%Z
  | VString s => truthy_string s
  | VArray _ | VObject _ => true
  end.

Definition decimal (z : Z) : string := NilZero.string_of_int (Z.to_int z).

Definition number_to_string (n : Number) : string :=
  match n with
  | NaN => "NaN"
  | Num z => decimal z
  end.

Definition join_with (sep : string) (parts : list string) : string :=
  match parts with
  | [] => ""
  | p :: ps => fold_left (fun acc q => acc ++ sep ++ q) ps p
  end.

(** ToString, as [new Error(v)] applies it to its argument. *)
Fixpoint to_string (v : Value) : string :=
  match v with
  | VUndefined => "undefined"
  | VNull => "null"
  | VBool true => "true"
  | VBool false => "false"
  | VNumber n => number_to_string n
  | VString s => s
  | VArray items =>
      join_with ","
        (map (fun x => match x with
                       | VUndefined | VNull => ""
                       | _ => to_string x
                       end) items)
  | VObject _ => "[object Object]"
  end.

Fixpoint lookup (k : string) (fields : list (string * Value)) : option Value :=
  match fields with
  | [] => None
  | (k', v) :: rest => if k =? k' then Some v else lookup k rest
  end.

(** The [TypeError] of a property read on [null] or [undefined]
    (wording of V8). *)
Definition read_error (v : Value) (k : string) : Thrown :=
  ErrorObject "TypeError"
    ("Cannot read properties of " ++ to_string v ++ " (reading '" ++ k ++ "')").

(** [v.k] for an own data property [k]: the keys read by the client
    ([success], [data], [dates], [slots], [message]) are not inherited by
    strings, numbers, booleans or arrays, where the read gives
    [undefined]; on [null] and [undefined] it throws. *)
Definition get (v : Value) (k : string) : Completion Value :=
  match v with
  | VUndefined | VNull => Throw (read_error v k)
  | VObject fields =>
      match lookup k fields with
      | Some x => Return x
      | None => Return VUndefined
      end
  | _ => Return VUndefined
  end.

Definition is_undefined (v : Value) : bool :=
  match v with
  | VUndefined => true
  | _ => false
  end.

(** [String.prototype.includes]. *)
Fixpoint includes (s sub : string) : bool :=
  if prefix sub s then true
  else match s with
       | EmptyString => false
       | String _ s' => includes s' sub
       end.

(** [s.slice(b, e)] for [0 <= b <= e]. *)
Definition slice (b e : nat) (s : string) : string := substring b (e - b) s.

(** *** parseInt (radix argument absent) *)

(** The white space [parseInt] skips, as far as it is ASCII. *)
Definition is_white_space (c : ascii) : bool :=
  match nat_of_ascii c with
  | 9 | 10 | 11 | 12 | 13 | 32 => true
  | _ => false
  end.

Fixpoint trim_start (s : string) : string :=
  match s with
  | String c s' => if is_white_space c then trim_start s' else s
  | EmptyString => s
  end.

(** The value of [c] as a digit in the given radix, if it is one. *)
Definition digit_value (radix : Z) (c : ascii) : option Z :=
  let n := Z.of_nat (nat_of_ascii c) in
  let d := if ((48 <=? n) && (n <=? 57))%Z then Some (n - 48)%Z
           else if ((97 <=? n) && (n <=? 122))%Z then Some (n - 87)%Z
           else if ((65 <=? n) && (n <=? 90))%Z then Some (n - 55)%Z
           else None in
  match d with
  | Some x => if (x <? radix)%Z then Some x else None
  | None => None
  end.

(** The longest prefix of digits, read in the radix; [None] when the
    prefix is empty. *)
Fixpoint digits_prefix (radix : Z) (acc : option Z) (s : string) : option Z :=
  match s with
  | EmptyString => acc
  | String c s' =>
      match digit_value radix c with
      | Some d =>
          digits_prefix radix
            (Some (match acc with Some a => a * radix + d | None => d end)%Z) s'
      | None => acc
      end
  end.

Definition parseInt (input : string) : Number :=
  let s := trim_start input in
  let '(sign, s) :=
    match s with
    | String "-" s' => ((-1)%Z, s')
    | String "+" s' => (1%Z, s')
    | _ => (1%Z, s)
    end in
  let '(radix, s) :=
    match s with
    | String "0" (String "x" s') => (16%Z, s')
    | String "0" (String "X" s') => (16%Z, s')
    | _ => (10%Z, s)
    end in
  match digits_prefix radix None s with
  | Some m => Num (sign * m)
  | None => NaN
  end.

End JS.

(** ** The Date object *)
Module JSDate.
Local Open Scope Z_scope.

Definition msPerSecond : Z := 1000.
Definition msPerMinute : Z := 60000.
Definition msPerHour : Z := 3600000.
Definition msPerDay : Z := 86400000.

Definition HourFromTime (t : Z) : Z := (t / msPerHour) mod 24.
Definition MinFromTime (t : Z) : Z := (t / msPerMinute) mod 60.
Definition SecFromTime (t : Z) : Z := (t / msPerSecond) mod 60.

(** What the host (engine, time zone, locale) decides: how a string is
    parsed into a time value ([None] is the [NaN] of an invalid date), the
    offset of local time in milliseconds at a UTC time value, the name of
    the zone appended by [toTimeString], and the [en-US] renderings of
    [toLocaleDateString] and [toLocaleTimeString] with the options the page
    passes. *)
Record Host : Type := {
  parse : string -> option Z;
  LocalTZA : Z -> Z;
  tzName : Z -> string;
  toLocaleDateString : option Z -> string;
  toLocaleTimeString : option Z -> string
}.

(** [new Date(s)]: the time value, [None] for an invalid date. *)
Definition Date (h : Host) (s : string) : option Z := parse h s.

Definition LocalTime (h : Host) (t : Z) : Z := t + LocalTZA h t.

(** ToZeroPaddedDecimalString(n, 2). *)
Definition pad2 (n : Z) : string :=
  let s := JS.decimal n in
  if (String.length s <? 2)%nat then ("0" ++ s)%string else s.

(** TimeString(t). *)
Definition TimeString (t : Z) : string :=
  (pad2 (HourFromTime t) ++ ":" ++ pad2 (MinFromTime t) ++ ":"
   ++ pad2 (SecFromTime t) ++ " GMT")%string.

(** TimeZoneString(tv). *)
Definition TimeZoneString (h : Host) (tv : Z) : string :=
  let offset := LocalTZA h tv in
  let offsetSign := if 0 <=? offset then "+"%string else "-"%string in
  let absOffset := Z.abs offset in
  (offsetSign ++ pad2 (HourFromTime absOffset) ++ pad2 (MinFromTime absOffset)
   ++ tzName h tv)%string.

(** [Date.prototype.toTimeString]. *)
Definition toTimeString (h : Host) (d : option Z) : string :=
  match d with
  | None => "Invalid Date"%string
  | Some tv => (TimeString (LocalTime h tv) ++ TimeZoneString h tv)%string
  end.

(** *** A concrete host: ISO 8601 instants in a zone of fixed offset

    The date-time string format of ECMAScript in its complete form with the
    [Z] designator, [YYYY-MM-DDTHH:mm:ss.sssZ], which [toISOString] and JSON
    serialisers of dates write. *)

Definition DayFromYear (y : Z) : Z :=
  365 * (y - 1970) + (y - 1969) / 4 - (y - 1901) / 100 + (y - 1601) / 400.

Definition InLeapYear (y : Z) : bool :=
  if negb (y mod 4 =? 0) then false
  else if negb (y mod 100 =? 0) then true
  else (y mod 400 =? 0).

Definition DaysInMonth (leap : bool) (m : Z) : Z :=
  match m with
  | 1 => if leap then 29 else 28
  | 3 | 5 | 8 | 10 => 30
  | _ => 31
  end.

(** Days from 1 January to the first day of month [m] (January is 0). *)
Definition MonthStart (leap : bool) (m : Z) : Z :=
  fold_left Z.add (map (DaysInMonth leap) (map Z.of_nat (seq 0 (Z.to_nat m)))) 0.

Definition MakeDay (y m d : Z) : Z :=
  DayFromYear y + MonthStart (InLeapYear y) m + d - 1.

Definition MakeTime (hour min sec ms : Z) : Z :=
  hour * msPerHour + min * msPerMinute + sec * msPerSecond + ms.

Definition MakeDate (day time : Z) : Z := day * msPerDay + time.

Definition digit_of (c : ascii) : option Z :=
  let n := Z.of_nat (nat_of_ascii c) in
  if (48 <=? n) && (n <=? 57) then Some (n - 48) else None.

(** The number written by a string of decimal digits. *)
Fixpoint digits (acc : Z) (s : string) : option Z :=
  match s with
  | EmptyString => Some acc
  | String c s' =>
      match digit_of c with
      | Some d => digits (acc * 10 + d) s'
      | None => None
      end
  end.

(** The field of [len] digits at position [pos]. *)
Definition field (pos len : nat) (s : string) : option Z :=
  let f := substring pos len s in
  if (String.length f =? len)%nat then digits 0 f else None.

Definition iso_parse (s : string) : option Z :=
  if negb ((String.length s =? 24)%nat
           && (substring 4 1 s =? "-")%string && (substring 7 1 s =? "-")%string
           && (substring 10 1 s =? "T")%string && (substring 13 1 s =? ":")%string
           && (substring 16 1 s =? ":")%string && (substring 19 1 s =? ".")%string
           && (substring 23 1 s =? "Z")%string)
  then None
  else
    match field 0 4 s, field 5 2 s, field 8 2 s,
          field 11 2 s, field 14 2 s, field 17 2 s, field 20 3 s with
    | Some y, Some mo, Some d, Some hh, Some mi, Some ss, Some ms =>
        if (1 <=? mo) && (mo <=? 12) && (1 <=? d)
           && (d <=? DaysInMonth (InLeapYear y) (mo - 1))
           && (hh <=? 23) && (mi <=? 59) && (ss <=? 59)
        then Some (MakeDate (MakeDay y (mo - 1) d) (MakeTime hh mi ss ms))
        else None
    | _, _, _, _, _, _, _ => None
    end.

(** A host whose zone is [offsetMinutes] ahead of UTC all year. *)
Definition fixed_zone_host (offsetMinutes : Z) (zone : string) : Host := {|
  parse := iso_parse;
  LocalTZA := fun _ => offsetMinutes * msPerMinute;
  tzName := fun _ => (" (" ++ zone ++ ")")%string;
  toLocaleDateString := fun d =>
    match d with
    | Some tv => JS.decimal tv
    | None => "Invalid Date"%string
    end;
  toLocaleTimeString := fun d =>
    match d with
    | Some tv => JS.decimal tv
    | None => "Invalid Date"%string
    end
|}.

End JSDate.

(** ** The wire format of times *)
Module WireFormat.
Local Open Scope Z_scope.

(** A number below 100 written with exactly two decimal digits. *)
Definition two_digits (n : Z) : string :=
  String (ascii_of_nat (48 + Z.to_nat (n / 10)))
    (String (ascii_of_nat (48 + Z.to_nat (n mod 10))) EmptyString).

(** [HH:mm], 24-hour: the form of a time in a request body. *)
Definition HHmm (hour minute : Z) : string :=
  (two_digits hour ++ ":" ++ two_digits minute)%string.

(** The reduction of an instant (a time value in milliseconds since the
    epoch) to [HH:mm]: its hour and minute on the wall clock of the host. *)
Definition reduce (h : JSDate.Host) (tv : Z) : string :=
  HHmm (JSDate.HourFromTime (JSDate.LocalTime h tv))
       (JSDate.MinFromTime (JSDate.LocalTime h tv)).

End WireFormat.

(** ** src/services/api.ts *)
Module Api.
Import JS.

Record Provider : Type := {
  id : string;
  userId : string;
  firstName : string;
  lastName : string;
  phone : string;
  providerType : string;
  businessName : string;
  specialization : option string;
  licenseNumber : option string;
  bio : option string;
  slotDurationMinutes : Z;
  bookingLimitDays : Z;
  isActive : bool
}.

(** The scalar properties of [Appointment]; the optional nested [provider]
    and [customer] objects are never read by the pages modelled here. *)
Record Appointment : Type := {
  ap_id : string;
  ap_customerId : string;
  ap_providerId : string;
  ap_appointmentDate : string;
  ap_startTime : string;
  ap_endTime : string;
  ap_serviceDescription : option string;
  ap_notes : option string;
  ap_status : string;
  ap_cancellationReason : option string;
  ap_cancelledBy : option string;
  ap_cancelledAt : option string;
  ap_createdAt : string;
  ap_updatedAt : string
}.

Record AvailableDatesRequest : Type := {
  adr_providerId : string;
  adr_days : Z
}.

Record AvailableDate : Type := {
  date : string;
  dayOfWeek : Z;
  dayName : string;
  ad_isAvailable : bool;
  reason : option string
}.

Record AvailableSlotsRequest : Type := {
  asr_providerId : string;
  asr_date : string
}.

Record TimeSlot : Type := {
  startTime : string;
  endTime : string;
  isAvailable : bool;
  capacity : option Z;
  bookedCount : option Z;
  remainingSlots : option Z
}.

(** [serviceDescription?] is an optional property: [None] is
    [undefined]. *)
Record BookAppointmentRequest : Type := {
  bar_providerId : string;
  bar_appointmentDate : string;
  bar_startTime : string;
  bar_serviceDescription : option string
}.

Record ScheduleConfigRequest : Type := {
  scr_dayOfWeek : Number;
  scr_startTime : string;
  scr_endTime : string;
  scr_slotMetric : Number;
  scr_isCount : bool
}.

Record ScheduleConfig : Type := {
  sc_id : string;
  sc_providerId : string;
  sc_dayOfWeek : Number;
  sc_startTime : string;
  sc_endTime : string;
  sc_slotMetric : Number;
  sc_isCount : bool;
  sc_isActive : bool;
  sc_createdAt : string;
  sc_updatedAt : string
}.

(** What [fetch] and [response.json()] gave: [fetch] rejected, or it
    resolved with [response.ok], [response.status] and the completion of
    [response.json()]. *)
Inductive FetchOutcome : Type :=
| FetchRejected (e : Thrown)
| Responded (ok : bool) (status : Z) (json : Completion Value).

(** [request<T>(endpoint, options)], after [fetch]. *)
Definition request (o : FetchOutcome) : Completion Value :=
  match o with
  | FetchRejected e => Throw e
  | Responded false status json =>
      let error :=
        match json with
        | Return v => v
        | Throw _ => VObject [("message", VString "An error occurred")]
        end in
      bind (get error "message") (fun m =>
        Throw (ErrorObject "Error"
                 (to_string (if truthy m then m
                             else VString ("HTTP error! status: " ++ decimal status)))))
  | Responded true _ json =>
      bind json (fun j =>
      bind (get j "success") (fun success =>
        if negb (is_undefined success) then
          bind (get j "data") (fun data =>
            if negb (is_undefined data) then Return data else Return j)
        else Return j))
  end.

(** [response.dates || []]. *)
Definition getAvailableDates (o : FetchOutcome) : Completion Value :=
  bind (request o) (fun response =>
  bind (get response "dates") (fun dates =>
    Return (if truthy dates then dates else VArray []))).


(** The own enumerable properties [JSON.stringify(data)] writes for a
    booking request: a property whose value is [undefined] is left out. *)
Definition book_body (r : BookAppointmentRequest) : list (string * Value) :=
  [("providerId", VString (bar_providerId r));
   ("appointmentDate", VString (bar_appointmentDate r));
   ("startTime", VString (bar_startTime r))]
  ++ match bar_serviceDescription r with
     | Some d => [("serviceDescription", VString d)]
     | None => []
     end.

End Api.

(** ** The customer booking page *)
Module CustomerPage.
Import JS Api.

(** The [useState] cells of the component. *)
Record State : Type := {
  providers : list Provider;
  availableDates : list AvailableDate;
  timeSlots : list TimeSlot;
  selectedProviderType : string;
  selectedProvider : string;
  selectedDate : string;
  selectedTimeSlot : string;
  serviceDescription : string;
  isLoadingProviders : bool;
  isLoadingDates : bool;
  isLoadingSlots : bool;
  isBooking : bool
}.

(** The state of the first render. *)
Definition initial : State := {|
  providers := []; availableDates := []; timeSlots := [];
  selectedProviderType := ""; selectedProvider := ""; selectedDate := "";
  selectedTimeSlot := ""; serviceDescription := "";
  isLoadingProviders := false; isLoadingDates := false;
  isLoadingSlots := false; isBooking := false
|}.

Definition setProviders (v : list Provider) (st : State) : State := {|
  providers := v;
  availableDates := availableDates st;
  timeSlots := timeSlots st;
  selectedProviderType := selectedProviderType st;
  selectedProvider := selectedProvider st;
  selectedDate := selectedDate st;
  selectedTimeSlot := selectedTimeSlot st;
  serviceDescription := serviceDescription st;
  isLoadingProviders := isLoadingProviders st;
  isLoadingDates := isLoadingDates st;
  isLoadingSlots := isLoadingSlots st;
  isBooking := isBooking st
|}.

Definition setAvailableDates (v : list AvailableDate) (st : State) : State := {|
  providers := providers st;
  availableDates := v;
  timeSlots := timeSlots st;
  selectedProviderType := selectedProviderType st;
  selectedProvider := selectedProvider st;
  selectedDate := selectedDate st;
  selectedTimeSlot := selectedTimeSlot st;
  serviceDescription := serviceDescription st;
  isLoadingProviders := isLoadingProviders st;
  isLoadingDates := isLoadingDates st;
  isLoadingSlots := isLoadingSlots st;
  isBooking := isBooking st
|}.

Definition setTimeSlots (v : list TimeSlot) (st : State) : State := {|
  providers := providers st;
  availableDates := availableDates st;
  timeSlots := v;
  selectedProviderType := selectedProviderType st;
  selectedProvider := selectedProvider st;
  selectedDate := selectedDate st;
  selectedTimeSlot := selectedTimeSlot st;
  serviceDescription := serviceDescription st;
  isLoadingProviders := isLoadingProviders st;
  isLoadingDates := isLoadingDates st;
  isLoadingSlots := isLoadingSlots st;
  isBooking := isBooking st
|}.

Definition setSelectedProviderType (v : string) (st : State) : State := {|
  providers := providers st;
  availableDates := availableDates st;
  timeSlots := timeSlots st;
  selectedProviderType := v;
  selectedProvider := selectedProvider st;
  selectedDate := selectedDate st;
  selectedTimeSlot := selectedTimeSlot st;
  serviceDescription := serviceDescription st;
  isLoadingProviders := isLoadingProviders st;
  isLoadingDates := isLoadingDates st;
  isLoadingSlots := isLoadingSlots st;
  isBooking := isBooking st
|}.

Definition setSelectedProvider (v : string) (st : State) : State := {|
  providers := providers st;
  availableDates := availableDates st;
  timeSlots := timeSlots st;
  selectedProviderType := selectedProviderType st;
  selectedProvider := v;
  selectedDate := selectedDate st;
  selectedTimeSlot := selectedTimeSlot st;
  serviceDescription := serviceDescription st;
  isLoadingProviders := isLoadingProviders st;
  isLoadingDates := isLoadingDates st;
  isLoadingSlots := isLoadingSlots st;
  isBooking := isBooking st
|}.

Definition setSelectedDate (v : string) (st : State) : State := {|
  providers := providers st;
  availableDates := availableDates st;
  timeSlots := timeSlots st;
  selectedProviderType := selectedProviderType st;
  selectedProvider := selectedProvider st;
  selectedDate := v;
  selectedTimeSlot := selectedTimeSlot st;
  serviceDescription := serviceDescription st;
  isLoadingProviders := isLoadingProviders st;
  isLoadingDates := isLoadingDates st;
  isLoadingSlots := isLoadingSlots st;
  isBooking := isBooking st
|}.

Definition setSelectedTimeSlot (v : string) (st : State) : State := {|
  providers := providers st;
  availableDates := availableDates st;
  timeSlots := timeSlots st;
  selectedProviderType := selectedProviderType st;
  selectedProvider := selectedProvider st;
  selectedDate := selectedDate st;
  selectedTimeSlot := v;
  serviceDescription := serviceDescription st;
  isLoadingProviders := isLoadingProviders st;
  isLoadingDates := isLoadingDates st;
  isLoadingSlots := isLoadingSlots st;
  isBooking := isBooking st
|}.

Definition setServiceDescription (v : string) (st : State) : State := {|
  providers := providers st;
  availableDates := availableDates st;
  timeSlots := timeSlots st;
  selectedProviderType := selectedProviderType st;
  selectedProvider := selectedProvider st;
  selectedDate := selectedDate st;
  selectedTimeSlot := selectedTimeSlot st;
  serviceDescription := v;
  isLoadingProviders := isLoadingProviders st;
  isLoadingDates := isLoadingDates st;
  isLoadingSlots := isLoadingSlots st;
  isBooking := isBooking st
|}.

Definition setIsLoadingProviders (v : bool) (st : State) : State := {|
  providers := providers st;
  availableDates := availableDates st;
  timeSlots := timeSlots st;
  selectedProviderType := selectedProviderType st;
  selectedProvider := selectedProvider st;
  selectedDate := selectedDate st;
  selectedTimeSlot := selectedTimeSlot st;
  serviceDescription := serviceDescription st;
  isLoadingProviders := v;
  isLoadingDates := isLoadingDates st;
  isLoadingSlots := isLoadingSlots st;
  isBooking := isBooking st
|}.

Definition setIsLoadingDates (v : bool) (st : State) : State := {|
  providers := providers st;
  availableDates := availableDates st;
  timeSlots := timeSlots st;
  selectedProviderType := selectedProviderType st;
  selectedProvider := selectedProvider st;
  selectedDate := selectedDate st;
  selectedTimeSlot := selectedTimeSlot st;
  serviceDescription := serviceDescription st;
  isLoadingProviders := isLoadingProviders st;
  isLoadingDates := v;
  isLoadingSlots := isLoadingSlots st;
  isBooking := isBooking st
|}.

Definition setIsLoadingSlots (v : bool) (st : State) : State := {|
  providers := providers st;
  availableDates := availableDates st;
  timeSlots := timeSlots st;
  selectedProviderType := selectedProviderType st;
  selectedProvider := selectedProvider st;
  selectedDate := selectedDate st;
  selectedTimeSlot := selectedTimeSlot st;
  serviceDescription := serviceDescription st;
  isLoadingProviders := isLoadingProviders st;
  isLoadingDates := isLoadingDates st;
  isLoadingSlots := v;
  isBooking := isBooking st
|}.

Definition setIsBooking (v : bool) (st : State) : State := {|
  providers := providers st;
  availableDates := availableDates st;
  timeSlots := timeSlots st;
  selectedProviderType := selectedProviderType st;
  selectedProvider := selectedProvider st;
  selectedDate := selectedDate st;
  selectedTimeSlot := selectedTimeSlot st;
  serviceDescription := serviceDescription st;
  isLoadingProviders := isLoadingProviders st;
  isLoadingDates := isLoadingDates st;
  isLoadingSlots := isLoadingSlots st;
  isBooking := v
|}.

Inductive ToastKind : Type := ToastError | ToastInfo | ToastSuccess.

(** What a handler does besides updating state, in program order. *)
Inductive Effect : Type :=
| Toast (kind : ToastKind) (message : string)
| ConsoleError (label : string) (e : Thrown)
| GetProvidersByType (providerType : string)
| GetAvailableDates (r : AvailableDatesRequest)
| GetAvailableSlots (r : AvailableSlotsRequest)
| BookAppointment (r : BookAppointmentRequest).

(** A run of statements: the state setters applied so far and the effects
    issued so far. *)
Definition Action : Type := State -> State * list Effect.

Definition skip : Action := fun st => (st, []).
Definition set (f : State -> State) : Action := fun st => (f st, []).
Definition emit (e : Effect) : Action := fun st => (st, [e]).
Definition andThen (a b : Action) : Action :=
  fun st => let (st1, e1) := a st in
            let (st2, e2) := b st1 in (st2, (e1 ++ e2)%list).
Definition when (c : bool) (a : Action) : Action := if c then a else skip.

Declare Scope action_scope.
Delimit Scope action_scope with action.
Bind Scope action_scope with Action.
Notation "a ;; b" := (andThen a b) (at level 61, right associativity) : action_scope.
Local Open Scope action_scope.

(** [loadProviders], with the completion of [getProvidersByType]. *)
Definition loadProviders (providerType : string)
    (resp : Completion (list Provider)) : Action :=
  set (setIsLoadingProviders true) ;;
  set (setProviders []) ;;
  set (setSelectedProvider "") ;;
  set (setAvailableDates []) ;;
  set (setSelectedDate "") ;;
  set (setTimeSlots []) ;;
  set (setSelectedTimeSlot "") ;;
  emit (GetProvidersByType providerType) ;;
  match resp with
  | Return providerList => set (setProviders providerList)
  | Throw _ => emit (Toast ToastError "Failed to load providers")
  end ;;
  set (setIsLoadingProviders false).

(** [loadAvailableDates], with the completion of [getAvailableDates]. *)
Definition loadAvailableDates (providerId : string)
    (resp : Completion (list AvailableDate)) : Action :=
  set (setIsLoadingDates true) ;;
  set (setAvailableDates []) ;;
  set (setSelectedDate "") ;;
  set (setTimeSlots []) ;;
  set (setSelectedTimeSlot "") ;;
  emit (GetAvailableDates {| adr_providerId := providerId; adr_days := 30 |}) ;;
  match resp with
  | Return dates =>
      let availableDates := filter (fun d => ad_isAvailable d) dates in
      set (setAvailableDates availableDates) ;;
      when (List.length availableDates =? 0)%nat
        (emit (Toast ToastInfo "No available dates found for this provider"))
  | Throw error =>
      emit (Toast ToastError "Failed to load available dates") ;;
      emit (ConsoleError "Error loading dates:" error)
  end ;;
  set (setIsLoadingDates false).

(** [loadTimeSlots] up to its [await]. *)
Definition loadTimeSlots_begin (providerId date : string) : Action :=
  set (setIsLoadingSlots true) ;;
  set (setTimeSlots []) ;;
  set (setSelectedTimeSlot "") ;;
  emit (GetAvailableSlots {| asr_providerId := providerId; asr_date := date |}).

(** [loadTimeSlots] from the completion of [getAvailableSlots] on. *)
Definition loadTimeSlots_resume (resp : Completion (list TimeSlot)) : Action :=
  match resp with
  | Return slots =>
      set (setTimeSlots slots) ;;
      when (List.length (filter (fun s => isAvailable s) slots) =? 0)%nat
        (emit (Toast ToastInfo "No available time slots for this date"))
  | Throw error =>
      emit (Toast ToastError "Failed to load time slots") ;;
      emit (ConsoleError "Error loading slots:" error)
  end ;;
  set (setIsLoadingSlots false).

Definition loadTimeSlots (providerId date : string)
    (resp : Completion (list TimeSlot)) : Action :=
  loadTimeSlots_begin providerId date ;; loadTimeSlots_resume resp.

Definition handleProviderTypeChange (value : string)
    (resp : Completion (list Provider)) : Action :=
  set (setSelectedProviderType value) ;; loadProviders value resp.

Definition handleProviderChange (value : string)
    (resp : Completion (list AvailableDate)) : Action :=
  set (setSelectedProvider value) ;; loadAvailableDates value resp.

(** [selectedProvider] is the value the handler closed over at the render
    [st]. *)
Definition handleDateChange (value : string)
    (resp : Completion (list TimeSlot)) : Action :=
  fun st =>
    (set (setSelectedDate value) ;;
     loadTimeSlots (selectedProvider st) value resp) st.

Definition handleTimeSlotChange (value : string) : Action :=
  set (setSelectedTimeSlot value).

(** [error instanceof Error ? error.message : 'Failed to book appointment']. *)
Definition bookingErrorMessage (error : Thrown) : string :=
  match error with
  | ErrorObject _ message => message
  | OtherThrown _ => "Failed to book appointment"
  end.

Section WithHost.
Variable host : JSDate.Host.

Definition formatDate (dateString : string) : string :=
  JSDate.toLocaleDateString host (JSDate.Date host dateString).

Definition formatTime (isoString : string) : string :=
  JSDate.toLocaleTimeString host (JSDate.Date host isoString).

Definition formatTimeTo24Hour (isoString : string) : string :=
  let date := JSDate.Date host isoString in
  slice 0 5 (JSDate.toTimeString host date).

(** [handleBookAppointment], run at the render [st], with the completion of
    [bookAppointment].  A conflict starts [loadTimeSlots], which runs up to
    its [await] before the [finally] clause. *)
Definition handleBookAppointment (bookResp : Completion Appointment) : Action :=
  fun st =>
    if negb (truthy_string (selectedProvider st))
       || negb (truthy_string (selectedDate st))
       || negb (truthy_string (selectedTimeSlot st))
    then emit (Toast ToastError "Please complete all selections") st
    else
      (set (setIsBooking true) ;;
       (let startTime := formatTimeTo24Hour (selectedTimeSlot st) in
        emit (BookAppointment {|
                bar_providerId := selectedProvider st;
                bar_appointmentDate := selectedDate st;
                bar_startTime := startTime;
                bar_serviceDescription := or_undefined (serviceDescription st)
              |})) ;;
       match bookResp with
       | Return _ =>
           let selectedSlot :=
             find (fun s => startTime s =? selectedTimeSlot st) (timeSlots st) in
           let timeDisplay :=
             match selectedSlot with
             | Some slot => formatTime (startTime slot) ++ " - " ++ formatTime (endTime slot)
             | None => formatTime (selectedTimeSlot st)
             end in
           emit (Toast ToastSuccess
                   ("Appointment booked successfully! " ++ formatDate (selectedDate st)
                    ++ " at " ++ timeDisplay)) ;;
           set (setSelectedProviderType "") ;;
           set (setSelectedProvider "") ;;
           set (setSelectedDate "") ;;
           set (setSelectedTimeSlot "") ;;
           set (setServiceDescription "") ;;
           set (setProviders []) ;;
           set (setAvailableDates []) ;;
           set (setTimeSlots [])
       | Throw error =>
           let errorMessage := bookingErrorMessage error in
           if includes errorMessage "Unique constraint"
              || includes errorMessage "already booked"
           then
             emit (Toast ToastError
                     "This time slot is no longer available. Please select another slot.") ;;
             when (truthy_string (selectedProvider st) && truthy_string (selectedDate st))
               (loadTimeSlots_begin (selectedProvider st) (selectedDate st))
           else emit (Toast ToastError errorMessage)
       end ;;
       set (setIsBooking false)) st.

End WithHost.

(** The test by which [handleBookAppointment] recognises a slot that is
    already taken. *)
Definition reportsSlotTaken (error : Thrown) : bool :=
  includes (bookingErrorMessage error) "Unique constraint"
  || includes (bookingErrorMessage error) "already booked".

(** The three selections [handleBookAppointment] requires. *)
Definition complete (st : State) : Prop :=
  selectedProvider st <> "" /\ selectedDate st <> "" /\ selectedTimeSlot st <> "".

(** The provider, date and slot selections of [after] are those of
    [before]. *)
Definition selections_kept (before after : State) : Prop :=
  selectedProvider after = selectedProvider before
  /\ selectedDate after = selectedDate before
  /\ selectedTimeSlot after = selectedTimeSlot before.

(** *** What the selects offer *)

(** The entries behind the [SelectItem]s of step 3, shown once a provider
    is selected. *)
Definition dateOptions (st : State) : list AvailableDate :=
  if truthy_string (selectedProvider st) then availableDates st else [].

(** The entries behind the [SelectItem]s of step 4, shown once a date is
    selected. *)
Definition timeSlotOptions (st : State) : list TimeSlot :=
  if truthy_string (selectedDate st)
  then filter (fun slot => isAvailable slot) (timeSlots st)
  else [].

(** The [value] of each [SelectItem]. *)
Definition dateValues (st : State) : list string := map date (dateOptions st).
Definition timeSlotValues (st : State) : list string := map startTime (timeSlotOptions st).

(** The booking requests among the effects of a handler. *)
Definition bookingRequests (es : list Effect) : list BookAppointmentRequest :=
  flat_map (fun e => match e with BookAppointment r => [r] | _ => [] end) es.

(** The slot queries among the effects of a handler. *)
Definition slotQueries (es : list Effect) : list AvailableSlotsRequest :=
  flat_map (fun e => match e with GetAvailableSlots r => [r] | _ => [] end) es.

End CustomerPage.

(** ** The provider page: the schedule-configuration form *)
Module ProviderPage.
Import JS Api.

Record FormData : Type := {
  fd_dayOfWeek : string;
  fd_startTime : string;
  fd_endTime : string;
  fd_slotMetric : Number;
  fd_isCount : bool
}.

(** The cells the form and [handleSubmit] read or write; the schedule and
    appointment lists are written only by [loadSchedules] and
    [loadAppointments]. *)
Record State : Type := {
  providerProfile : option Provider;
  isSaving : bool;
  showAddForm : bool;
  formData : FormData
}.

Definition initialFormData : FormData := {|
  fd_dayOfWeek := "";
  fd_startTime := "09:00";
  fd_endTime := "17:00";
  fd_slotMetric := Num 30;
  fd_isCount := false
|}.

Definition initial : State := {|
  providerProfile := None;
  isSaving := false;
  showAddForm := false;
  formData := initialFormData
|}.

Definition setIsSaving (v : bool) (st : State) : State := {|
  providerProfile := providerProfile st;
  isSaving := v;
  showAddForm := showAddForm st;
  formData := formData st
|}.

Definition setShowAddForm (v : bool) (st : State) : State := {|
  providerProfile := providerProfile st;
  isSaving := isSaving st;
  showAddForm := v;
  formData := formData st
|}.

(** [setFormData(prev => f(prev))]. *)
Definition setFormData (f : FormData -> FormData) (st : State) : State := {|
  providerProfile := providerProfile st;
  isSaving := isSaving st;
  showAddForm := showAddForm st;
  formData := f (formData st)
|}.

(** *** The [onChange] handlers of the form *)

Definition changeDayOfWeek (value : string) : State -> State :=
  setFormData (fun prev => {|
    fd_dayOfWeek := value;
    fd_startTime := fd_startTime prev;
    fd_endTime := fd_endTime prev;
    fd_slotMetric := fd_slotMetric prev;
    fd_isCount := fd_isCount prev
  |}).

Definition changeSlotType (value : string) : State -> State :=
  setFormData (fun prev => {|
    fd_dayOfWeek := fd_dayOfWeek prev;
    fd_startTime := fd_startTime prev;
    fd_endTime := fd_endTime prev;
    fd_slotMetric := if value =? "count" then Num 50 else Num 30;
    fd_isCount := (value =? "count")
  |}).

Definition changeStartTime (value : string) : State -> State :=
  setFormData (fun prev => {|
    fd_dayOfWeek := fd_dayOfWeek prev;
    fd_startTime := value;
    fd_endTime := fd_endTime prev;
    fd_slotMetric := fd_slotMetric prev;
    fd_isCount := fd_isCount prev
  |}).

Definition changeEndTime (value : string) : State -> State :=
  setFormData (fun prev => {|
    fd_dayOfWeek := fd_dayOfWeek prev;
    fd_startTime := fd_startTime prev;
    fd_endTime := value;
    fd_slotMetric := fd_slotMetric prev;
    fd_isCount := fd_isCount prev
  |}).

(** [slotMetric: parseInt(e.target.value)]. *)
Definition changeSlotMetric (value : string) : State -> State :=
  setFormData (fun prev => {|
    fd_dayOfWeek := fd_dayOfWeek prev;
    fd_startTime := fd_startTime prev;
    fd_endTime := fd_endTime prev;
    fd_slotMetric := parseInt value;
    fd_isCount := fd_isCount prev
  |}).

Inductive ToastKind : Type := ToastError | ToastSuccess.

Inductive Effect : Type :=
| Toast (kind : ToastKind) (message : string)
| CreateScheduleConfig (r : ScheduleConfigRequest)
| LoadSchedules
| LoadAppointments.

Definition Action : Type := State -> State * list Effect.

Definition skip : Action := fun st => (st, []).
Definition set (f : State -> State) : Action := fun st => (f st, []).
Definition emit (e : Effect) : Action := fun st => (st, [e]).
Definition andThen (a b : Action) : Action :=
  fun st => let (st1, e1) := a st in
            let (st2, e2) := b st1 in (st2, (e1 ++ e2)%list).
Definition when (c : bool) (a : Action) : Action := if c then a else skip.

Declare Scope provider_action_scope.
Delimit Scope provider_action_scope with provider_action.
Bind Scope provider_action_scope with Action.
Notation "a ;; b" := (andThen a b) (at level 61, right associativity)
  : provider_action_scope.
Local Open Scope provider_action_scope.

(** [handleSubmit], run at the render [st], with the completion of
    [createScheduleConfig]. *)
Definition handleSubmit (resp : Completion ScheduleConfig) : Action :=
  fun st =>
    let formData := formData st in
    if negb (truthy_string (fd_dayOfWeek formData))
       || negb (truthy_string (fd_startTime formData))
       || negb (truthy_string (fd_endTime formData))
    then emit (Toast ToastError "Please fill in all required fields") st
    else if num_le (fd_slotMetric formData) (Num 0)
    then emit (Toast ToastError "Slot metric must be greater than 0") st
    else
      (set (setIsSaving true) ;;
       emit (CreateScheduleConfig {|
               scr_dayOfWeek := parseInt (fd_dayOfWeek formData);
               scr_startTime := fd_startTime formData;
               scr_endTime := fd_endTime formData;
               scr_slotMetric := fd_slotMetric formData;
               scr_isCount := fd_isCount formData
             |}) ;;
       match resp with
       | Return _ =>
           emit (Toast ToastSuccess "Schedule configuration added successfully!") ;;
           set (setFormData (fun _ => initialFormData)) ;;
           set (setShowAddForm false) ;;
           emit LoadSchedules ;;
           when (match providerProfile st with Some _ => true | None => false end)
             (emit LoadAppointments)
       | Throw error =>
           emit (Toast ToastError
                   match error with
                   | ErrorObject _ message => message
                   | OtherThrown _ => "Failed to add schedule"
                   end)
       end ;;
       set (setIsSaving false)) st.

(** The [createScheduleConfig] requests among the effects of a handler. *)
Definition scheduleRequests (es : list Effect) : list ScheduleConfigRequest :=
  flat_map (fun e => match e with CreateScheduleConfig r => [r] | _ => [] end) es.

(** The validation messages among the effects of a handler. *)
Definition errorToasts (es : list Effect) : list string :=
  flat_map (fun e => match e with Toast ToastError m => [m] | _ => [] end) es.

End ProviderPage.

(** ** The availability and admission engine

    The client consumes this engine over HTTP; its code is not part of the
    client sources, and every definition of this module follows the
    specification of the scheduling core.  Wall-clock times are minutes
    since midnight, calendar dates are days since 1 January 1970. *)
Module Core.
Local Open Scope nat_scope.

(** Modelled from the spec: the slot-sizing mode of a rule, absent from the
    client sources ([slotMode]: one of TimeDivided or CountBased). *)
Inductive SlotMode : Type := TimeDivided | CountBased.

(** Modelled from the spec: the WeeklyScheduleRule of the data model, absent
    from the client sources. *)
Record WeeklyScheduleRule : Type := {
  r_providerId : string;
  r_dayOfWeek : nat;
  r_startTime : nat;
  r_endTime : nat;
  r_slotMode : SlotMode;
  r_slotMetric : nat
}.

(** Modelled from the spec: the derived TimeWindow of the data model, absent
    from the client sources. *)
Record TimeWindow : Type := {
  w_providerId : string;
  w_date : nat;
  w_startTime : nat;
  w_endTime : nat;
  w_capacity : nat
}.

(** Modelled from the spec: the status of an Appointment, absent from the
    client sources ([scheduled] or [cancelled]). *)
Inductive Status : Type := scheduled | cancelled.

(** Modelled from the spec: the Appointment of the data model as the
    engine stores it, absent from the client sources (its timestamps are
    left out: no rule of the engine reads them). *)
Record Appointment : Type := {
  a_id : nat;
  a_customerId : string;
  a_providerId : string;
  a_appointmentDate : nat;
  a_startTime : nat;
  a_endTime : nat;
  a_status : Status;
  a_serviceDescription : option string
}.

(** Modelled from the spec: the weekday of a date, Sunday = 0 (day 0,
    1 January 1970, was a Thursday); the engine's calendar is absent from
    the client sources. *)
Definition weekday (date : nat) : nat := (date + 4) mod 7.

(** Modelled from the spec: the loop of the Slot Generator for a
    TimeDivided rule, absent from the client sources: starting at [cur],
    emit consecutive windows of length [len] until the next window would end
    after [stop].  [fuel] bounds the number of windows. *)
Fixpoint emit_windows (fuel : nat) (provider : string) (date cur len stop : nat)
  : list TimeWindow :=
  match fuel with
  | O => []
  | S fuel' =>
      if cur + len <=? stop then
        {| w_providerId := provider; w_date := date;
           w_startTime := cur; w_endTime := cur + len; w_capacity := 1 |}
        :: emit_windows fuel' provider date (cur + len) len stop
      else []
  end.

(** Modelled from the spec: the Slot Generator (4.1) for one rule and a date
    whose weekday matches the rule, absent from the client sources.  A
    window of a positive number of minutes needs at most one unit of fuel
    per minute of the rule. *)
Definition generate (rule : WeeklyScheduleRule) (date : nat) : list TimeWindow :=
  match r_slotMode rule with
  | TimeDivided =>
      emit_windows (r_endTime rule - r_startTime rule) (r_providerId rule) date
                   (r_startTime rule) (r_slotMetric rule) (r_endTime rule)
  | CountBased =>
      [{| w_providerId := r_providerId rule; w_date := date;
          w_startTime := r_startTime rule; w_endTime := r_endTime rule;
          w_capacity := r_slotMetric rule |}]
  end.

(** Modelled from the spec: the order of the generated sequence, by
    [startTime], then by [endTime]; absent from the client sources. *)
Definition window_leb (a b : TimeWindow) : bool :=
  (w_startTime a <? w_startTime b)
  || ((w_startTime a =? w_startTime b) && (w_endTime a <=? w_endTime b)).

(** Modelled from the spec: the sort of the generated sequence by that
    order, absent from the client sources; an insertion sort, which keeps
    every window and merges none. *)
Fixpoint insert_window (w : TimeWindow) (ws : list TimeWindow) : list TimeWindow :=
  match ws with
  | [] => [w]
  | x :: rest => if window_leb w x then w :: ws else x :: insert_window w rest
  end.

(** Modelled from the spec: the generated windows in order (4.1), absent
    from the client sources. *)
Definition sort_windows (ws : list TimeWindow) : list TimeWindow :=
  fold_right insert_window [] ws.

(** Modelled from the spec: the rules that apply to a provider and a date,
    absent from the client sources. *)
Definition applies (provider : string) (date : nat) (rule : WeeklyScheduleRule) : bool :=
  (r_providerId rule =? provider)%string && (r_dayOfWeek rule =? weekday date).

(** Modelled from the spec: all windows of a provider on a date (4.1, several
    rules on one weekday): each rule generates its windows, the result is
    their concatenation, sorted, never merged; absent from the client
    sources. *)
Definition windows_on (rules : list WeeklyScheduleRule) (provider : string) (date : nat)
  : list TimeWindow :=
  sort_windows (flat_map (fun r => generate r date) (filter (applies provider date) rules)).

(** Modelled from the spec: the appointments the Booking Ledger (4.2)
    counts for a window, absent from the client sources: those not
    cancelled, of the same provider, date, start and end. *)
Definition occupies (provider : string) (date startTime endTime : nat) (a : Appointment)
  : bool :=
  match a_status a with
  | scheduled =>
      (a_providerId a =? provider)%string && (a_appointmentDate a =? date)
      && (a_startTime a =? startTime) && (a_endTime a =? endTime)
  | cancelled => false
  end.

(** Modelled from the spec: [countScheduled] of the Booking Ledger (4.2),
    absent from the client sources. *)
Definition countScheduled (ledger : list Appointment)
    (provider : string) (date startTime endTime : nat) : nat :=
  List.length (filter (occupies provider date startTime endTime) ledger).

(** Modelled from the spec: [remaining(window) = window.capacity -
    countScheduled(...)] (4.2), absent from the client sources. *)
Definition remaining (ledger : list Appointment) (w : TimeWindow) : Z :=
  (Z.of_nat (w_capacity w)
   - Z.of_nat (countScheduled ledger (w_providerId w) (w_date w)
                              (w_startTime w) (w_endTime w)))%Z.

(** Modelled from the spec: the failure kinds of the admission path (7),
    absent from the client sources. *)
Inductive Failure : Type :=
| NotFound
| OutOfWindow
| OutOfHorizon
| SlotFull
| ValidationError.

(** Modelled from the spec: what the engine holds, absent from the client
    sources: the weekly rules, the appointments, the booking horizon of
    each provider, and the current day. *)
Record Backend : Type := {
  rules : list WeeklyScheduleRule;
  ledger : list Appointment;
  bookingLimitDays : string -> nat;
  today : nat
}.

(** Modelled from the spec: steps 1 and 2 of admission (4.4), absent from
    the client sources: the window covering [startTime]; [NotFound] when no
    window covers it, [OutOfWindow] when it is not the start of one. *)
Definition resolve (ws : list TimeWindow) (startTime : nat) : Failure + TimeWindow :=
  match filter (fun w => (w_startTime w <=? startTime) && (startTime <? w_endTime w)) ws with
  | [] => inl NotFound
  | covering =>
      match find (fun w => w_startTime w =? startTime) covering with
      | Some w => inr w
      | None => inl OutOfWindow
      end
  end.

(** Modelled from the spec: step 3 of admission (4.4), absent from the
    client sources: a date in the past or beyond the horizon. *)
Definition out_of_horizon (b : Backend) (provider : string) (date : nat) : bool :=
  (date <? today b) || (today b + bookingLimitDays b provider <? date).

(** Modelled from the spec: the Booking Admission Controller (4.4), absent
    from the client sources: [book(providerId, date, startTime,
    serviceDescription?)] for an authenticated customer, as one atomic
    step on the engine. *)
Definition book (b : Backend) (customer provider : string) (date startTime : nat)
    (description : option string) : Failure + (Appointment * Backend) :=
  match resolve (windows_on (rules b) provider date) startTime with
  | inl f => inl f
  | inr w =>
      if out_of_horizon b provider date then inl OutOfHorizon
      else if (remaining (ledger b) w <=? 0)%Z then inl SlotFull
      else
        let a := {| a_id := List.length (ledger b);
                    a_customerId := customer;
                    a_providerId := provider;
                    a_appointmentDate := date;
                    a_startTime := startTime;
                    a_endTime := w_endTime w;
                    a_status := scheduled;
                    a_serviceDescription := description |} in
        inr (a, {| rules := rules b;
                   ledger := (ledger b ++ [a])%list;
                   bookingLimitDays := bookingLimitDays b;
                   today := today b |})
  end.

(** Modelled from the spec: the Available-slots query (4.3), absent from the
    client sources: every window of the date with its capacity, booked
    count, remaining places and availability, full windows included. *)
Record SlotAvailability : Type := {
  s_window : TimeWindow;
  s_bookedCount : nat;
  s_remainingSlots : Z;
  s_isAvailable : bool
}.

(** Modelled from the spec: the annotation of one window by the
    Available-slots query (4.3), absent from the client sources. *)
Definition annotate (b : Backend) (w : TimeWindow) : SlotAvailability := {|
  s_window := w;
  s_bookedCount := countScheduled (ledger b) (w_providerId w) (w_date w)
                                  (w_startTime w) (w_endTime w);
  s_remainingSlots := remaining (ledger b) w;
  s_isAvailable := (0 <? remaining (ledger b) w)%Z
|}.

(** Modelled from the spec: the Available-slots query (4.3), absent from the
    client sources. *)
Definition availableSlots (b : Backend) (provider : string) (date : nat)
  : list SlotAvailability :=
  map (annotate b) (windows_on (rules b) provider date).

(** *** Concurrent callers *)

(** Modelled from the spec: one of the concurrent calls of [book] against a
    provider, date and start time shared by all of them; the caller and the
    description are its own.  Absent from the client sources. *)
Record Call : Type := {
  c_customerId : string;
  c_serviceDescription : option string
}.

(** Modelled from the spec: the engine together with the calls that have
    not returned yet and the answers given so far, latest first.  Absent
    from the client sources. *)
Record System : Type := {
  backend : Backend;
  pending : list Call;
  outcomes : list (Call * (Failure + Appointment))
}.

(** Modelled from the spec: section 5 makes admission one atomic critical
    section per booking, so concurrent calls are interleavings of [book]
    steps: in one step any pending call, whichever the scheduler picks, is
    admitted or rejected.  Absent from the client sources. *)
Inductive step (provider : string) (date startTime : nat) : System -> System -> Prop :=
| step_rejected b before c after outs f :
    book b (c_customerId c) provider date startTime (c_serviceDescription c) = inl f ->
    step provider date startTime
      {| backend := b; pending := (before ++ c :: after)%list; outcomes := outs |}
      {| backend := b; pending := (before ++ after)%list; outcomes := (c, inl f) :: outs |}
| step_admitted b before c after outs a b' :
    book b (c_customerId c) provider date startTime (c_serviceDescription c) = inr (a, b') ->
    step provider date startTime
      {| backend := b; pending := (before ++ c :: after)%list; outcomes := outs |}
      {| backend := b'; pending := (before ++ after)%list; outcomes := (c, inr a) :: outs |}.

(** Modelled from the spec: a run, any number of steps (5); absent from the
    client sources. *)
Inductive steps (provider : string) (date startTime : nat) : System -> System -> Prop :=
| steps_refl s : steps provider date startTime s s
| steps_step s1 s2 s3 :
    step provider date startTime s1 s2 ->
    steps provider date startTime s2 s3 ->
    steps provider date startTime s1 s3.

(** The answers that carry an appointment, and those that are [SlotFull]. *)
Definition succeeded (o : Call * (Failure + Appointment)) : bool :=
  match snd o with inr _ => true | inl _ => false end.

Definition slot_full (o : Call * (Failure + Appointment)) : bool :=
  match snd o with inl SlotFull => true | _ => false end.

Definition successes (outs : list (Call * (Failure + Appointment))) : nat :=
  List.length (filter succeeded outs).

Definition slot_full_failures (outs : list (Call * (Failure + Appointment))) : nat :=
  List.length (filter slot_full outs).

(** The run in which the scheduler serves the calls first come, first
    served. *)
Fixpoint serve (b : Backend) (provider : string) (date startTime : nat)
    (calls : list Call) : Backend * list (Call * (Failure + Appointment)) :=
  match calls with
  | [] => (b, [])
  | c :: rest =>
      match book b (c_customerId c) provider date startTime (c_serviceDescription c) with
      | inl f =>
          let (b', outs) := serve b provider date startTime rest in
          (b', (outs ++ [(c, inl f)])%list)
      | inr (a, b1) =>
          let (b', outs) := serve b1 provider date startTime rest in
          (b', (outs ++ [(c, inr a)])%list)
      end
  end.

(** The appointments the engine [b] holds in the window [w] of the provider
    on the date at the start time. *)
Definition booked (provider : string) (date startTime : nat) (w : TimeWindow)
    (b : Backend) : nat :=
  countScheduled (ledger b) provider date startTime (w_endTime w).

(** What every run of calls against the window [w] of provider [provider]
    on [date] at [startTime] keeps true, counted from the engine [b0] it
    started in with [n] calls: the configuration is the one of [b0], every
    admitted call added one appointment to the window, the window is never
    over capacity, every call not admitted failed with [SlotFull], and once
    a call failed the window is full. *)
Definition run_invariant (provider : string) (date startTime : nat)
    (b0 : Backend) (w : TimeWindow) (n : nat) (s : System) : Prop :=
  let booked := booked provider date startTime w in
  rules (backend s) = rules b0
  /\ bookingLimitDays (backend s) provider = bookingLimitDays b0 provider
  /\ today (backend s) = today b0
  /\ booked (backend s) = booked b0 + successes (outcomes s)
  /\ booked (backend s) <= w_capacity w
  /\ successes (outcomes s) + slot_full_failures (outcomes s) = List.length (outcomes s)
  /\ List.length (pending s) + List.length (outcomes s) = n
  /\ (0 < slot_full_failures (outcomes s) -> booked (backend s) = w_capacity w).

End Core.

(** ** Concrete inputs used in the examples *)
Module Scenarios.


(** A client on UTC, and one five and a half hours ahead. *)
Definition utc : JSDate.Host := JSDate.fixed_zone_host 0 "Coordinated Universal Time".
Definition kolkata : JSDate.Host := JSDate.fixed_zone_host 330 "India Standard Time".

Definition monday : Api.AvailableDate := {|
  Api.date := "2025-01-06"; Api.dayOfWeek := 1; Api.dayName := "Monday";
  Api.ad_isAvailable := true; Api.reason := None
|}.

Definition tuesday : Api.AvailableDate := {|
  Api.date := "2025-01-07"; Api.dayOfWeek := 2; Api.dayName := "Tuesday";
  Api.ad_isAvailable := false; Api.reason := Some "No schedule configured"
|}.

Definition wednesday : Api.AvailableDate := {|
  Api.date := "2025-01-08"; Api.dayOfWeek := 3; Api.dayName := "Wednesday";
  Api.ad_isAvailable := true; Api.reason := None
|}.

Definition nine : Api.TimeSlot := {|
  Api.startTime := "2025-01-06T09:00:00.000Z";
  Api.endTime := "2025-01-06T09:30:00.000Z";
  Api.isAvailable := true;
  Api.capacity := Some 1%Z; Api.bookedCount := Some 0%Z; Api.remainingSlots := Some 1%Z
|}.

Definition half_past_nine : Api.TimeSlot := {|
  Api.startTime := "2025-01-06T09:30:00.000Z";
  Api.endTime := "2025-01-06T10:00:00.000Z";
  Api.isAvailable := false;
  Api.capacity := Some 1%Z; Api.bookedCount := Some 1%Z; Api.remainingSlots := Some 0%Z
|}.

(** The page after the customer chose provider [p1], Monday and the nine
    o'clock slot. *)
Definition slot_chosen : CustomerPage.State :=
  fst (CustomerPage.handleTimeSlotChange (Api.startTime nine)
    (fst (CustomerPage.handleDateChange (Api.date monday)
            (JS.Return [nine; half_past_nine])
            (fst (CustomerPage.handleProviderChange "p1"
                    (JS.Return [monday; tuesday; wednesday])
                    CustomerPage.initial))))).

(** The rejection of a booking that lost the race for its slot, as the
    unique index of the appointments table words it. *)
Definition conflict : JS.Thrown :=
  JS.ErrorObject "Error" "Unique constraint failed on the fields: (`providerId`,`appointmentDate`,`startTime`)".

Definition booked : Api.Appointment := {|
  Api.ap_id := "a1"; Api.ap_customerId := "c1"; Api.ap_providerId := "p1";
  Api.ap_appointmentDate := "2025-01-06";
  Api.ap_startTime := "2025-01-06T09:00:00.000Z";
  Api.ap_endTime := "2025-01-06T09:30:00.000Z";
  Api.ap_serviceDescription := None; Api.ap_notes := None;
  Api.ap_status := "scheduled";
  Api.ap_cancellationReason := None; Api.ap_cancelledBy := None;
  Api.ap_cancelledAt := None;
  Api.ap_createdAt := "2025-01-02T10:00:00.000Z";
  Api.ap_updatedAt := "2025-01-02T10:00:00.000Z"
|}.

(** The schedule form after the provider chose Monday and emptied the
    slot-metric field. *)
Definition slot_metric_cleared : ProviderPage.State :=
  ProviderPage.changeSlotMetric ""
    (ProviderPage.changeDayOfWeek "1" ProviderPage.initial).

(** Monday 09:00 to 17:10 in slots of 30 minutes. *)
Definition monday_rule : Core.WeeklyScheduleRule := {|
  Core.r_providerId := "p1"; Core.r_dayOfWeek := 1;
  Core.r_startTime := 540; Core.r_endTime := 1030;
  Core.r_slotMode := Core.TimeDivided; Core.r_slotMetric := 30
|}.

(** Monday 09:00 to 10:00 in slots of 30 minutes, for another provider. *)
Definition short_monday_rule : Core.WeeklyScheduleRule := {|
  Core.r_providerId := "p2"; Core.r_dayOfWeek := 1;
  Core.r_startTime := 540; Core.r_endTime := 600;
  Core.r_slotMode := Core.TimeDivided; Core.r_slotMetric := 30
|}.

(** Tuesday 09:00 to 17:00, at most two customers. *)
Definition tuesday_rule : Core.WeeklyScheduleRule := {|
  Core.r_providerId := "p1"; Core.r_dayOfWeek := 2;
  Core.r_startTime := 540; Core.r_endTime := 1020;
  Core.r_slotMode := Core.CountBased; Core.r_slotMetric := 2
|}.

(** Day 4 is Monday 5 January 1970; the engine runs four days before. *)
Definition monday_date : nat := 4.
Definition tuesday_date : nat := 5.

(** The Tuesday window, shared by at most two customers. *)
Definition tuesday_window : Core.TimeWindow := {|
  Core.w_providerId := "p1"; Core.w_date := tuesday_date;
  Core.w_startTime := 540; Core.w_endTime := 1020; Core.w_capacity := 2
|}.

Definition engine : Core.Backend := {|
  Core.rules := [monday_rule; tuesday_rule; short_monday_rule];
  Core.ledger := [];
  Core.bookingLimitDays := fun _ => 30;
  Core.today := 0
|}.

Definition three_callers : list Core.Call :=
  [{| Core.c_customerId := "c1"; Core.c_serviceDescription := None |};
   {| Core.c_customerId := "c2"; Core.c_serviceDescription := Some "check-up" |};
   {| Core.c_customerId := "c3"; Core.c_serviceDescription := None |}].

End Scenarios.

(** ** src/services/api.ts: the token, the request and the appointment list *)
Module ApiClient.
Import JS Api.

(** [localStorage]: string keys with string values. *)
Definition Storage : Type := list (string * string).

Fixpoint getItem (key : string) (s : Storage) : option string :=
  match s with
  | [] => None
  | (k, v) :: rest => if key =? k then Some v else getItem key rest
  end.

Definition removeItem (key : string) (s : Storage) : Storage :=
  filter (fun kv => negb (key =? fst kv)) s.

Definition setItem (key value : string) (s : Storage) : Storage :=
  (key, value) :: removeItem key s.

Definition getToken (s : Storage) : option string := getItem "accessToken" s.
Definition setToken (token : string) (s : Storage) : Storage := setItem "accessToken" token s.
Definition clearToken (s : Storage) : Storage := removeItem "accessToken" s.

(** A headers object: property names with their values, in insertion
    order. *)
Definition Headers : Type := list (string * string).

(** Assigning a property: an existing one keeps its place and takes the new
    value, a new one is added last. *)
Fixpoint assign (k v : string) (h : Headers) : Headers :=
  match h with
  | [] => [(k, v)]
  | (k', v') :: rest => if k =? k' then (k, v) :: rest else (k', v') :: assign k v rest
  end.

(** [{...target, ...source}]. *)
Definition spread (target source : Headers) : Headers :=
  fold_left (fun acc kv => assign (fst kv) (snd kv) acc) source target.

Fixpoint header (k : string) (h : Headers) : option string :=
  match h with
  | [] => None
  | (k', v) :: rest => if k =? k' then Some v else header k rest
  end.

(** The [RequestInit] a method of the service passes to [request]; the body
    is the object handed to [JSON.stringify]. *)
Record RequestInit : Type := {
  ri_method : option string;
  ri_body : option Value;
  ri_headers : Headers
}.

(** What [request] hands to [fetch]. *)
Record FetchCall : Type := {
  fc_url : string;
  fc_method : option string;
  fc_body : option Value;
  fc_headers : Headers
}.

(** [import.meta.env.VITE_API_BASE_URL || 'http://localhost:3000/api']. *)
Definition API_BASE_URL (env : option string) : string :=
  match env with
  | Some url => if truthy_string url then url else "http://localhost:3000/api"
  | None => "http://localhost:3000/api"
  end.

(** [request], up to its call of [fetch]. *)
Definition fetch_call (env : option string) (storage : Storage)
    (endpoint : string) (options : RequestInit) : FetchCall :=
  let token := getToken storage in
  let headers :=
    spread
      (spread [("Content-Type", "application/json")]
              match token with
              | Some t => if truthy_string t then [("Authorization", "Bearer " ++ t)] else []
              | None => []
              end)
      (ri_headers options) in
  {| fc_url := API_BASE_URL env ++ endpoint;
     fc_method := ri_method options;
     fc_body := ri_body options;
     fc_headers := headers |}.

(** [request(endpoint)] without options, as [getProviderSchedules] calls
    it: [options = {}]. *)
Definition get_init : RequestInit := {|
  ri_method := None;
  ri_body := None;
  ri_headers := []
|}.

(** [bookAppointment(data)]: the options it passes. *)
Definition bookAppointment_init (data : BookAppointmentRequest) : RequestInit := {|
  ri_method := Some "POST";
  ri_body := Some (VObject (book_body data));
  ri_headers := []
|}.

Definition isArray (v : Value) : bool :=
  match v with
  | VArray _ => true
  | _ => false
  end.

(** [typeof v === 'object']. *)
Definition typeof_object (v : Value) : bool :=
  match v with
  | VNull | VArray _ | VObject _ => true
  | _ => false
  end.

(** [k in v] for an object [v] and a key that no prototype defines. *)
Definition has_property (k : string) (v : Value) : bool :=
  match v with
  | VObject fields =>
      match lookup k fields with
      | Some _ => true
      | None => false
      end
  | _ => false
  end.

(** [getProviderAppointments], after [fetch]: the list, and whether the
    unexpected format was reported with [console.error]. *)
Definition getProviderAppointments (o : FetchOutcome) : Completion (Value * bool) :=
  bind (request o) (fun response =>
    if isArray response then Return (response, false)
    else if truthy response && typeof_object response && has_property "data" response
    then bind (get response "data") (fun data =>
           if isArray data then Return (data, false)
           else Return (VArray [], true))
    else Return (VArray [], true)).

(** *** The members of the service *)

(** The methods the class [ApiService] declares, the private ones
    included: at run time these are the callable properties of
    [apiService]. *)
Definition apiService_members : list string :=
  ["getToken"; "setToken"; "clearToken"; "request";
   "login"; "register";
   "createProviderProfile"; "getProviderProfile"; "getProvidersByType";
   "createScheduleConfig"; "getProviderSchedules"; "deleteScheduleConfig";
   "getAvailableDates"; "getAvailableSlots";
   "bookAppointment"; "getProviderAppointments"].

(** The [TypeError] of calling a property of [apiService] that is
    [undefined] (wording of V8 for the source as written). *)
Definition not_a_function (member : string) : Thrown :=
  ErrorObject "TypeError" ("apiService." ++ member ++ " is not a function").

End ApiClient.

(** ** The provider page: day names, the appointment and schedule lists *)
Module ProviderDashboard.
Import JS Api.

Definition DAYS_OF_WEEK : list (Z * string) :=
  [(0, "Sunday"); (1, "Monday"); (2, "Tuesday"); (3, "Wednesday");
   (4, "Thursday"); (5, "Friday"); (6, "Saturday")]%Z.

(** [a === b] on numbers: [NaN] is equal to nothing. *)
Definition num_eq (a b : Number) : bool :=
  match a, b with
  | Num x, Num y => (x =? y)%Z
  | _, _ => false
  end.

(** [a - b]. *)
Definition num_sub (a b : Number) : Number :=
  match a, b with
  | Num x, Num y => Num (x - y)
  | _, _ => NaN
  end.

(** The [value] of the [SelectItem] of a day: [day.value.toString()]. *)
Definition dayItemValue (day : Z * string) : string := number_to_string (Num (fst day)).

(** [DAYS_OF_WEEK.find(d => d.value === dayOfWeek)?.label || 'Unknown']. *)
Definition getDayName (dayOfWeek : Number) : string :=
  match find (fun d => num_eq (Num (fst d)) dayOfWeek) DAYS_OF_WEEK with
  | Some d => if truthy_string (snd d) then snd d else "Unknown"
  | None => "Unknown"
  end.

(** *** The set of expanded appointments *)

(** A [Set<string>]: its elements in insertion order, each once. *)
Definition StringSet : Type := list string.

Definition has (x : string) (s : StringSet) : bool := existsb (String.eqb x) s.

Definition add (x : string) (s : StringSet) : StringSet :=
  if has x s then s else (s ++ [x])%list.

Definition delete (x : string) (s : StringSet) : StringSet :=
  filter (fun y => negb (x =? y)) s.

(** The updater [toggleAppointmentExpanded] passes to
    [setExpandedAppointments]. *)
Definition toggleAppointmentExpanded (appointmentId : string) (prev : StringSet)
  : StringSet :=
  if has appointmentId prev then delete appointmentId prev else add appointmentId prev.

(** *** Array.prototype.sort *)

(** Whether [x] goes before [y]: the comparator gave a negative number or
    zero; a [NaN] counts as zero. *)
Definition goes_before {A : Type} (cmp : A -> A -> Number) (x y : A) : bool :=
  match cmp x y with
  | Num z => (z <=? 0)%Z
  | NaN => true
  end.

Fixpoint insert_by {A : Type} (cmp : A -> A -> Number) (x : A) (l : list A) : list A :=
  match l with
  | [] => [x]
  | y :: rest => if goes_before cmp x y then x :: l else y :: insert_by cmp x rest
  end.

(** [l.sort(cmp)]: the sort is stable; with a consistent comparator every
    engine returns the list below, and with an inconsistent one the order
    is the engine's own choice, of which this is one. *)
Definition sort_by {A : Type} (cmp : A -> A -> Number) (l : list A) : list A :=
  fold_right (insert_by cmp) [] l.

Section WithHost.
Variable host : JSDate.Host.

(** [new Date(s).getTime()]. *)
Definition getTime (s : string) : Number :=
  match JSDate.Date host s with
  | Some tv => Num tv
  | None => NaN
  end.

(** The comparator of [loadAppointments]. *)
Definition compareAppointments (a b : Appointment) : Number :=
  let dateA := getTime (ap_appointmentDate a) in
  let dateB := getTime (ap_appointmentDate b) in
  if negb (num_eq dateA dateB) then num_sub dateA dateB
  else
    let timeA := getTime (ap_startTime a) in
    let timeB := getTime (ap_startTime b) in
    if negb (num_eq timeA timeB) then num_sub timeA timeB
    else if (ap_status a =? "scheduled") && negb (ap_status b =? "scheduled") then Num (-1)
    else if negb (ap_status a =? "scheduled") && (ap_status b =? "scheduled") then Num 1
    else Num 0.

End WithHost.

(** The comparator of [loadSchedules]. *)
Definition compareSchedules (a b : ScheduleConfig) : Number :=
  num_sub (sc_dayOfWeek a) (sc_dayOfWeek b).

(** The cells written by [loadAppointments], [loadSchedules] and
    [toggleAppointmentExpanded], and [providerProfile], which
    [loadSchedules] reads. *)
Record State : Type := {
  providerProfile : option Provider;
  schedules : list ScheduleConfig;
  isLoadingSchedules : bool;
  appointments : list Appointment;
  isLoadingAppointments : bool;
  expandedAppointments : StringSet
}.

Definition setSchedules (v : list ScheduleConfig) (st : State) : State := {|
  providerProfile := providerProfile st;
  schedules := v;
  isLoadingSchedules := isLoadingSchedules st;
  appointments := appointments st;
  isLoadingAppointments := isLoadingAppointments st;
  expandedAppointments := expandedAppointments st
|}.

Definition setIsLoadingSchedules (v : bool) (st : State) : State := {|
  providerProfile := providerProfile st;
  schedules := schedules st;
  isLoadingSchedules := v;
  appointments := appointments st;
  isLoadingAppointments := isLoadingAppointments st;
  expandedAppointments := expandedAppointments st
|}.

Definition setAppointments (v : list Appointment) (st : State) : State := {|
  providerProfile := providerProfile st;
  schedules := schedules st;
  isLoadingSchedules := isLoadingSchedules st;
  appointments := v;
  isLoadingAppointments := isLoadingAppointments st;
  expandedAppointments := expandedAppointments st
|}.

Definition setIsLoadingAppointments (v : bool) (st : State) : State := {|
  providerProfile := providerProfile st;
  schedules := schedules st;
  isLoadingSchedules := isLoadingSchedules st;
  appointments := appointments st;
  isLoadingAppointments := v;
  expandedAppointments := expandedAppointments st
|}.

(** [setExpandedAppointments(prev => f(prev))]. *)
Definition setExpandedAppointments (f : StringSet -> StringSet) (st : State) : State := {|
  providerProfile := providerProfile st;
  schedules := schedules st;
  isLoadingSchedules := isLoadingSchedules st;
  appointments := appointments st;
  isLoadingAppointments := isLoadingAppointments st;
  expandedAppointments := f (expandedAppointments st)
|}.

Inductive Effect : Type :=
| ToastError (message : string)
| ConsoleLog (label : string)
| ConsoleWarn (message : string)
| ConsoleError (label : string)
| GetProviderAppointments
| GetProviderSchedules.

Definition Action : Type := State -> State * list Effect.

Definition skip : Action := fun st => (st, []).
Definition set (f : State -> State) : Action := fun st => (f st, []).
Definition emit (e : Effect) : Action := fun st => (st, [e]).
Definition andThen (a b : Action) : Action :=
  fun st => let (st1, e1) := a st in
            let (st2, e2) := b st1 in (st2, (e1 ++ e2)%list).

Declare Scope dashboard_scope.
Delimit Scope dashboard_scope with dashboard.
Bind Scope dashboard_scope with Action.
Notation "a ;; b" := (andThen a b) (at level 61, right associativity) : dashboard_scope.
Local Open Scope dashboard_scope.

(** [loadAppointments], with the completion of [getProviderAppointments];
    [None] stands for a value that is not an array. *)
Definition loadAppointments (host : JSDate.Host)
    (resp : Completion (option (list Appointment))) : Action :=
  set (setIsLoadingAppointments true) ;;
  emit GetProviderAppointments ;;
  match resp with
  | Return (Some appointmentList) =>
      emit (ConsoleLog "Loaded appointments:") ;;
      set (setAppointments (sort_by (compareAppointments host) appointmentList))
  | Return None =>
      emit (ConsoleLog "Loaded appointments:") ;;
      emit (ConsoleError "Appointments response is not an array:") ;;
      set (setAppointments [])
  | Throw error =>
      emit (ConsoleError "Failed to load appointments:") ;;
      emit (ToastError match error with
                       | ErrorObject _ message => message
                       | OtherThrown _ => "Failed to load appointments"
                       end) ;;
      set (setAppointments [])
  end ;;
  set (setIsLoadingAppointments false).

(** [user?.providerId || providerProfile?.id]: the first of the two that is
    a non-empty string. *)
Definition scheduleProviderId (userProviderId : option string) (st : State)
  : option string :=
  match userProviderId with
  | Some p => if truthy_string p then Some p
              else match providerProfile st with
                   | Some profile => Some (id profile)
                   | None => None
                   end
  | None => match providerProfile st with
            | Some profile => Some (id profile)
            | None => None
            end
  end.

(** [loadSchedules], run at the render [st] for the signed-in user's
    [providerId], with the completion of [getProviderSchedules].  The page
    passes [providerId] to [getProviderSchedules], which declares no
    parameter and requests [/providers/schedule] whatever it is given: the
    id decides whether the request is made, and is not part of it. *)
Definition loadSchedules (userProviderId : option string)
    (resp : Completion (list ScheduleConfig)) : Action :=
  fun st =>
    (set (setIsLoadingSchedules true) ;;
     match scheduleProviderId userProviderId st with
     | Some providerId =>
         if truthy_string providerId then
           emit GetProviderSchedules ;;
           match resp with
           | Return scheduleList =>
               set (setSchedules (sort_by compareSchedules scheduleList))
           | Throw _ => emit (ConsoleError "Failed to load schedules:")
           end
         else
           emit (ConsoleWarn "No providerId available to load schedules") ;;
           set (setSchedules [])
     | None =>
         emit (ConsoleWarn "No providerId available to load schedules") ;;
         set (setSchedules [])
     end ;;
     set (setIsLoadingSchedules false)) st.

(** *** The order the lists are shown in *)

(** The rank of a status: scheduled appointments come first. *)
Definition statusRank (a : Appointment) : Z :=
  if ap_status a =? "scheduled" then 0%Z else 1%Z.

(** [a] is not after [b]: by date, then by start time, then scheduled
    before the rest. *)
Definition notAfter (host : JSDate.Host) (a b : Appointment) : Prop :=
  match JSDate.Date host (ap_appointmentDate a), JSDate.Date host (ap_appointmentDate b),
        JSDate.Date host (ap_startTime a), JSDate.Date host (ap_startTime b) with
  | Some da, Some db, Some ta, Some tb =>
      (da < db \/ (da = db /\ (ta < tb \/ (ta = tb /\ statusRank a <= statusRank b))))%Z
  | _, _, _, _ => False
  end.

(** Both the date and the start time of the appointment parse. *)
Definition wellDated (host : JSDate.Host) (a : Appointment) : Prop :=
  JSDate.Date host (ap_appointmentDate a) <> None
  /\ JSDate.Date host (ap_startTime a) <> None.

(** The day of week of a schedule is a number other than [NaN], and not
    after that of the next. *)
Definition dayNotAfter (a b : ScheduleConfig) : Prop :=
  match sc_dayOfWeek a, sc_dayOfWeek b with
  | Num x, Num y => (x <= y)%Z
  | _, _ => False
  end.

End ProviderDashboard.

(** ** The login page *)
Module LoginPage.
Import JS Api ApiClient.

Inductive UserType : Type := customer | provider.

Record User : Type := {
  u_id : string;
  u_phone : string;
  u_firstName : string;
  u_lastName : string;
  u_email : option string;
  u_userType : UserType
}.

Record LoginRequest : Type := {
  lr_phone : string;
  lr_password : string
}.

(** What [apiService.login] resolves with. *)
Record AuthResponse : Type := {
  user : User;
  accessToken : string
}.

Record State : Type := {
  phone : string;
  password : string;
  isLoading : bool
}.

Definition setIsLoading (v : bool) (st : State) : State :=
  {| phone := phone st; password := password st; isLoading := v |}.

Inductive Effect : Type :=
| ToastError (message : string)
| ToastSuccess (message : string)
| Login (r : LoginRequest)
| AuthLogin (u : User) (token : string)
| Navigate (path : string).

(** [handleSubmit], run at the render [st] over the browser's storage, with
    the completion of [apiService.login]. *)
Definition handleSubmit (resp : Completion AuthResponse) (st : State) (storage : Storage)
  : State * Storage * list Effect :=
  if negb (truthy_string (phone st)) || negb (truthy_string (password st))
  then (st, storage, [ToastError "Please fill in all fields"])
  else
    let request := Login {| lr_phone := phone st; lr_password := password st |} in
    match resp with
    | Return response =>
        (setIsLoading false (setIsLoading true st),
         setToken (accessToken response) storage,
         [request;
          AuthLogin (user response) (accessToken response);
          ToastSuccess "Login successful!";
          Navigate match u_userType (user response) with
                   | provider => "/provider"
                   | customer => "/customer"
                   end])
    | Throw error =>
        (setIsLoading false (setIsLoading true st),
         storage,
         [request;
          ToastError match error with
                     | ErrorObject _ message => message
                     | OtherThrown _ => "Login failed"
                     end])
    end.

Definition navigations (es : list Effect) : list string :=
  flat_map (fun e => match e with Navigate p => [p] | _ => [] end) es.

Definition loginRequests (es : list Effect) : list LoginRequest :=
  flat_map (fun e => match e with Login r => [r] | _ => [] end) es.

End LoginPage.

(** ** The reminder-schedule form *)
Module ReminderForm.
Import JS.

(** ['days_before' | 'percentage']. *)
Inductive ReminderType : Type := days_before | percentage.

Definition typeName (t : ReminderType) : string :=
  match t with
  | days_before => "days_before"
  | percentage => "percentage"
  end.

(** [ReminderScheduleRequest], as the form builds it. *)
Record ReminderScheduleRequest : Type := {
  type : ReminderType;
  value : Number
}.

Record State : Type := {
  isSaving : bool;
  showAddForm : bool;
  formData : ReminderScheduleRequest
}.

Definition initialFormData : ReminderScheduleRequest :=
  {| type := days_before; value := Num 2 |}.

Definition setIsSaving (v : bool) (st : State) : State :=
  {| isSaving := v; showAddForm := showAddForm st; formData := formData st |}.

Definition setShowAddForm (v : bool) (st : State) : State :=
  {| isSaving := isSaving st; showAddForm := v; formData := formData st |}.

Definition setFormData (f : ReminderScheduleRequest -> ReminderScheduleRequest)
    (st : State) : State :=
  {| isSaving := isSaving st; showAddForm := showAddForm st; formData := f (formData st) |}.

(** [!!n] for a number: zero and [NaN] are falsy. *)
Definition truthy_number (n : Number) : bool :=
  match n with
  | NaN => false
  | Num z => negb (z =? 0)%Z
  end.

(** [a < b]. *)
Definition num_lt (a b : Number) : bool :=
  match a, b with
  | Num x, Num y => (x <? y)%Z
  | _, _ => false
  end.

(** The select of the reminder type. *)
Definition changeType (t : ReminderType) : State -> State :=
  setFormData (fun prev => {|
    type := t;
    value := match t with days_before => Num 2 | percentage => Num 80 end
  |}).

(** [value: parseInt(e.target.value) || 0]. *)
Definition changeValue (input : string) : State -> State :=
  setFormData (fun prev => {|
    type := type prev;
    value := if truthy_number (parseInt input) then parseInt input else Num 0
  |}).

Inductive Effect : Type :=
| ToastError (message : string)
| ToastSuccess (message : string)
| CreateReminderSchedule (r : ReminderScheduleRequest)
| LoadReminders.

(** The call [apiService.createReminderSchedule(formData)]: the request
    and its completion [resp] when [apiService] has such a method; when it
    has none, the call throws before anything is requested. *)
Definition createReminderSchedule_call (formData : ReminderScheduleRequest)
    (resp : Completion unit) : Completion unit * list Effect :=
  if existsb (String.eqb "createReminderSchedule") ApiClient.apiService_members
  then (resp, [CreateReminderSchedule formData])
  else (Throw (ApiClient.not_a_function "createReminderSchedule"), []).

(** [handleSubmit], run at the render [st]; [resp] is the completion the
    server would give to the request. *)
Definition handleSubmit (resp : Completion unit) (st : State) : State * list Effect :=
  let formData := formData st in
  if negb (truthy_string (typeName (type formData))) || negb (truthy_number (value formData))
  then (st, [ToastError "Please fill in all fields"])
  else if match type formData with days_before => true | percentage => false end
          && (num_lt (value formData) (Num 1) || num_gt (value formData) (Num 365))
  then (st, [ToastError "Days before must be between 1 and 365"])
  else if match type formData with percentage => true | days_before => false end
          && (num_lt (value formData) (Num 1) || num_gt (value formData) (Num 100))
  then (st, [ToastError "Percentage must be between 1 and 100"])
  else
    let (completion, requested) := createReminderSchedule_call formData resp in
    match completion with
    | Return _ =>
        (setIsSaving false
           (setShowAddForm false
              (setFormData (fun _ => initialFormData) (setIsSaving true st))),
         (requested ++
          [ToastSuccess "Reminder schedule added successfully!";
           LoadReminders])%list)
    | Throw error =>
        (setIsSaving false (setIsSaving true st),
         (requested ++
          [ToastError match error with
                      | ErrorObject _ message => message
                      | OtherThrown _ => "Failed to add reminder"
                      end])%list)
    end.

Definition reminderRequests (es : list Effect) : list ReminderScheduleRequest :=
  flat_map (fun e => match e with CreateReminderSchedule r => [r] | _ => [] end) es.

(** The bounds of a reminder value: 1 to 365 days, 1 to 100 percent. *)
Definition inRange (r : ReminderScheduleRequest) : Prop :=
  match value r with
  | Num z => (1 <= z /\ z <= match type r with days_before => 365 | percentage => 100 end)%Z
  | NaN => False
  end.

End ReminderForm.

(** ** The sign-up page *)
Module SignupPage.
Import JS Api ApiClient.

(** The form; [userType] holds the value of the radio group. *)
Record FormData : Type := {
  phone : string;
  firstName : string;
  lastName : string;
  password : string;
  email : string;
  userType : string
}.

Record State : Type := {
  formData : FormData;
  isLoading : bool
}.

Definition initial : State := {|
  formData := {| phone := ""; firstName := ""; lastName := ""; password := "";
                 email := ""; userType := "customer" |};
  isLoading := false
|}.

Definition setIsLoading (v : bool) (st : State) : State :=
  {| formData := formData st; isLoading := v |}.

(** [setFormData(prev => ({ ...prev, [field]: value }))] for the fields of
    the form; a key that is none of them adds a property nothing reads. *)
Definition handleChange (field value : string) (st : State) : State :=
  let prev := formData st in
  {| formData := {|
       phone := if field =? "phone" then value else phone prev;
       firstName := if field =? "firstName" then value else firstName prev;
       lastName := if field =? "lastName" then value else lastName prev;
       password := if field =? "password" then value else password prev;
       email := if field =? "email" then value else email prev;
       userType := if field =? "userType" then value else userType prev
     |};
     isLoading := isLoading st |}.

Inductive Effect : Type :=
| ToastError (message : string)
| ToastSuccess (message : string)
| Register (data : FormData)
| AuthLogin (u : LoginPage.User) (token : string)
| Navigate (path : string).

(** [handleSubmit], run at the render [st] over the browser's storage, with
    the completion of [apiService.register]. *)
Definition handleSubmit (resp : Completion LoginPage.AuthResponse)
    (st : State) (storage : Storage) : State * Storage * list Effect :=
  let formData := formData st in
  if negb (truthy_string (phone formData)) || negb (truthy_string (firstName formData))
     || negb (truthy_string (lastName formData)) || negb (truthy_string (password formData))
  then (st, storage, [ToastError "Please fill in all required fields"])
  else
    match resp with
    | Return response =>
        (setIsLoading false (setIsLoading true st),
         setToken (LoginPage.accessToken response) storage,
         [Register formData;
          AuthLogin (LoginPage.user response) (LoginPage.accessToken response);
          ToastSuccess "Account created successfully!";
          Navigate match LoginPage.u_userType (LoginPage.user response) with
                   | LoginPage.provider => "/provider"
                   | LoginPage.customer => "/customer"
                   end])
    | Throw error =>
        (setIsLoading false (setIsLoading true st),
         storage,
         [Register formData;
          ToastError match error with
                     | ErrorObject _ message => message
                     | OtherThrown _ => "Registration failed"
                     end])
    end.

Definition registrations (es : list Effect) : list FormData :=
  flat_map (fun e => match e with Register d => [d] | _ => [] end) es.

Definition navigations (es : list Effect) : list string :=
  flat_map (fun e => match e with Navigate p => [p] | _ => [] end) es.

(** The four fields the form requires. *)
Definition filled (f : FormData) : Prop :=
  phone f <> "" /\ firstName f <> "" /\ lastName f <> "" /\ password f <> "".

End SignupPage.

(** ** The provider set-up page *)
Module ProviderSetupPage.
Import JS Api.

Record FormData : Type := {
  providerType : string;
  businessName : string;
  specialization : string;
  licenseNumber : string;
  bio : string;
  slotDurationMinutes : Number;
  bookingLimitDays : Number
}.

Record State : Type := {
  formData : FormData;
  isLoading : bool
}.

Definition initial : State := {|
  formData := {| providerType := ""; businessName := ""; specialization := "";
                 licenseNumber := ""; bio := "";
                 slotDurationMinutes := Num 30; bookingLimitDays := Num 60 |};
  isLoading := false
|}.

Definition setIsLoading (v : bool) (st : State) : State :=
  {| formData := formData st; isLoading := v |}.

(** The object [handleSubmit] passes to [createProviderProfile]; an optional
    property is [None] when the field is empty. *)
Record ProfileRequest : Type := {
  pr_providerType : string;
  pr_businessName : string;
  pr_specialization : option string;
  pr_licenseNumber : option string;
  pr_bio : option string;
  pr_slotDurationMinutes : Number;
  pr_bookingLimitDays : Number
}.

Definition optional_property (k : string) (v : option string) : list (string * Value) :=
  match v with
  | Some s => [(k, VString s)]
  | None => []
  end.

(** The properties [JSON.stringify] writes for the request: those that are
    [undefined] are left out, and a [NaN] is written as [null]. *)
Definition json_number (n : Number) : Value :=
  match n with
  | NaN => VNull
  | Num z => VNumber (Num z)
  end.

Definition profile_body (r : ProfileRequest) : list (string * Value) :=
  ([("providerType", VString (pr_providerType r));
    ("businessName", VString (pr_businessName r))]
   ++ optional_property "specialization" (pr_specialization r)
   ++ optional_property "licenseNumber" (pr_licenseNumber r)
   ++ optional_property "bio" (pr_bio r)
   ++ [("slotDurationMinutes", json_number (pr_slotDurationMinutes r));
       ("bookingLimitDays", json_number (pr_bookingLimitDays r))])%list.

Inductive Effect : Type :=
| ToastError (message : string)
| ToastSuccess (message : string)
| CreateProviderProfile (r : ProfileRequest)
| Navigate (path : string).

(** [handleSubmit], run at the render [st], with the completion of
    [createProviderProfile]. *)
Definition handleSubmit (resp : Completion Provider) (st : State)
  : State * list Effect :=
  let formData := formData st in
  if negb (truthy_string (providerType formData))
     || negb (truthy_string (businessName formData))
  then (st, [ToastError "Please fill in all required fields"])
  else
    let request :=
      CreateProviderProfile {|
        pr_providerType := providerType formData;
        pr_businessName := businessName formData;
        pr_specialization := or_undefined (specialization formData);
        pr_licenseNumber := or_undefined (licenseNumber formData);
        pr_bio := or_undefined (bio formData);
        pr_slotDurationMinutes := slotDurationMinutes formData;
        pr_bookingLimitDays := bookingLimitDays formData |} in
    match resp with
    | Return _ =>
        (setIsLoading false (setIsLoading true st),
         [request; ToastSuccess "Provider profile created successfully!";
          Navigate "/provider"])
    | Throw error =>
        (setIsLoading false (setIsLoading true st),
         [request;
          ToastError match error with
                     | ErrorObject _ message => message
                     | OtherThrown _ => "Failed to create profile"
                     end])
    end.

Definition profileRequests (es : list Effect) : list ProfileRequest :=
  flat_map (fun e => match e with CreateProviderProfile r => [r] | _ => [] end) es.

Definition navigations (es : list Effect) : list string :=
  flat_map (fun e => match e with Navigate p => [p] | _ => [] end) es.

End ProviderSetupPage.

(** ** The provider page: the summary cards and the deletion of a schedule *)
Module ProviderCards.
Import JS Api.

(** [schedules.length], [schedules.filter(s => !s.isCount).length] and
    [schedules.filter(s => s.isCount).length]. *)
Definition scheduleConfigs (schedules : list ScheduleConfig) : nat :=
  List.length schedules.
Definition timeBased (schedules : list ScheduleConfig) : nat :=
  List.length (filter (fun s => negb (sc_isCount s)) schedules).
Definition countBased (schedules : list ScheduleConfig) : nat :=
  List.length (filter (fun s => sc_isCount s) schedules).

Inductive Effect : Type :=
| ToastError (message : string)
| ToastSuccess (message : string)
| DeleteScheduleConfig (scheduleId : string)
| LoadSchedules
| LoadAppointments.

(** [handleDelete]: the answer to [confirm], the completion of
    [deleteScheduleConfig], and whether a profile is loaded. The handler
    writes no state of its own. *)
Definition handleDelete (scheduleId : string) (confirmed : bool)
    (resp : Completion unit) (providerProfile : option Provider) : list Effect :=
  if negb confirmed then []
  else
    match resp with
    | Return _ =>
        ([DeleteScheduleConfig scheduleId;
          ToastSuccess "Schedule deleted successfully";
          LoadSchedules]
         ++ match providerProfile with
            | Some _ => [LoadAppointments]
            | None => []
            end)%list
    | Throw error =>
        [DeleteScheduleConfig scheduleId;
         ToastError match error with
                    | ErrorObject _ message => message
                    | OtherThrown _ => "Failed to delete schedule"
                    end]
    end.

End ProviderCards.

(** ** The customer page as a run of events *)

(** The page starts its loads without waiting for them and never cancels
    one: between the start of a load and its answer other handlers and
    other answers may run.  Each asynchronous function is therefore split
    at its [await] into the part that runs at once and the part that runs
    when the answer arrives. *)
Module CustomerEvents.
Import JS Api CustomerPage.
Local Open Scope action_scope.

(** [loadProviders] up to its [await]. *)
Definition loadProviders_begin (providerType : string) : Action :=
  set (setIsLoadingProviders true) ;;
  set (setProviders []) ;;
  set (setSelectedProvider "") ;;
  set (setAvailableDates []) ;;
  set (setSelectedDate "") ;;
  set (setTimeSlots []) ;;
  set (setSelectedTimeSlot "") ;;
  emit (GetProvidersByType providerType).

(** [loadProviders] from the completion of [getProvidersByType] on. *)
Definition loadProviders_resume (resp : Completion (list Provider)) : Action :=
  match resp with
  | Return providerList => set (setProviders providerList)
  | Throw _ => emit (Toast ToastError "Failed to load providers")
  end ;;
  set (setIsLoadingProviders false).

(** [loadAvailableDates] up to its [await]. *)
Definition loadAvailableDates_begin (providerId : string) : Action :=
  set (setIsLoadingDates true) ;;
  set (setAvailableDates []) ;;
  set (setSelectedDate "") ;;
  set (setTimeSlots []) ;;
  set (setSelectedTimeSlot "") ;;
  emit (GetAvailableDates {| adr_providerId := providerId; adr_days := 30 |}).

(** [loadAvailableDates] from the completion of [getAvailableDates] on. *)
Definition loadAvailableDates_resume (resp : Completion (list AvailableDate)) : Action :=
  match resp with
  | Return dates =>
      let availableDates := filter (fun d => ad_isAvailable d) dates in
      set (setAvailableDates availableDates) ;;
      when (List.length availableDates =? 0)%nat
        (emit (Toast ToastInfo "No available dates found for this provider"))
  | Throw error =>
      emit (Toast ToastError "Failed to load available dates") ;;
      emit (ConsoleError "Error loading dates:" error)
  end ;;
  set (setIsLoadingDates false).

(** [handleProviderTypeChange] up to the [await] of its load. *)
Definition selectProviderType (value : string) : Action :=
  set (setSelectedProviderType value) ;; loadProviders_begin value.

(** [handleProviderChange] up to the [await] of its load. *)
Definition selectProvider (value : string) : Action :=
  set (setSelectedProvider value) ;; loadAvailableDates_begin value.

(** [handleDateChange] up to the [await] of its load; [selectedProvider] is
    the value the handler closed over at the render [st]. *)
Definition selectDate (value : string) : Action :=
  fun st =>
    (set (setSelectedDate value) ;;
     loadTimeSlots_begin (selectedProvider st) value) st.

Section WithHost.
Variable host : JSDate.Host.

(** [handleBookAppointment] up to its [await], run at the render [st]. *)
Definition handleBookAppointment_begin : Action :=
  fun st =>
    if negb (truthy_string (selectedProvider st))
       || negb (truthy_string (selectedDate st))
       || negb (truthy_string (selectedTimeSlot st))
    then emit (Toast ToastError "Please complete all selections") st
    else
      (set (setIsBooking true) ;;
       (let startTime := formatTimeTo24Hour host (selectedTimeSlot st) in
        emit (BookAppointment {|
                bar_providerId := selectedProvider st;
                bar_appointmentDate := selectedDate st;
                bar_startTime := startTime;
                bar_serviceDescription := or_undefined (serviceDescription st)
              |}))) st.

(** [handleBookAppointment] from the completion of [bookAppointment] on;
    [render] is the state the handler closed over when it was started. *)
Definition handleBookAppointment_resume (render : State)
    (bookResp : Completion Appointment) : Action :=
  match bookResp with
  | Return _ =>
      let selectedSlot :=
        find (fun s => startTime s =? selectedTimeSlot render) (timeSlots render) in
      let timeDisplay :=
        match selectedSlot with
        | Some slot => formatTime host (startTime slot) ++ " - "
                       ++ formatTime host (endTime slot)
        | None => formatTime host (selectedTimeSlot render)
        end in
      emit (Toast ToastSuccess
              ("Appointment booked successfully! " ++ formatDate host (selectedDate render)
               ++ " at " ++ timeDisplay)) ;;
      set (setSelectedProviderType "") ;;
      set (setSelectedProvider "") ;;
      set (setSelectedDate "") ;;
      set (setSelectedTimeSlot "") ;;
      set (setServiceDescription "") ;;
      set (setProviders []) ;;
      set (setAvailableDates []) ;;
      set (setTimeSlots [])
  | Throw error =>
      let errorMessage := bookingErrorMessage error in
      if includes errorMessage "Unique constraint"
         || includes errorMessage "already booked"
      then
        emit (Toast ToastError
                "This time slot is no longer available. Please select another slot.") ;;
        when (truthy_string (selectedProvider render) && truthy_string (selectedDate render))
          (loadTimeSlots_begin (selectedProvider render) (selectedDate render))
      else emit (Toast ToastError errorMessage)
  end ;;
  set (setIsBooking false).

(** An answer of the server reaching the page: the completion of one of
    its pending calls.  The completion of a booking comes with the state
    its handler closed over. *)
Inductive Answer : Type :=
| ProvidersAnswer (resp : Completion (list Provider))
| DatesAnswer (resp : Completion (list AvailableDate))
| SlotsAnswer (resp : Completion (list TimeSlot))
| BookingAnswer (render : State) (resp : Completion Appointment).

(** What the page does when an answer arrives. *)
Definition arrive (a : Answer) : Action :=
  match a with
  | ProvidersAnswer resp => loadProviders_resume resp
  | DatesAnswer resp => loadAvailableDates_resume resp
  | SlotsAnswer resp => loadTimeSlots_resume resp
  | BookingAnswer render resp => handleBookAppointment_resume render resp
  end.

(** Answers arriving one after the other, in any order the network
    delivers them. *)
Fixpoint arrive_all (answers : list Answer) : Action :=
  match answers with
  | [] => skip
  | a :: rest => arrive a ;; arrive_all rest
  end.

(** The answer of a list load that failed. *)
Definition failed (a : Answer) : bool :=
  match a with
  | ProvidersAnswer (Throw _) | DatesAnswer (Throw _) | SlotsAnswer (Throw _) => true
  | _ => false
  end.

End WithHost.

End CustomerEvents.

(** ** Further concrete inputs *)
Module MoreScenarios.



(** A wrapped response whose [data] is [null]. *)
Definition null_payload : Api.FetchOutcome :=
  Api.Responded true 200
    (JS.Return (JS.VObject [("success", JS.VBool true); ("data", JS.VNull)])).


(** Answers that reach the page after the user has moved on: the dates and
    the slots asked for an earlier selection, and the failure of an earlier
    booking that lost its slot. *)
Definition late_answers : list CustomerEvents.Answer :=
  [CustomerEvents.DatesAnswer
     (JS.Return [Scenarios.monday; Scenarios.tuesday; Scenarios.wednesday]);
   CustomerEvents.SlotsAnswer (JS.Return [Scenarios.nine; Scenarios.half_past_nine]);
   CustomerEvents.BookingAnswer Scenarios.slot_chosen (JS.Throw Scenarios.conflict)].

(** Two loads that fail one after the other. *)
Definition failures : list CustomerEvents.Answer :=
  [CustomerEvents.ProvidersAnswer (JS.Throw (JS.ErrorObject "Error" "offline"));
   CustomerEvents.SlotsAnswer (JS.Throw (JS.ErrorObject "Error" "offline"))].


(** A browser storage that holds a theme and an old token. *)
Definition browser : ApiClient.Storage := [("theme", "dark"); ("accessToken", "old")].

Definition appointment (ident date time status : string) : Api.Appointment := {|
  Api.ap_id := ident; Api.ap_customerId := "c1"; Api.ap_providerId := "p1";
  Api.ap_appointmentDate := date;
  Api.ap_startTime := time;
  Api.ap_endTime := time;
  Api.ap_serviceDescription := None; Api.ap_notes := None;
  Api.ap_status := status;
  Api.ap_cancellationReason := None; Api.ap_cancelledBy := None;
  Api.ap_cancelledAt := None;
  Api.ap_createdAt := "2025-01-02T10:00:00.000Z";
  Api.ap_updatedAt := "2025-01-02T10:00:00.000Z"
|}.

Definition late : Api.Appointment :=
  appointment "a1" "2025-01-07T00:00:00.000Z" "2025-01-07T09:00:00.000Z" "scheduled".
Definition cancelled_early : Api.Appointment :=
  appointment "a2" "2025-01-06T00:00:00.000Z" "2025-01-06T09:00:00.000Z" "cancelled".
Definition early : Api.Appointment :=
  appointment "a3" "2025-01-06T00:00:00.000Z" "2025-01-06T09:00:00.000Z" "scheduled".
Definition midday : Api.Appointment :=
  appointment "a4" "2025-01-06T00:00:00.000Z" "2025-01-06T12:00:00.000Z" "scheduled".

Definition schedule (ident : string) (day : Z) (isCount : bool) : Api.ScheduleConfig := {|
  Api.sc_id := ident; Api.sc_providerId := "p1";
  Api.sc_dayOfWeek := JS.Num day;
  Api.sc_startTime := "09:00"; Api.sc_endTime := "17:00";
  Api.sc_slotMetric := JS.Num 30; Api.sc_isCount := isCount; Api.sc_isActive := true;
  Api.sc_createdAt := "2025-01-02T10:00:00.000Z";
  Api.sc_updatedAt := "2025-01-02T10:00:00.000Z"
|}.

Definition dashboard : ProviderDashboard.State := {|
  ProviderDashboard.providerProfile := None;
  ProviderDashboard.schedules := [schedule "old" 3 false];
  ProviderDashboard.isLoadingSchedules := false;
  ProviderDashboard.appointments := [];
  ProviderDashboard.isLoadingAppointments := false;
  ProviderDashboard.expandedAppointments := ["a1"]
|}.

(** The dashboard of a user whose login carried no provider id, with the
    profile loaded. *)
Definition dashboard_with_profile : ProviderDashboard.State := {|
  ProviderDashboard.providerProfile := Some {|
    Api.id := "prov-7"; Api.userId := "u1";
    Api.firstName := "Ada"; Api.lastName := "Lovelace"; Api.phone := "+15550100";
    Api.providerType := "salon"; Api.businessName := "Curl Up";
    Api.specialization := None; Api.licenseNumber := None; Api.bio := None;
    Api.slotDurationMinutes := 30; Api.bookingLimitDays := 60; Api.isActive := true |};
  ProviderDashboard.schedules := [];
  ProviderDashboard.isLoadingSchedules := false;
  ProviderDashboard.appointments := [];
  ProviderDashboard.isLoadingAppointments := false;
  ProviderDashboard.expandedAppointments := []
|}.

(** The schedule form with Friday chosen and the defaults otherwise. *)
Definition friday_form : ProviderPage.State :=
  ProviderPage.changeDayOfWeek "5" ProviderPage.initial.

Definition credentials : LoginPage.State := {|
  LoginPage.phone := "+15550100"; LoginPage.password := "secret";
  LoginPage.isLoading := false
|}.

Definition provider_session : LoginPage.AuthResponse := {|
  LoginPage.user := {|
    LoginPage.u_id := "u1"; LoginPage.u_phone := "+15550100";
    LoginPage.u_firstName := "Ada"; LoginPage.u_lastName := "Lovelace";
    LoginPage.u_email := None; LoginPage.u_userType := LoginPage.provider |};
  LoginPage.accessToken := "t0k3n"
|}.

(** The reminder form asking for 400 days before. *)
Definition far_reminder : ReminderForm.State := {|
  ReminderForm.isSaving := false;
  ReminderForm.showAddForm := true;
  ReminderForm.formData :=
    {| ReminderForm.type := ReminderForm.days_before; ReminderForm.value := JS.Num 400 |}
|}.

(** The reminder form asking for two days before. *)
Definition near_reminder : ReminderForm.State := {|
  ReminderForm.isSaving := false;
  ReminderForm.showAddForm := true;
  ReminderForm.formData := ReminderForm.initialFormData
|}.

Definition new_customer : SignupPage.State :=
  SignupPage.handleChange "password" "secret"
    (SignupPage.handleChange "lastName" "Lovelace"
       (SignupPage.handleChange "firstName" "Ada"
          (SignupPage.handleChange "phone" "+15550100" SignupPage.initial))).

Definition salon_setup : ProviderSetupPage.State := {|
  ProviderSetupPage.formData := {|
    ProviderSetupPage.providerType := "salon";
    ProviderSetupPage.businessName := "Curl Up";
    ProviderSetupPage.specialization := "";
    ProviderSetupPage.licenseNumber := "";
    ProviderSetupPage.bio := "Walk-ins welcome";
    ProviderSetupPage.slotDurationMinutes := JS.Num 45;
    ProviderSetupPage.bookingLimitDays := JS.Num 60 |};
  ProviderSetupPage.isLoading := false
|}.

End MoreScenarios.

(* ===================================================================== *)
(** * Part II. Properties                                                 *)
(* ===================================================================== *)

(** ** Lists and strings *)

Lemma filter_In_iff {A : Type} (f : A -> bool) (l : list A) (x : A) :
  In x (filter f l) <-> In x l /\ f x = true.
Proof. apply filter_In. Qed.

(** [filter] keeps the relative order of what it keeps: two kept entries
    at positions [i < j] stand at positions [i' < j'] of the original. *)
Lemma filter_keeps_order {A : Type} (f : A -> bool) (l : list A) :
  forall i j x y,
    (i < j)%nat ->
    nth_error (filter f l) i = Some x ->
    nth_error (filter f l) j = Some y ->
    exists i' j', (i' < j')%nat /\ nth_error l i' = Some x /\ nth_error l j' = Some y.
Proof.
  induction l as [|a l IH]; intros i j x y Hij Hi Hj.
  - destruct i; discriminate.
  - simpl in Hi, Hj. destruct (f a) eqn:Fa.
    + destruct i as [|i].
      * destruct j as [|j]; [lia|]. simpl in Hi, Hj. injection Hi as <-.
        apply nth_error_In in Hj. apply filter_In in Hj as [Hin _].
        apply In_nth_error in Hin as [k Hk].
        exists 0%nat, (S k). repeat split; [lia | assumption].
      * destruct j as [|j]; [lia|]. simpl in Hi, Hj.
        destruct (IH i j x y ltac:(lia) Hi Hj) as (i' & j' & Hlt & Hx & Hy).
        exists (S i'), (S j'). repeat split; [lia | assumption | assumption].
    + destruct (IH i j x y Hij Hi Hj) as (i' & j' & Hlt & Hx & Hy).
      exists (S i'), (S j'). repeat split; [lia | assumption | assumption].
Qed.

Lemma truthy_string_true (s : string) : s <> "" -> JS.truthy_string s = true.
Proof.
  intros H. unfold JS.truthy_string. destruct (String.eqb_spec s ""); [contradiction | reflexivity].
Qed.

Lemma truthy_string_iff (s : string) : JS.truthy_string s = true <-> s <> "".
Proof.
  unfold JS.truthy_string. destruct (String.eqb_spec s ""); simpl; split; congruence.
Qed.

(** ** The API service *)
Section ApiFacts.
Import JS Api.






End ApiFacts.


(** When the wrapper carries [data: null], [request] hands back [null] and
    the read of [dates] throws: the call rejects instead of returning. *)
Example wrapped_null_payload_rejects :
  Api.getAvailableDates
    (Api.Responded true 200
       (JS.Return (JS.VObject [("success", JS.VBool true); ("data", JS.VNull)])))
  = JS.Throw (JS.ErrorObject "TypeError"
                "Cannot read properties of null (reading 'dates')").
Proof. reflexivity. Qed.


(** ** The customer page *)
Section CustomerFacts.
Import JS Api CustomerPage.

Lemma loadAvailableDates_state (providerId : string) (dates : list AvailableDate)
    (st : State) :
  availableDates (fst (loadAvailableDates providerId (Return dates) st))
  = filter (fun d => ad_isAvailable d) dates.
Proof.
  unfold loadAvailableDates, andThen, set, emit, when, skip.
  destruct (List.length (filter (fun d => ad_isAvailable d) dates) =? 0)%nat;
    reflexivity.
Qed.

(** C1. After the available-dates query returns [dates] for the provider
    just selected, the entries offered by the date select are exactly the
    entries of [dates] whose [isAvailable] is true, in their original
    order. *)
Theorem rendered_dates_are_the_available_ones
    (value : string) (dates : list AvailableDate) (st : State) :
  value <> "" ->
  let st' := fst (handleProviderChange value (Return dates) st) in
  dateOptions st' = filter (fun d => ad_isAvailable d) dates
  /\ (forall d, In d (dateOptions st') <-> In d dates /\ ad_isAvailable d = true)
  /\ (forall i j x y,
        (i < j)%nat ->
        nth_error (dateOptions st') i = Some x ->
        nth_error (dateOptions st') j = Some y ->
        exists i' j', (i' < j')%nat
                      /\ nth_error dates i' = Some x /\ nth_error dates j' = Some y).
Proof.
  intros Hvalue st'.
  assert (Hopts : dateOptions st' = filter (fun d => ad_isAvailable d) dates).
  { subst st'. unfold dateOptions, handleProviderChange, loadAvailableDates,
      andThen, set, emit, when, skip.
    destruct (List.length (filter (fun d => ad_isAvailable d) dates) =? 0)%nat;
      simpl; rewrite (truthy_string_true value Hvalue); reflexivity. }
  rewrite Hopts. split; [reflexivity|]. split.
  - intros d. apply filter_In_iff.
  - apply filter_keeps_order.
Qed.

(** C2. After the available-slots query returns [slots] for the date just
    selected, the page holds all of [slots], unavailable windows included,
    while the time-slot select offers exactly the windows whose
    [isAvailable] is true. *)
Theorem stored_slots_and_selectable_slots
    (value : string) (slots : list TimeSlot) (st : State) :
  value <> "" ->
  let st' := fst (handleDateChange value (Return slots) st) in
  timeSlots st' = slots
  /\ timeSlotOptions st' = filter (fun slot => isAvailable slot) slots
  /\ (forall s, In s (timeSlotOptions st') <-> In s slots /\ isAvailable s = true).
Proof.
  intros Hvalue st'.
  assert (Hstate : timeSlots st' = slots /\ selectedDate st' = value).
  { subst st'. unfold handleDateChange, loadTimeSlots, loadTimeSlots_begin,
      loadTimeSlots_resume, andThen, set, emit, when, skip.
    destruct (List.length (filter (fun s => isAvailable s) slots) =? 0)%nat;
      simpl; split; reflexivity. }
  destruct Hstate as [Hslots Hdate].
  assert (Hopts : timeSlotOptions st' = filter (fun slot => isAvailable slot) slots).
  { unfold timeSlotOptions. rewrite Hdate, Hslots, (truthy_string_true value Hvalue).
    reflexivity. }
  rewrite Hopts. split; [assumption|]. split; [reflexivity|].
  intros s. apply filter_In_iff.
Qed.

End CustomerFacts.

(** ** Times on the wire *)

Lemma pad2_two_digits (n : Z) :
  (0 <= n < 100)%Z -> JSDate.pad2 n = WireFormat.two_digits n.
Proof.
  intros Hn.
  assert (Hk : exists k : nat, (k < 100)%nat /\ n = Z.of_nat k).
  { exists (Z.to_nat n). split; lia. }
  destruct Hk as (k & Hk & ->). clear Hn.
  do 100 (destruct k as [|k]; [vm_compute; reflexivity|]).
  lia.
Qed.

Lemma HourFromTime_range (t : Z) : (0 <= JSDate.HourFromTime t < 24)%Z.
Proof. unfold JSDate.HourFromTime. apply Z.mod_pos_bound. lia. Qed.

Lemma MinFromTime_range (t : Z) : (0 <= JSDate.MinFromTime t < 60)%Z.
Proof. unfold JSDate.MinFromTime. apply Z.mod_pos_bound. lia. Qed.

Lemma SecFromTime_range (t : Z) : (0 <= JSDate.SecFromTime t < 60)%Z.
Proof. unfold JSDate.SecFromTime. apply Z.mod_pos_bound. lia. Qed.

(** The first five characters of [toTimeString] of a valid date are the
    hour and the minute of local time. *)
Lemma toTimeString_slice (h : JSDate.Host) (tv : Z) :
  JS.slice 0 5 (JSDate.toTimeString h (Some tv)) = WireFormat.reduce h tv.
Proof.
  unfold JSDate.toTimeString, JSDate.TimeString, WireFormat.reduce, WireFormat.HHmm.
  pose proof (HourFromTime_range (JSDate.LocalTime h tv)) as Hh.
  pose proof (MinFromTime_range (JSDate.LocalTime h tv)) as Hm.
  rewrite (pad2_two_digits (JSDate.HourFromTime (JSDate.LocalTime h tv))) by lia.
  rewrite (pad2_two_digits (JSDate.MinFromTime (JSDate.LocalTime h tv))) by lia.
  unfold WireFormat.two_digits. reflexivity.
Qed.

Lemma reduce_length (h : JSDate.Host) (tv : Z) :
  String.length (WireFormat.reduce h tv) = 5%nat.
Proof. reflexivity. Qed.

(** ** Booking from the customer page *)
Section BookingFacts.
Import JS Api CustomerPage.
Variable host : JSDate.Host.
Arguments handleBookAppointment : simpl never.

Lemma complete_guard (st : State) :
  complete st ->
  negb (truthy_string (selectedProvider st))
  || negb (truthy_string (selectedDate st))
  || negb (truthy_string (selectedTimeSlot st)) = false.
Proof.
  intros (Hp & Hd & Ht).
  rewrite (truthy_string_true _ Hp), (truthy_string_true _ Hd), (truthy_string_true _ Ht).
  reflexivity.
Qed.

Lemma incomplete_guard (st : State) :
  selectedProvider st = "" \/ selectedDate st = "" \/ selectedTimeSlot st = "" ->
  negb (truthy_string (selectedProvider st))
  || negb (truthy_string (selectedDate st))
  || negb (truthy_string (selectedTimeSlot st)) = true.
Proof.
  intros [H | [H | H]]; rewrite H; simpl;
    repeat (rewrite ?orb_true_r, ?orb_true_l); reflexivity.
Qed.

Ltac run_booking st Hc :=
  unfold handleBookAppointment;
  rewrite (complete_guard st Hc);
  destruct Hc as (?Hp & ?Hd & ?Ht);
  unfold loadTimeSlots_begin, andThen, set, emit, when, skip.

(** With the three selections made, the handler issues one booking request,
    whatever the answer will be. *)
Lemma handleBookAppointment_request (resp : Completion Appointment) (st : State) :
  complete st ->
  bookingRequests (snd (handleBookAppointment host resp st))
  = [{| bar_providerId := selectedProvider st;
        bar_appointmentDate := selectedDate st;
        bar_startTime := formatTimeTo24Hour host (selectedTimeSlot st);
        bar_serviceDescription := or_undefined (serviceDescription st) |}].
Proof.
  intros Hc. run_booking st Hc.
  unfold bookingErrorMessage.
  destruct resp as [a | [name message | v]]; simpl; try reflexivity.
  destruct (includes message "Unique constraint" || includes message "already booked");
    simpl; [|reflexivity].
  rewrite (truthy_string_true _ Hp), (truthy_string_true _ Hd). reflexivity.
Qed.

(** Without them it issues none and leaves the state as it is. *)
Lemma handleBookAppointment_incomplete (resp : Completion Appointment) (st : State) :
  selectedProvider st = "" \/ selectedDate st = "" \/ selectedTimeSlot st = "" ->
  handleBookAppointment host resp st
  = (st, [Toast ToastError "Please complete all selections"]).
Proof.
  intros H. unfold handleBookAppointment. rewrite (incomplete_guard st H). reflexivity.
Qed.

(** C3. When the selected slot's [startTime] parses to an instant, the
    [startTime] of the booking request is the [HH:mm] (24-hour) reduction of
    that instant, read on the client's local clock. *)
Theorem booking_start_time_is_HHmm
    (resp : Completion Appointment) (st : State) (tv : Z) :
  complete st ->
  JSDate.Date host (selectedTimeSlot st) = Some tv ->
  map bar_startTime (bookingRequests (snd (handleBookAppointment host resp st)))
  = [WireFormat.reduce host tv]
  /\ WireFormat.reduce host tv
     = WireFormat.HHmm (JSDate.HourFromTime (JSDate.LocalTime host tv))
                       (JSDate.MinFromTime (JSDate.LocalTime host tv))
  /\ (0 <= JSDate.HourFromTime (JSDate.LocalTime host tv) < 24)%Z
  /\ (0 <= JSDate.MinFromTime (JSDate.LocalTime host tv) < 60)%Z.
Proof.
  intros Hc Hdate. split; [|split; [reflexivity|split]].
  - rewrite (handleBookAppointment_request resp st Hc). simpl.
    unfold formatTimeTo24Hour. rewrite Hdate, toTimeString_slice. reflexivity.
  - apply HourFromTime_range.
  - apply MinFromTime_range.
Qed.

(** C9. After a successful booking the cascading selection is reset: the
    selected provider type, provider, date, time slot and the service
    description are cleared, and the provider, date and slot lists are
    emptied. *)
Theorem successful_booking_resets_selection (a : Appointment) (st : State) :
  complete st ->
  let st' := fst (handleBookAppointment host (Return a) st) in
  selectedProviderType st' = ""
  /\ selectedProvider st' = ""
  /\ selectedDate st' = ""
  /\ selectedTimeSlot st' = ""
  /\ serviceDescription st' = ""
  /\ providers st' = []
  /\ availableDates st' = []
  /\ timeSlots st' = []
  /\ isBooking st' = false.
Proof.
  intros Hc st'. subst st'. run_booking st Hc. simpl.
  repeat split; reflexivity.
Qed.

(** The run of the handler when the booking call rejects. *)
Lemma handleBookAppointment_failure (error : Thrown) (st : State) :
  complete st ->
  handleBookAppointment host (Throw error) st
  = let request :=
      BookAppointment {|
        bar_providerId := selectedProvider st;
        bar_appointmentDate := selectedDate st;
        bar_startTime := formatTimeTo24Hour host (selectedTimeSlot st);
        bar_serviceDescription := or_undefined (serviceDescription st) |} in
    if reportsSlotTaken error then
      (setIsBooking false
         (setSelectedTimeSlot ""
            (setTimeSlots [] (setIsLoadingSlots true (setIsBooking true st)))),
       [request;
        Toast ToastError
          "This time slot is no longer available. Please select another slot.";
        GetAvailableSlots {| asr_providerId := selectedProvider st;
                             asr_date := selectedDate st |}])
    else
      (setIsBooking false (setIsBooking true st),
       [request; Toast ToastError (bookingErrorMessage error)]).
Proof.
  intros Hc. run_booking st Hc. unfold reportsSlotTaken.
  destruct (includes (bookingErrorMessage error) "Unique constraint"
            || includes (bookingErrorMessage error) "already booked"); simpl.
  - rewrite (truthy_string_true _ Hp), (truthy_string_true _ Hd). reflexivity.
  - reflexivity.
Qed.

(** C5, as the code has it. A failure whose message contains
    [Unique constraint] or [already booked] makes the page query the slots
    of the same provider and date again; provider and date stay selected,
    while the slot selection and the slot list are cleared, so that no
    booking can be retried before a slot is chosen anew. Any other failure
    starts no query and leaves the three selections and the lists as they
    were. *)
Theorem failed_booking_requery (error : Thrown) (st : State) :
  complete st ->
  let '(st', effects) := handleBookAppointment host (Throw error) st in
  if reportsSlotTaken error then
    slotQueries effects
    = [{| asr_providerId := selectedProvider st; asr_date := selectedDate st |}]
    /\ selectedProvider st' = selectedProvider st
    /\ selectedDate st' = selectedDate st
    /\ selectedTimeSlot st' = ""
    /\ timeSlots st' = []
    /\ (forall retry, bookingRequests (snd (handleBookAppointment host retry st')) = [])
  else
    slotQueries effects = []
    /\ selectedProvider st' = selectedProvider st
    /\ selectedDate st' = selectedDate st
    /\ selectedTimeSlot st' = selectedTimeSlot st
    /\ timeSlots st' = timeSlots st
    /\ availableDates st' = availableDates st.
Proof.
  intros Hc. rewrite (handleBookAppointment_failure error st Hc). cbv zeta.
  destruct (reportsSlotTaken error).
  - repeat split; try reflexivity.
    intros retry. rewrite handleBookAppointment_incomplete; [reflexivity|].
    right. right. reflexivity.
  - repeat split; reflexivity.
Qed.

End BookingFacts.

(** ** The schedule form *)
Section ScheduleFormFacts.
Import JS Api ProviderPage.

(** For a slot metric that is an integer the guard of [handleSubmit] is
    exact: a request goes out only for a positive one, and a submission with
    a metric of zero or less stops at a validation message with the state
    untouched. *)
Lemma handleSubmit_integer_metric (resp : Completion ScheduleConfig) (st : State) (z : Z) :
  fd_slotMetric (formData st) = Num z ->
  (scheduleRequests (snd (handleSubmit resp st)) <> [] -> (0 < z)%Z)
  /\ ((z <= 0)%Z ->
      scheduleRequests (snd (handleSubmit resp st)) = []
      /\ fst (handleSubmit resp st) = st
      /\ exists message, snd (handleSubmit resp st) = [Toast ToastError message]).
Proof.
  intros Hz. unfold handleSubmit. rewrite Hz.
  destruct (negb (truthy_string (fd_dayOfWeek (formData st)))
            || negb (truthy_string (fd_startTime (formData st)))
            || negb (truthy_string (fd_endTime (formData st)))).
  - split; [intros H; exfalso; apply H; reflexivity|].
    intros _. repeat split. eexists. reflexivity.
  - unfold num_le. destruct (Z.leb_spec z 0) as [Hle | Hgt].
    + split; [intros H; exfalso; apply H; reflexivity|].
      intros _. repeat split. eexists. reflexivity.
    + split; [intros _; assumption | intros Hle; lia].
Qed.

(** C6, at the input where the guard fails. Emptying the slot-metric field
    stores [parseInt("")], which is [NaN]; [NaN <= 0] is false, so the
    submission passes the guard and a [createScheduleConfig] request goes
    out although the slot metric is not greater than 0. *)
Theorem cleared_slot_metric_is_submitted (resp : Completion ScheduleConfig) :
  fd_slotMetric (formData Scenarios.slot_metric_cleared) = NaN
  /\ num_gt (fd_slotMetric (formData Scenarios.slot_metric_cleared)) (Num 0) = false
  /\ scheduleRequests (snd (handleSubmit resp Scenarios.slot_metric_cleared))
     = [{| scr_dayOfWeek := Num 1;
           scr_startTime := "09:00";
           scr_endTime := "17:00";
           scr_slotMetric := NaN;
           scr_isCount := false |}].
Proof.
  split; [reflexivity|]. split; [reflexivity|].
  destruct resp as [c | [name message | v]]; reflexivity.
Qed.

End ScheduleFormFacts.

(** ** The scheduling core *)
Section CoreFacts.
Import Core.
Local Open Scope nat_scope.

Lemma div_step (a len : nat) : 0 < len -> len <= a -> a / len = S ((a - len) / len).
Proof.
  intros Hlen Hle.
  replace a with ((a - len) + 1 * len) at 1 by lia.
  rewrite Nat.div_add by lia. lia.
Qed.

(** The loop emits window [i] at [cur + i * len], for every [i] below the
    number of whole windows that fit before [stop]. *)
Lemma emit_windows_closed_form (provider : string) (date len stop : nat) :
  0 < len ->
  forall fuel cur,
    (stop - cur) / len <= fuel ->
    emit_windows fuel provider date cur len stop
    = map (fun i => {| w_providerId := provider; w_date := date;
                       w_startTime := cur + i * len;
                       w_endTime := cur + (i + 1) * len;
                       w_capacity := 1 |})
          (seq 0 ((stop - cur) / len)).
Proof.
  intros Hlen. induction fuel as [|fuel IH]; intros cur Hfuel.
  - replace ((stop - cur) / len) with 0 by lia. reflexivity.
  - simpl. destruct (Nat.leb_spec (cur + len) stop) as [Hfit | Hover].
    + rewrite (div_step (stop - cur) len) in * by lia.
      replace (stop - cur - len) with (stop - (cur + len)) in * by lia.
      rewrite IH by lia. simpl. f_equal.
      * f_equal; lia.
      * rewrite <- seq_shift, map_map. apply map_ext. intros i. f_equal; lia.
    + rewrite Nat.div_small by lia. reflexivity.
Qed.

Lemma fuel_suffices (a len : nat) : 0 < len -> a / len <= a.
Proof.
  intros Hlen. apply Nat.Div0.div_le_upper_bound. nia.
Qed.

(** The windows of a TimeDivided rule, in closed form. *)
Lemma generate_time_divided (rule : WeeklyScheduleRule) (date : nat) :
  r_slotMode rule = TimeDivided ->
  0 < r_slotMetric rule ->
  generate rule date
  = map (fun i => {| w_providerId := r_providerId rule; w_date := date;
                     w_startTime := r_startTime rule + i * r_slotMetric rule;
                     w_endTime := r_startTime rule + (i + 1) * r_slotMetric rule;
                     w_capacity := 1 |})
        (seq 0 ((r_endTime rule - r_startTime rule) / r_slotMetric rule)).
Proof.
  intros Hmode Hlen. unfold generate. rewrite Hmode.
  apply emit_windows_closed_form; [assumption|].
  apply fuel_suffices. assumption.
Qed.

(** C7. For a TimeDivided rule with a positive slot metric and a date on
    its weekday, the generator emits consecutive windows of [slotMetric]
    minutes from [startTime] on, each of capacity 1 and none ending after
    [endTime]; it stops where the next window would end after [endTime], so
    the remainder, shorter than [slotMetric], is dropped.  The rule 09:00 to
    17:10 with 30-minute slots yields the windows ending at 09:30, 10:00,
    ..., 17:00 and none for 17:00 to 17:10. *)
Theorem time_divided_windows (rule : WeeklyScheduleRule) (date : nat) :
  r_slotMode rule = TimeDivided ->
  0 < r_slotMetric rule ->
  weekday date = r_dayOfWeek rule ->
  let len := r_slotMetric rule in
  let n := (r_endTime rule - r_startTime rule) / len in
  List.length (generate rule date) = n
  /\ (forall i, i < n ->
        nth_error (generate rule date) i
        = Some {| w_providerId := r_providerId rule; w_date := date;
                  w_startTime := r_startTime rule + i * len;
                  w_endTime := r_startTime rule + i * len + len;
                  w_capacity := 1 |})
  /\ (forall w, In w (generate rule date) ->
        w_capacity w = 1
        /\ w_endTime w = w_startTime w + len
        /\ r_startTime rule <= w_startTime w
        /\ w_endTime w <= r_endTime rule)
  /\ r_endTime rule < r_startTime rule + n * len + len
  /\ r_endTime rule - (r_startTime rule + n * len) < len
  /\ map w_endTime (generate Scenarios.monday_rule Scenarios.monday_date)
     = [570; 600; 630; 660; 690; 720; 750; 780; 810; 840; 870; 900; 930; 960; 990; 1020]
  /\ (forall w, In w (generate Scenarios.monday_rule Scenarios.monday_date) ->
        w_startTime w <> 1020).
Proof.
  intros Hmode Hlen Hday len n.
  pose proof (generate_time_divided rule date Hmode Hlen) as Hgen.
  fold len in Hgen. fold n in Hgen.
  assert (Hn : n * len <= r_endTime rule - r_startTime rule).
  { subst n. rewrite Nat.mul_comm. apply Nat.Div0.mul_div_le. }
  assert (Hn' : r_endTime rule - r_startTime rule < n * len + len).
  { subst n. pose proof (Nat.div_mod_eq (r_endTime rule - r_startTime rule) len) as E.
    pose proof (Nat.mod_upper_bound (r_endTime rule - r_startTime rule) len) as U.
    nia. }
  split; [|split; [|split; [|split; [|split; [|split]]]]].
  - rewrite Hgen, length_map, length_seq. reflexivity.
  - intros i Hi. rewrite Hgen, nth_error_map, nth_error_seq.
    destruct (Nat.ltb_spec i n) as [_ | Hge]; [|lia]. simpl. do 2 f_equal. lia.
  - intros w Hw. rewrite Hgen in Hw. apply in_map_iff in Hw as (i & <- & Hi).
    apply in_seq in Hi. simpl. repeat split; nia.
  - lia.
  - lia.
  - vm_compute. reflexivity.
  - intros w Hw. vm_compute in Hw.
    repeat (destruct Hw as [<- | Hw]; [vm_compute; discriminate|]). contradiction.
Qed.

(** *** Where windows come from *)

Lemma emit_windows_In (provider : string) (date len stop : nat) (w : TimeWindow) :
  forall fuel cur,
    In w (emit_windows fuel provider date cur len stop) ->
    w_providerId w = provider /\ w_date w = date /\ w_capacity w = 1.
Proof.
  induction fuel as [|fuel IH]; intros cur Hin; simpl in Hin; [contradiction|].
  destruct (cur + len <=? stop); [|contradiction].
  destruct Hin as [<- | Hin]; [repeat split | eapply IH; eassumption].
Qed.

Lemma generate_In (rule : WeeklyScheduleRule) (date : nat) (w : TimeWindow) :
  In w (generate rule date) ->
  w_providerId w = r_providerId rule
  /\ w_date w = date
  /\ w_capacity w = match r_slotMode rule with
                    | TimeDivided => 1
                    | CountBased => r_slotMetric rule
                    end.
Proof.
  unfold generate. destruct (r_slotMode rule); intros Hin.
  - apply emit_windows_In in Hin. assumption.
  - destruct Hin as [<- | []]. repeat split.
Qed.

Lemma insert_window_In (w x : TimeWindow) (ws : list TimeWindow) :
  In x (insert_window w ws) <-> x = w \/ In x ws.
Proof.
  induction ws as [|y ws IH]; simpl.
  - intuition congruence.
  - destruct (window_leb w y); simpl; [intuition congruence|].
    rewrite IH. intuition congruence.
Qed.

Lemma sort_windows_In (x : TimeWindow) (ws : list TimeWindow) :
  In x (sort_windows ws) <-> In x ws.
Proof.
  unfold sort_windows. induction ws as [|y ws IH]; simpl; [reflexivity|].
  rewrite insert_window_In, IH. intuition congruence.
Qed.

(** Every window of a provider on a date stems from one of the provider's
    rules for that weekday. *)
Lemma windows_on_In (rs : list WeeklyScheduleRule) (provider : string) (date : nat)
    (w : TimeWindow) :
  In w (windows_on rs provider date) ->
  exists rule, In rule rs /\ applies provider date rule = true
               /\ In w (generate rule date)
               /\ w_providerId w = provider /\ w_date w = date.
Proof.
  unfold windows_on. rewrite sort_windows_In, in_flat_map.
  intros (rule & Hrule & Hin). apply filter_In in Hrule as [Hrs Happ].
  exists rule. destruct (generate_In rule date w Hin) as (Hp & Hd & _).
  unfold applies in Happ. apply andb_true_iff in Happ as [Hprov Hday].
  apply String.eqb_eq in Hprov.
  repeat split; try assumption.
  - unfold applies. rewrite Hprov, String.eqb_refl, Hday. reflexivity.
  - congruence.
Qed.

Lemma resolve_inr (ws : list TimeWindow) (startTime : nat) (w : TimeWindow) :
  resolve ws startTime = inr w -> In w ws /\ w_startTime w = startTime.
Proof.
  unfold resolve.
  destruct (filter _ ws) as [|x covering] eqn:Hcov; [discriminate|].
  destruct (find _ (x :: covering)) as [w'|] eqn:Hfind; [|discriminate].
  intros [= <-]. apply find_some in Hfind as [Hin Hstart].
  rewrite <- Hcov in Hin. apply filter_In in Hin as [Hin _].
  split; [assumption | apply Nat.eqb_eq; assumption].
Qed.

(** An admitted booking takes its end from the window resolved for its
    start, among the windows generated from the current rules. *)
Lemma book_end_time (b b' : Backend) (customer provider : string) (date startTime : nat)
    (description : option string) (a : Appointment) :
  book b customer provider date startTime description = inr (a, b') ->
  exists w,
    resolve (windows_on (rules b) provider date) startTime = inr w
    /\ In w (windows_on (rules b) provider date)
    /\ w_startTime w = startTime
    /\ a_startTime a = startTime
    /\ a_endTime a = w_endTime w
    /\ a_status a = scheduled.
Proof.
  unfold book.
  destruct (resolve (windows_on (rules b) provider date) startTime) as [f|w] eqn:Hres;
    [discriminate|].
  destruct (out_of_horizon b provider date); [discriminate|].
  destruct (remaining (ledger b) w <=? 0)%Z; [discriminate|].
  intros [= <- <-]. exists w. destruct (resolve_inr _ _ _ Hres) as [Hin Hstart].
  repeat split; assumption.
Qed.

End CoreFacts.

(** ** Concurrent calls against one window *)
Section AdmissionRun.
Import Core.
Local Open Scope nat_scope.

Variables (provider : string) (date startTime : nat).
Variables (b0 : Backend) (w : TimeWindow).
Hypothesis resolved : resolve (windows_on (rules b0) provider date) startTime = inr w.
Hypothesis in_horizon : out_of_horizon b0 provider date = false.

Local Abbreviation booked := (Core.booked provider date startTime w).

Lemma window_identity :
  w_providerId w = provider /\ w_date w = date /\ w_startTime w = startTime.
Proof.
  destruct (resolve_inr _ _ _ resolved) as [Hin Hstart].
  apply windows_on_In in Hin as (rule & _ & _ & _ & Hp & Hd).
  repeat split; assumption.
Qed.

Lemma remaining_booked (b : Backend) :
  remaining (ledger b) w = (Z.of_nat (w_capacity w) - Z.of_nat (booked b))%Z.
Proof.
  unfold remaining, Core.booked. destruct window_identity as (-> & -> & ->). reflexivity.
Qed.

Lemma countScheduled_snoc (l : list Appointment) (a : Appointment)
    (p : string) (d s e : nat) :
  countScheduled (l ++ [a]) p d s e
  = countScheduled l p d s e + (if occupies p d s e a then 1 else 0).
Proof.
  unfold countScheduled. rewrite filter_app, length_app. simpl.
  destruct (occupies p d s e a); reflexivity.
Qed.

(** In the configuration of [b0] a call is admitted exactly while the
    window has room, and an admitted call takes one place in it. *)
Lemma book_in_window (b : Backend) (customer : string) (description : option string) :
  rules b = rules b0 ->
  bookingLimitDays b provider = bookingLimitDays b0 provider ->
  today b = today b0 ->
  (booked b < w_capacity w ->
     exists a b',
       book b customer provider date startTime description = inr (a, b')
       /\ rules b' = rules b0
       /\ bookingLimitDays b' provider = bookingLimitDays b0 provider
       /\ today b' = today b0
       /\ booked b' = S (booked b))
  /\ (w_capacity w <= booked b ->
        book b customer provider date startTime description = inl SlotFull).
Proof.
  intros Hrules Hlimit Htoday.
  assert (Hhor : out_of_horizon b provider date = false).
  { unfold out_of_horizon in *. rewrite Hlimit, Htoday. assumption. }
  unfold book. rewrite Hrules, resolved, Hhor, remaining_booked.
  split; intros Hroom.
  - destruct (Z.leb_spec (Z.of_nat (w_capacity w) - Z.of_nat (booked b)) 0); [lia|].
    eexists. eexists. split; [reflexivity|]. simpl.
    repeat split; try assumption.
    unfold Core.booked. simpl. rewrite countScheduled_snoc.
    unfold occupies. simpl.
    rewrite String.eqb_refl, !Nat.eqb_refl. simpl. lia.
  - destruct (Z.leb_spec (Z.of_nat (w_capacity w) - Z.of_nat (booked b)) 0); [reflexivity|lia].
Qed.

Lemma length_remove_middle {A : Type} (before after : list A) (c : A) :
  List.length (before ++ c :: after) = S (List.length (before ++ after)).
Proof. rewrite !length_app. simpl. lia. Qed.

Lemma step_keeps_invariant (n : nat) (s s' : System) :
  run_invariant provider date startTime b0 w n s ->
  step provider date startTime s s' ->
  run_invariant provider date startTime b0 w n s'.
Proof.
  unfold run_invariant. cbv zeta.
  intros (Hrules & Hlimit & Htoday & Hcount & Hcap & Hsum & Hlen & Hfull) Hstep.
  destruct Hstep as [b before c after outs f Hbook | b before c after outs a b' Hbook];
    simpl in *;
    destruct (book_in_window b (c_customerId c) (c_serviceDescription c)
                Hrules Hlimit Htoday) as [Hadmit Hreject].
  - assert (Hfullnow : w_capacity w <= booked b).
    { destruct (Nat.le_gt_cases (w_capacity w) (booked b)) as [Hle | Hlt]; [assumption|].
      destruct (Hadmit Hlt) as (a & b' & Hb & _). congruence. }
    rewrite (Hreject Hfullnow) in Hbook. injection Hbook as <-.
    rewrite length_remove_middle in Hlen.
    unfold successes, slot_full_failures in *. simpl.
    repeat split; try assumption; try lia.
  - assert (Hroom : booked b < w_capacity w).
    { destruct (Nat.le_gt_cases (w_capacity w) (booked b)) as [Hle | Hlt]; [|assumption].
      rewrite (Hreject Hle) in Hbook. discriminate. }
    destruct (Hadmit Hroom) as (a' & b'' & Hb & Hrules' & Hlimit' & Htoday' & Hbooked').
    rewrite Hb in Hbook. injection Hbook as <- <-.
    rewrite length_remove_middle in Hlen.
    unfold successes, slot_full_failures in *. simpl.
    repeat split; try assumption; try lia.
Qed.

Lemma steps_keep_invariant (n : nat) (s s' : System) :
  steps provider date startTime s s' ->
  run_invariant provider date startTime b0 w n s ->
  run_invariant provider date startTime b0 w n s'.
Proof.
  induction 1 as [s | s1 s2 s3 Hstep _ IH]; intros Hinv; [assumption|].
  apply IH. eapply step_keeps_invariant; eassumption.
Qed.

Lemma initial_invariant (calls : list Call) :
  booked b0 <= w_capacity w ->
  run_invariant provider date startTime b0 w (List.length calls)
    {| backend := b0; pending := calls; outcomes := [] |}.
Proof.
  intros Hcap. unfold run_invariant, successes, slot_full_failures. simpl.
  repeat split; try assumption; try lia.
Qed.

(** C8. Let [N] calls run concurrently against one window that starts
    empty, each admission being atomic. However the calls are ordered,
    once all have returned exactly [min N K] have succeeded, [K] being the
    capacity of the window, and every other call has failed with
    [SlotFull]. For the window of a TimeDivided rule and [N >= 1] that is
    1 success and [N - 1] [SlotFull] failures; for a CountBased rule it is
    [min N slotMetric] successes. *)
Theorem concurrent_calls_fill_the_window (calls : list Call) (final : System) :
  booked b0 = 0 ->
  steps provider date startTime
    {| backend := b0; pending := calls; outcomes := [] |} final ->
  pending final = [] ->
  let N := List.length calls in
  let K := w_capacity w in
  successes (outcomes final) = Nat.min N K
  /\ slot_full_failures (outcomes final) = N - Nat.min N K
  /\ List.length (outcomes final) = N
  /\ (forall rule, In w (generate rule date) -> r_slotMode rule = TimeDivided ->
        1 <= N ->
        successes (outcomes final) = 1
        /\ slot_full_failures (outcomes final) = N - 1)
  /\ (forall rule, In w (generate rule date) -> r_slotMode rule = CountBased ->
        successes (outcomes final) = Nat.min N (r_slotMetric rule)).
Proof.
  intros Hempty Hrun Hdone N K.
  assert (Hinv : run_invariant provider date startTime b0 w N final).
  { eapply steps_keep_invariant; [eassumption|].
    apply initial_invariant. lia. }
  unfold run_invariant in Hinv. cbv zeta in Hinv.
  destruct Hinv as (_ & _ & _ & Hcount & Hcap & Hsum & Hlen & Hfull).
  rewrite Hdone in Hlen. simpl in Hlen. rewrite Hempty in Hcount. simpl in Hcount.
  assert (Hsucc : successes (outcomes final) = Nat.min N K).
  { subst K. destruct (Nat.eq_0_gt_0_cases (slot_full_failures (outcomes final)))
      as [Hnone | Hsome].
    - lia.
    - specialize (Hfull Hsome). lia. }
  split; [assumption|]. split; [lia|]. split; [lia|]. split.
  - intros rule Hin Hmode HN.
    destruct (generate_In rule date w Hin) as (_ & _ & HK). rewrite Hmode in HK.
    fold K in HK. lia.
  - intros rule Hin Hmode.
    destruct (generate_In rule date w Hin) as (_ & _ & HK). rewrite Hmode in HK.
    fold K in HK. lia.
Qed.

(** Serving the calls in order of arrival is one of the runs. *)
Lemma serve_is_a_run (calls : list Call) :
  forall b outs,
    steps provider date startTime
      {| backend := b; pending := calls; outcomes := outs |}
      {| backend := fst (serve b provider date startTime calls);
         pending := [];
         outcomes := (snd (serve b provider date startTime calls) ++ outs)%list |}.
Proof.
  induction calls as [|c rest IH]; intros b outs; simpl.
  - apply steps_refl.
  - destruct (book b (c_customerId c) provider date startTime (c_serviceDescription c))
      as [f | [a b1]] eqn:Hbook.
    + destruct (serve b provider date startTime rest) as [b' outs'] eqn:Hserve.
      simpl. eapply steps_step.
      * apply (step_rejected provider date startTime b [] c rest outs f Hbook).
      * simpl. specialize (IH b ((c, inl f) :: outs)). rewrite Hserve in IH.
        simpl in IH. rewrite <- app_assoc. simpl. exact IH.
    + destruct (serve b1 provider date startTime rest) as [b' outs'] eqn:Hserve.
      simpl. eapply steps_step.
      * apply (step_admitted provider date startTime b [] c rest outs a b1 Hbook).
      * simpl. specialize (IH b1 ((c, inr a) :: outs)). rewrite Hserve in IH.
        simpl in IH. rewrite <- app_assoc. simpl. exact IH.
Qed.

End AdmissionRun.

(** ** What the client sends and what the engine derives *)
Section RequestShape.
Import JS Api CustomerPage.
Variable host : JSDate.Host.

Lemma complete_dec (st : State) :
  complete st
  \/ (selectedProvider st = "" \/ selectedDate st = "" \/ selectedTimeSlot st = "").
Proof.
  unfold complete.
  destruct (string_dec (selectedProvider st) ""); [right; left; assumption|].
  destruct (string_dec (selectedDate st) ""); [right; right; left; assumption|].
  destruct (string_dec (selectedTimeSlot st) ""); [right; right; right; assumption|].
  left. repeat split; assumption.
Qed.

(** C4. The body of every booking request the page sends has exactly the
    properties [providerId], [appointmentDate], [startTime] and, when the
    description field is not empty, [serviceDescription]; it has no
    [endTime]. The engine takes the [endTime] of the appointment from the
    window it resolves for the requested start among the windows generated
    from the current rules. *)
Theorem booking_request_fields
    (resp : Completion Appointment) (st : State) (r : BookAppointmentRequest) :
  In r (bookingRequests (snd (handleBookAppointment host resp st))) ->
  map fst (book_body r)
  = (["providerId"; "appointmentDate"; "startTime"]
     ++ if truthy_string (serviceDescription st) then ["serviceDescription"] else [])%list
  /\ ~ In "endTime" (map fst (book_body r))
  /\ (forall b b' customer provider date startTime description a,
        Core.book b customer provider date startTime description = inr (a, b') ->
        exists w,
          Core.resolve (Core.windows_on (Core.rules b) provider date) startTime = inr w
          /\ In w (Core.windows_on (Core.rules b) provider date)
          /\ Core.w_startTime w = startTime
          /\ Core.a_endTime a = Core.w_endTime w).
Proof.
  intros Hin.
  assert (Hkeys : map fst (book_body r)
                  = (["providerId"; "appointmentDate"; "startTime"]
                     ++ if truthy_string (serviceDescription st)
                        then ["serviceDescription"] else [])%list).
  { destruct (complete_dec st) as [Hc | Hinc].
    - rewrite (handleBookAppointment_request host resp st Hc) in Hin.
      destruct Hin as [<- | []]. unfold book_body, or_undefined. simpl.
      destruct (truthy_string (serviceDescription st)); reflexivity.
    - rewrite (handleBookAppointment_incomplete host resp st Hinc) in Hin.
      contradiction. }
  split; [assumption|]. split.
  - rewrite Hkeys. destruct (truthy_string (serviceDescription st)); simpl;
      intros H; repeat (destruct H as [H | H]; [discriminate|]); contradiction.
  - intros b b' customer provider date startTime description a Hbook.
    destruct (book_end_time _ _ _ _ _ _ _ _ Hbook) as (w & Hres & Hw & Hstart & _ & Hend & _).
    exists w. repeat split; assumption.
Qed.

End RequestShape.

(* ===================================================================== *)
(** * Part III. The properties at concrete inputs                         *)
(* ===================================================================== *)

Section Instances.
Import JS Api.

Lemma slot_chosen_complete : CustomerPage.complete Scenarios.slot_chosen.
Proof. unfold CustomerPage.complete. repeat split; vm_compute; discriminate. Defined.

(** Of Monday, Tuesday (unavailable) and Wednesday, the date select offers
    Monday and Wednesday. *)
Lemma rendered_dates_witness :
  CustomerPage.dateOptions
    (fst (CustomerPage.handleProviderChange "p1"
            (Return [Scenarios.monday; Scenarios.tuesday; Scenarios.wednesday])
            CustomerPage.initial))
  = [Scenarios.monday; Scenarios.wednesday].
Proof.
  destruct (rendered_dates_are_the_available_ones "p1"
              [Scenarios.monday; Scenarios.tuesday; Scenarios.wednesday]
              CustomerPage.initial ltac:(discriminate)) as [H _].
  exact H.
Defined.

(** Of the two slots returned, both are stored and the free one is
    offered. *)
Lemma stored_and_selectable_witness :
  let st' := fst (CustomerPage.handleDateChange "2025-01-06"
                    (Return [Scenarios.nine; Scenarios.half_past_nine])
                    CustomerPage.initial) in
  CustomerPage.timeSlots st' = [Scenarios.nine; Scenarios.half_past_nine]
  /\ CustomerPage.timeSlotOptions st' = [Scenarios.nine].
Proof.
  destruct (stored_slots_and_selectable_slots "2025-01-06"
              [Scenarios.nine; Scenarios.half_past_nine]
              CustomerPage.initial ltac:(discriminate)) as (H1 & H2 & _).
  split; [exact H1 | exact H2].
Defined.

(** The slot of 09:00 UTC is requested as 14:30 by a client in Kolkata. *)
Lemma booking_start_time_witness :
  map bar_startTime
    (CustomerPage.bookingRequests
       (snd (CustomerPage.handleBookAppointment Scenarios.kolkata
               (Return Scenarios.booked) Scenarios.slot_chosen)))
  = ["14:30"].
Proof.
  destruct (booking_start_time_is_HHmm Scenarios.kolkata (Return Scenarios.booked)
              Scenarios.slot_chosen 1736154000000
              slot_chosen_complete ltac:(vm_compute; reflexivity)) as [H _].
  exact H.
Defined.

(** The same slot is requested as 09:00 by a client on UTC. *)
Example booking_start_time_utc :
  map bar_startTime
    (CustomerPage.bookingRequests
       (snd (CustomerPage.handleBookAppointment Scenarios.utc
               (Return Scenarios.booked) Scenarios.slot_chosen)))
  = ["09:00"].
Proof. vm_compute. reflexivity. Qed.

(** A slot whose start does not parse is requested as the first five
    characters of [Invalid Date]. *)
Example booking_start_time_invalid :
  CustomerPage.formatTimeTo24Hour Scenarios.utc "09:00" = "Inval".
Proof. vm_compute. reflexivity. Qed.

Lemma booking_request_fields_witness :
  map fst (book_body {| bar_providerId := "p1";
                        bar_appointmentDate := "2025-01-06";
                        bar_startTime := "09:00";
                        bar_serviceDescription := None |})
  = ["providerId"; "appointmentDate"; "startTime"].
Proof.
  destruct (booking_request_fields Scenarios.utc (Return Scenarios.booked)
              Scenarios.slot_chosen
              {| bar_providerId := "p1";
                 bar_appointmentDate := "2025-01-06";
                 bar_startTime := "09:00";
                 bar_serviceDescription := None |}
              ltac:(vm_compute; left; reflexivity)) as [H _].
  exact H.
Defined.

Lemma successful_booking_witness :
  let st' := fst (CustomerPage.handleBookAppointment Scenarios.utc
                    (Return Scenarios.booked) Scenarios.slot_chosen) in
  CustomerPage.selectedProvider st' = "" /\ CustomerPage.timeSlots st' = [].
Proof.
  destruct (successful_booking_resets_selection Scenarios.utc Scenarios.booked
              Scenarios.slot_chosen slot_chosen_complete)
    as (_ & Hp & _ & _ & _ & _ & _ & Hs & _).
  split; [exact Hp | exact Hs].
Defined.

(** C5 as stated fails: after the conflict the slots are queried again, but
    the slot selection is gone. *)
Lemma conflict_clears_slot_choice :
  CustomerPage.reportsSlotTaken Scenarios.conflict = true
  /\ CustomerPage.selectedTimeSlot Scenarios.slot_chosen = "2025-01-06T09:00:00.000Z"
  /\ CustomerPage.selectedTimeSlot
       (fst (CustomerPage.handleBookAppointment Scenarios.utc
               (Throw Scenarios.conflict) Scenarios.slot_chosen)) = ""
  /\ ~ CustomerPage.selections_kept Scenarios.slot_chosen
         (fst (CustomerPage.handleBookAppointment Scenarios.utc
                 (Throw Scenarios.conflict) Scenarios.slot_chosen)).
Proof.
  repeat split; try (vm_compute; reflexivity).
  intros (_ & _ & H). vm_compute in H. discriminate.
Qed.

Lemma failed_booking_requery_witness :
  CustomerPage.slotQueries
    (snd (CustomerPage.handleBookAppointment Scenarios.utc
            (Throw Scenarios.conflict) Scenarios.slot_chosen))
  = [{| asr_providerId := "p1"; asr_date := "2025-01-06" |}].
Proof.
  pose proof (failed_booking_requery Scenarios.utc Scenarios.conflict
                Scenarios.slot_chosen slot_chosen_complete) as H.
  destruct (CustomerPage.handleBookAppointment Scenarios.utc
              (Throw Scenarios.conflict) Scenarios.slot_chosen) as [st' effects].
  replace (CustomerPage.reportsSlotTaken Scenarios.conflict) with true in H
    by (vm_compute; reflexivity).
  destruct H as [H _]. exact H.
Defined.

(** A failure of another kind starts no query and keeps the selections. *)
Example other_failure_keeps_selection :
  let run := CustomerPage.handleBookAppointment Scenarios.utc
               (Throw (ErrorObject "Error" "Provider not found")) Scenarios.slot_chosen in
  CustomerPage.slotQueries (snd run) = []
  /\ CustomerPage.selections_kept Scenarios.slot_chosen (fst run).
Proof. vm_compute. repeat split; reflexivity. Qed.

(** With the field holding 0 the form stops at its validation message. *)
Example zero_slot_metric_is_refused :
  ProviderPage.handleSubmit (Throw (ErrorObject "Error" "unreachable"))
    (ProviderPage.changeSlotMetric "0" Scenarios.slot_metric_cleared)
  = (ProviderPage.changeSlotMetric "0" Scenarios.slot_metric_cleared,
     [ProviderPage.Toast ProviderPage.ToastError "Slot metric must be greater than 0"]).
Proof. vm_compute. reflexivity. Qed.

Lemma handleSubmit_integer_metric_witness :
  ProviderPage.scheduleRequests
    (snd (ProviderPage.handleSubmit (Throw (ErrorObject "Error" "unreachable"))
            (ProviderPage.changeSlotMetric "0" Scenarios.slot_metric_cleared)))
  = [].
Proof.
  destruct (handleSubmit_integer_metric (Throw (ErrorObject "Error" "unreachable"))
              (ProviderPage.changeSlotMetric "0" Scenarios.slot_metric_cleared)
              0%Z eq_refl) as [_ H].
  destruct (H ltac:(lia)) as [H0 _]. exact H0.
Defined.

Lemma time_divided_windows_witness :
  List.length (Core.generate Scenarios.monday_rule Scenarios.monday_date) = 16%nat.
Proof.
  destruct (time_divided_windows Scenarios.monday_rule Scenarios.monday_date
              eq_refl ltac:(vm_compute; lia) eq_refl) as [H _].
  exact H.
Defined.

(** Three callers race for the Tuesday window of capacity 2: two are
    admitted, one is told the slot is full. *)
Lemma concurrent_calls_witness :
  let final := {|
    Core.backend := fst (Core.serve Scenarios.engine "p1" Scenarios.tuesday_date 540
                           Scenarios.three_callers);
    Core.pending := [];
    Core.outcomes := (snd (Core.serve Scenarios.engine "p1" Scenarios.tuesday_date 540
                             Scenarios.three_callers) ++ [])%list |} in
  Core.successes (Core.outcomes final) = 2%nat
  /\ Core.slot_full_failures (Core.outcomes final) = 1%nat.
Proof.
  intros final.
  destruct (concurrent_calls_fill_the_window "p1" Scenarios.tuesday_date 540
              Scenarios.engine Scenarios.tuesday_window
              ltac:(vm_compute; reflexivity) ltac:(vm_compute; reflexivity)
              Scenarios.three_callers final
              ltac:(vm_compute; reflexivity)
              (serve_is_a_run "p1" Scenarios.tuesday_date 540
                 Scenarios.three_callers Scenarios.engine [])
              eq_refl) as (H1 & H2 & _).
  split; [exact H1 | exact H2].
Defined.

(** Three callers race for the Monday slot at 09:00: one is admitted, two
    are told the slot is full. *)
Example monday_race :
  let outs := snd (Core.serve Scenarios.engine "p1" Scenarios.monday_date 540
                     Scenarios.three_callers) in
  Core.successes outs = 1%nat /\ Core.slot_full_failures outs = 2%nat.
Proof. vm_compute. split; reflexivity. Qed.

(** The scenario of the specification: two slots on Monday; the first
    booking of 09:00 is admitted and ends at 09:30; afterwards the first
    slot is full, the second still free, and a second booking of 09:00 is
    refused with [SlotFull]. *)
Example monday_scenario :
  map (fun s => (Core.w_startTime (Core.s_window s), Core.w_endTime (Core.s_window s),
                 Core.s_isAvailable s))
      (Core.availableSlots Scenarios.engine "p2" Scenarios.monday_date)
  = [(540, 570, true); (570, 600, true)]%nat
  /\ exists a b1,
       Core.book Scenarios.engine "c1" "p2" Scenarios.monday_date 540 None = inr (a, b1)
       /\ Core.a_endTime a = 570%nat
       /\ map Core.s_isAvailable (Core.availableSlots b1 "p2" Scenarios.monday_date)
          = [false; true]
       /\ Core.book b1 "c2" "p2" Scenarios.monday_date 540 None = inl Core.SlotFull.
Proof.
  split; [vm_compute; reflexivity|].
  eexists. eexists. split; [vm_compute; reflexivity|].
  repeat split; vm_compute; reflexivity.
Qed.

End Instances.

(* ===================================================================== *)
(** * Part IV. Further properties of the client                           *)
(* ===================================================================== *)

(** ** The API service: failures, unwrapping, the appointment list *)
Section ApiClientFacts.
Import JS Api ApiClient.



(** X3. [getProviderAppointments] rejects exactly where [request] does, with
    the same error, and otherwise returns an array: the response itself
    when it is an array, the [data] of the response when the response is
    an object whose [data] is an array, and the empty array together with
    a report of the unexpected format for every other response, [null],
    texts, numbers and objects without an array under [data] included. *)
Theorem appointment_list_is_always_an_array (o : FetchOutcome) :
  match getProviderAppointments o with
  | Return (v, reported) =>
      (exists items, v = VArray items)
      /\ (reported = true -> v = VArray [])
      /\ (exists response, request o = Return response)
  | Throw e => request o = Throw e
  end
  /\ (forall e, request o = Throw e -> getProviderAppointments o = Throw e)
  /\ (forall items,
        request o = Return (VArray items) ->
        getProviderAppointments o = Return (VArray items, false))
  /\ (forall fields items,
        request o = Return (VObject fields) ->
        lookup "data" fields = Some (VArray items) ->
        getProviderAppointments o = Return (VArray items, false))
  /\ (forall response,
        request o = Return response ->
        (forall items, response <> VArray items) ->
        (forall fields items,
           response = VObject fields -> lookup "data" fields <> Some (VArray items)) ->
        getProviderAppointments o = Return (VArray [], true)).
Proof.
  repeat match goal with |- _ /\ _ => split end.
  - unfold getProviderAppointments.
    destruct (request o) as [response | e]; simpl; [|reflexivity].
    destruct response as [| |b|n|s|items|fields]; simpl;
      repeat match goal with
             | |- context [if ?c then _ else _] => destruct c; simpl
             | |- context [match lookup ?k ?f with _ => _ end] =>
                 destruct (lookup k f) as [[| |?|?|?|?|?]|]; simpl
             | |- context [match ?n with NaN => _ | Num _ => _ end] => destruct n; simpl
             end;
      repeat split; try (intros; discriminate); eauto.
  - intros e He. unfold getProviderAppointments. rewrite He. reflexivity.
  - intros items Hr. unfold getProviderAppointments. rewrite Hr. reflexivity.
  - intros fields items Hr Hd. unfold getProviderAppointments. rewrite Hr. simpl.
    rewrite Hd. reflexivity.
  - intros response Hr Harr Hobj. unfold getProviderAppointments. rewrite Hr. simpl.
    destruct response as [| |b|n|s|items|fields]; simpl;
      try reflexivity;
      try (repeat match goal with
                  | |- context [if ?c then _ else _] => destruct c; simpl
                  | |- context [match ?n with NaN => _ | Num _ => _ end] =>
                      destruct n; simpl
                  end; reflexivity).
    + exfalso. apply (Harr items). reflexivity.
    + destruct (lookup "data" fields) as [d|] eqn:Hd; simpl; [|reflexivity].
      destruct d as [| |b|n|str|items|inner]; try reflexivity.
      exfalso. apply (Hobj fields items eq_refl). assumption.
Qed.

Lemma getItem_removeItem_same (key : string) (s : Storage) :
  getItem key (removeItem key s) = None.
Proof.
  unfold removeItem. induction s as [|[k v] s IH]; simpl; [reflexivity|].
  destruct (String.eqb_spec key k) as [-> | Hne]; simpl; [assumption|].
  destruct (String.eqb_spec key k); [contradiction | assumption].
Qed.

Lemma getItem_removeItem_other (key other : string) (s : Storage) :
  other <> key -> getItem other (removeItem key s) = getItem other s.
Proof.
  intros Hne. unfold removeItem. induction s as [|[k v] s IH]; simpl; [reflexivity|].
  destruct (String.eqb_spec key k) as [-> | Hk]; simpl.
  - destruct (String.eqb_spec other k); [contradiction | assumption].
  - destruct (String.eqb_spec other k); [reflexivity | assumption].
Qed.

(** X4. The token written by [setToken] is the one [getToken] reads, the
    empty text included. A request made afterwards by a caller that passes
    no headers of its own carries [Content-Type: application/json] and,
    exactly when the token is not empty, [Authorization: Bearer] with that
    token: an empty token is stored and read back but sends no
    [Authorization] header. After [clearToken] there is no token and no
    [Authorization] header. Keys other than the token's are left alone. *)
Theorem token_round_trip (token : string) (s : Storage) :
  getToken (setToken token s) = Some token
  /\ getToken (clearToken s) = None
  /\ (forall key, key <> "accessToken" ->
        getItem key (setToken token s) = getItem key s
        /\ getItem key (clearToken s) = getItem key s)
  /\ (forall env endpoint options,
        token <> "" -> ri_headers options = [] ->
        fc_headers (fetch_call env (setToken token s) endpoint options)
        = [("Content-Type", "application/json"); ("Authorization", "Bearer " ++ token)])
  /\ (forall env endpoint options,
        ri_headers options = [] ->
        fc_headers (fetch_call env (clearToken s) endpoint options)
        = [("Content-Type", "application/json")])
  /\ (forall env endpoint options,
        token = "" -> ri_headers options = [] ->
        fc_headers (fetch_call env (setToken token s) endpoint options)
        = [("Content-Type", "application/json")])
  /\ (forall env endpoint options,
        ri_headers options = [] ->
        (header "Authorization"
           (fc_headers (fetch_call env (setToken token s) endpoint options))
         = if token =? "" then None else Some ("Bearer " ++ token))
        /\ header "Content-Type"
             (fc_headers (fetch_call env (setToken token s) endpoint options))
           = Some "application/json").
Proof.
  repeat match goal with |- _ /\ _ => split end.
  - reflexivity.
  - apply getItem_removeItem_same.
  - intros key Hne. split.
    + unfold setToken, setItem. simpl.
      destruct (String.eqb_spec key "accessToken"); [contradiction|].
      apply getItem_removeItem_other. assumption.
    + apply getItem_removeItem_other. assumption.
  - intros env endpoint options Hne Hh. unfold fetch_call. rewrite Hh.
    replace (getToken (setToken token s)) with (Some token) by reflexivity.
    cbv zeta. rewrite (truthy_string_true token Hne). reflexivity.
  - intros env endpoint options Hh. unfold fetch_call, getToken, clearToken.
    rewrite Hh, getItem_removeItem_same. reflexivity.
  - intros env endpoint options -> Hh. unfold fetch_call. rewrite Hh. reflexivity.
  - intros env endpoint options Hh. unfold fetch_call. rewrite Hh.
    replace (getToken (setToken token s)) with (Some token) by reflexivity.
    cbv zeta. unfold truthy_string.
    destruct (String.eqb_spec token "") as [-> | Hne]; split; reflexivity.
Qed.

Lemma header_assign (k k' v : string) (h : Headers) :
  header k (assign k' v h) = if k =? k' then Some v else header k h.
Proof.
  induction h as [|[k0 v0] h IH]; simpl.
  - destruct (k =? k'); reflexivity.
  - destruct (String.eqb_spec k' k0) as [-> | Hne]; simpl.
    + destruct (k =? k0); reflexivity.
    + rewrite IH. destruct (String.eqb_spec k k0) as [-> | Hk]; [|reflexivity].
      destruct (String.eqb_spec k0 k'); [congruence | reflexivity].
Qed.

Lemma header_spread_fold (k : string) (extra : Headers) :
  forall base,
    header k (spread base extra)
    = fold_left (fun acc kv => if k =? fst kv then Some (snd kv) else acc)
                extra (header k base).
Proof.
  unfold spread. induction extra as [|[k0 v0] extra IH]; intros base; simpl.
  - reflexivity.
  - rewrite IH, header_assign. reflexivity.
Qed.

Lemma last_wins_default (k : string) (extra : Headers) :
  forall init,
    fold_left (fun acc kv => if k =? fst kv then Some (snd kv) else acc) extra init
    = match fold_left (fun acc kv => if k =? fst kv then Some (snd kv) else acc)
                      extra None with
      | Some v => Some v
      | None => init
      end.
Proof.
  induction extra as [|[k0 v0] extra IH]; intros init; simpl; [reflexivity|].
  destruct (k =? k0).
  - rewrite (IH (Some v0)).
    destruct (fold_left _ extra None); reflexivity.
  - apply IH.
Qed.

(** A header of the service survives the caller's headers unless the caller
    sets it too. *)
Lemma header_kept_by_spread (k v : string) (base extra : Headers) :
  header k base = Some v ->
  header k (spread [] extra) = None ->
  header k (spread base extra) = Some v.
Proof.
  intros Hbase Hnone. rewrite header_spread_fold in *. simpl in Hnone.
  rewrite last_wins_default, Hnone. assumption.
Qed.

End ApiClientFacts.

(** ** The customer page: guards, resets and failures *)
Section CustomerPageFacts.
Import JS Api CustomerPage CustomerEvents.
Variable host : JSDate.Host.
Arguments handleBookAppointment : simpl never.

(** X5. A booking request goes out exactly when a provider, a date and a slot
    are selected; otherwise the handler only shows its message and leaves
    the state as it is. *)
Theorem booking_needs_all_selections (resp : Completion Appointment) (st : State) :
  (bookingRequests (snd (handleBookAppointment host resp st)) <> [] <-> complete st)
  /\ (~ complete st ->
      handleBookAppointment host resp st
      = (st, [Toast ToastError "Please complete all selections"])).
Proof.
  destruct (complete_dec st) as [Hc | Hinc].
  - split.
    + split; [intros _; assumption|]. intros _.
      rewrite (handleBookAppointment_request host resp st Hc). discriminate.
    + intros Hn. contradiction.
  - split.
    + rewrite (handleBookAppointment_incomplete host resp st Hinc). simpl. split.
      * intros H. exfalso. apply H. reflexivity.
      * intros (Hp & Hd & Ht). destruct Hinc as [H | [H | H]]; contradiction.
    + intros _. apply handleBookAppointment_incomplete. assumption.
Qed.

Lemma no_slot_no_booking (bookResp : Completion Appointment) (st : State) :
  selectedTimeSlot st = "" ->
  bookingRequests (snd (handleBookAppointment host bookResp st)) = [].
Proof.
  intros H. rewrite handleBookAppointment_incomplete; [reflexivity|].
  right. right. assumption.
Qed.

Lemma fst_andThen (a b : Action) (st : State) :
  fst (andThen a b st) = fst (b (fst (a st))).
Proof.
  unfold andThen. destruct (a st) as [st1 e1]. simpl.
  destruct (b st1) as [st2 e2]. reflexivity.
Qed.

Ltac run_answer :=
  unfold arrive, loadProviders_resume, loadAvailableDates_resume, loadTimeSlots_resume,
    handleBookAppointment_resume, loadTimeSlots_begin, andThen, set, emit, when, skip;
  repeat match goal with
         | |- context [if ?c then _ else _] => destruct c
         end;
  simpl.

(** No answer selects anything: a selection that is empty stays empty
    whatever arrives. *)
Lemma arrive_keeps_cleared (a : Answer) (st : State) :
  (selectedProvider st = "" -> selectedProvider (fst (arrive host a st)) = "")
  /\ (selectedDate st = "" -> selectedDate (fst (arrive host a st)) = "")
  /\ (selectedTimeSlot st = "" -> selectedTimeSlot (fst (arrive host a st)) = "").
Proof.
  destruct a as [[l | e] | [l | e] | [l | e] | render [l | e]];
    run_answer; repeat split; auto.
Qed.

Lemma arrive_all_keeps_cleared (answers : list Answer) :
  forall st,
    (selectedProvider st = "" -> selectedProvider (fst (arrive_all host answers st)) = "")
    /\ (selectedDate st = "" -> selectedDate (fst (arrive_all host answers st)) = "")
    /\ (selectedTimeSlot st = "" ->
        selectedTimeSlot (fst (arrive_all host answers st)) = "").
Proof.
  induction answers as [|a rest IH]; intros st; simpl.
  - repeat split; auto.
  - rewrite fst_andThen.
    destruct (arrive_keeps_cleared a st) as (Hp & Hd & Ht).
    destruct (IH (fst (arrive host a st))) as (Hp' & Hd' & Ht').
    repeat split; auto.
Qed.

(** The answer of a failed list load changes no list and no selection. *)
Lemma failed_answer_frame (a : Answer) (st : State) :
  failed a = true ->
  let st' := fst (arrive host a st) in
  providers st' = providers st
  /\ availableDates st' = availableDates st
  /\ timeSlots st' = timeSlots st
  /\ selectedProviderType st' = selectedProviderType st
  /\ selectedProvider st' = selectedProvider st
  /\ selectedDate st' = selectedDate st
  /\ selectedTimeSlot st' = selectedTimeSlot st.
Proof.
  destruct a as [[l | e] | [l | e] | [l | e] | render [l | e]];
    try discriminate; intros _; simpl; repeat split; reflexivity.
Qed.

Lemma failed_answers_frame (answers : list Answer) :
  forall st,
    forallb failed answers = true ->
    let st' := fst (arrive_all host answers st) in
    providers st' = providers st
    /\ availableDates st' = availableDates st
    /\ timeSlots st' = timeSlots st
    /\ selectedProviderType st' = selectedProviderType st
    /\ selectedProvider st' = selectedProvider st
    /\ selectedDate st' = selectedDate st
    /\ selectedTimeSlot st' = selectedTimeSlot st.
Proof.
  induction answers as [|a rest IH]; intros st Hall; cbn [arrive_all].
  - cbv zeta. repeat split; reflexivity.
  - cbn [forallb] in Hall. apply andb_prop in Hall. destruct Hall as [Ha Hrest].
    cbv zeta. rewrite fst_andThen.
    destruct (failed_answer_frame a st Ha) as (H1 & H2 & H3 & H4 & H5 & H6 & H7).
    destruct (IH (fst (arrive host a st)) Hrest) as (G1 & G2 & G3 & G4 & G5 & G6 & G7).
    repeat split; congruence.
Qed.

(** The booking handler is its immediate part followed, when a request was
    sent, by the part that runs on the answer. *)
Lemma handleBookAppointment_phases (resp : Completion Appointment) (st : State) :
  handleBookAppointment host resp st
  = if negb (truthy_string (selectedProvider st))
       || negb (truthy_string (selectedDate st))
       || negb (truthy_string (selectedTimeSlot st))
    then handleBookAppointment_begin host st
    else andThen (handleBookAppointment_begin host)
                 (handleBookAppointment_resume host st resp) st.
Proof.
  unfold handleBookAppointment, handleBookAppointment_begin, andThen.
  destruct (negb (truthy_string (selectedProvider st))
            || negb (truthy_string (selectedDate st))
            || negb (truthy_string (selectedTimeSlot st))) eqn:Hguard;
    [reflexivity|].
  unfold handleBookAppointment_resume, loadTimeSlots_begin, andThen, set, emit, when, skip.
  destruct resp as [a | e]; simpl; [reflexivity|].
  repeat match goal with
         | |- context [if ?c then _ else _] => destruct c
         end; reflexivity.
Qed.

(** X6. The part of a change handler that runs at once clears everything
    downstream of the changed selection: a new provider type clears the
    provider, the date, the slot and the three lists; a new provider clears
    the date, the slot and the lists of dates and slots; a new date clears
    the slot and the list of slots. No answer of the server selects
    anything, so whatever answers arrive afterwards, in whatever order and
    for whatever earlier request, the selections downstream stay empty,
    the selects behind an empty selection offer nothing, and a booking
    attempt sends no request until the user chooses again. The lists
    themselves are not protected: a list of dates that arrives is stored
    and offered under the provider selected by then. Each change handler
    of the page is its immediate part followed by the answer of its
    load. *)
Theorem changing_a_selection_clears_downstream
    (value : string) (answers : list Answer) (bookResp : Completion Appointment)
    (st : State) :
  (let st' := fst (arrive_all host answers (fst (selectProviderType value st))) in
   selectedProvider st' = "" /\ selectedDate st' = "" /\ selectedTimeSlot st' = ""
   /\ dateOptions st' = [] /\ timeSlotOptions st' = []
   /\ bookingRequests (snd (handleBookAppointment host bookResp st')) = [])
  /\ (let st' := fst (arrive_all host answers (fst (selectProvider value st))) in
      selectedDate st' = "" /\ selectedTimeSlot st' = ""
      /\ timeSlotOptions st' = []
      /\ bookingRequests (snd (handleBookAppointment host bookResp st')) = [])
  /\ (let st' := fst (arrive_all host answers (fst (selectDate value st))) in
      selectedTimeSlot st' = ""
      /\ bookingRequests (snd (handleBookAppointment host bookResp st')) = [])
  /\ (let st' := fst (selectProviderType value st) in
      selectedProviderType st' = value
      /\ providers st' = [] /\ availableDates st' = [] /\ timeSlots st' = [])
  /\ (let st' := fst (selectProvider value st) in
      selectedProvider st' = value /\ selectedProviderType st' = selectedProviderType st
      /\ availableDates st' = [] /\ timeSlots st' = [])
  /\ (let st' := fst (selectDate value st) in
      selectedDate st' = value /\ selectedProvider st' = selectedProvider st
      /\ timeSlots st' = [])
  /\ (forall resp,
        handleProviderTypeChange value resp st
        = andThen (selectProviderType value) (loadProviders_resume resp) st)
  /\ (forall resp,
        handleProviderChange value resp st
        = andThen (selectProvider value) (loadAvailableDates_resume resp) st)
  /\ (forall resp,
        handleDateChange value resp st
        = andThen (selectDate value) (loadTimeSlots_resume resp) st)
  /\ (forall resp,
        handleBookAppointment host resp st
        = if negb (truthy_string (selectedProvider st))
             || negb (truthy_string (selectedDate st))
             || negb (truthy_string (selectedTimeSlot st))
          then handleBookAppointment_begin host st
          else andThen (handleBookAppointment_begin host)
                       (handleBookAppointment_resume host st resp) st)
  /\ (forall dates,
        value <> "" ->
        dateOptions (fst (arrive host (DatesAnswer (Return dates))
                            (fst (selectProvider value st))))
        = filter (fun d => ad_isAvailable d) dates).
Proof.
  repeat match goal with |- _ /\ _ => split end.
  - destruct (arrive_all_keeps_cleared answers (fst (selectProviderType value st)))
      as (Hp & Hd & Ht).
    specialize (Hp eq_refl). specialize (Hd eq_refl). specialize (Ht eq_refl).
    cbv zeta. repeat split; try assumption.
    + unfold dateOptions. rewrite Hp. reflexivity.
    + unfold timeSlotOptions. rewrite Hd. reflexivity.
    + apply no_slot_no_booking. assumption.
  - destruct (arrive_all_keeps_cleared answers (fst (selectProvider value st)))
      as (_ & Hd & Ht).
    specialize (Hd eq_refl). specialize (Ht eq_refl).
    cbv zeta. repeat split; try assumption.
    + unfold timeSlotOptions. rewrite Hd. reflexivity.
    + apply no_slot_no_booking. assumption.
  - destruct (arrive_all_keeps_cleared answers (fst (selectDate value st)))
      as (_ & _ & Ht).
    specialize (Ht eq_refl).
    cbv zeta. split; [assumption|]. apply no_slot_no_booking. assumption.
  - repeat split; reflexivity.
  - repeat split; reflexivity.
  - repeat split; reflexivity.
  - intros [l | e]; reflexivity.
  - intros [l | e]; [|reflexivity].
    unfold handleProviderChange, loadAvailableDates, selectProvider,
      loadAvailableDates_begin, loadAvailableDates_resume, andThen, set, emit, when, skip.
    simpl. destruct (List.length (filter (fun d => ad_isAvailable d) l) =? 0)%nat;
      reflexivity.
  - intros [l | e]; [|reflexivity].
    unfold handleDateChange, loadTimeSlots, selectDate, loadTimeSlots_begin,
      loadTimeSlots_resume, andThen, set, emit, when, skip.
    simpl. destruct (List.length (filter (fun s => isAvailable s) l) =? 0)%nat;
      reflexivity.
  - intros resp. apply handleBookAppointment_phases.
  - intros dates Hvalue.
    unfold arrive, loadAvailableDates_resume, selectProvider, loadAvailableDates_begin,
      andThen, set, emit, when, skip, dateOptions.
    simpl. destruct (List.length (filter (fun d => ad_isAvailable d) dates) =? 0)%nat;
      simpl; rewrite (truthy_string_true value Hvalue); reflexivity.
Qed.

(** X7. The answer of a failed load of providers, dates or slots changes no
    list and no selection: it shows its error message and switches its
    loading flag off, nothing else. So after a load has begun, and as long
    as only failures arrive, its list stays empty; in particular a load
    that is answered by a failure before anything else happens ends with
    its list empty and its flag off. *)
Theorem failed_answers_alter_no_list
    (error : Thrown) (answers : list Answer) (st : State) :
  forallb failed answers = true ->
  (let st' := fst (arrive_all host answers st) in
   providers st' = providers st
   /\ availableDates st' = availableDates st
   /\ timeSlots st' = timeSlots st
   /\ selectedProviderType st' = selectedProviderType st
   /\ selectedProvider st' = selectedProvider st
   /\ selectedDate st' = selectedDate st
   /\ selectedTimeSlot st' = selectedTimeSlot st)
  /\ (forall providerType,
        providers (fst (arrive_all host answers (fst (loadProviders_begin providerType st))))
        = [])
  /\ (forall providerId,
        availableDates
          (fst (arrive_all host answers (fst (loadAvailableDates_begin providerId st))))
        = [])
  /\ (forall providerId date,
        timeSlots
          (fst (arrive_all host answers (fst (loadTimeSlots_begin providerId date st))))
        = [])
  /\ arrive host (ProvidersAnswer (Throw error)) st
     = (setIsLoadingProviders false st, [Toast ToastError "Failed to load providers"])
  /\ arrive host (DatesAnswer (Throw error)) st
     = (setIsLoadingDates false st,
        [Toast ToastError "Failed to load available dates";
         ConsoleError "Error loading dates:" error])
  /\ arrive host (SlotsAnswer (Throw error)) st
     = (setIsLoadingSlots false st,
        [Toast ToastError "Failed to load time slots";
         ConsoleError "Error loading slots:" error])
  /\ (forall providerType,
        let '(st', es) := loadProviders providerType (Throw error) st in
        providers st' = [] /\ isLoadingProviders st' = false
        /\ In (Toast ToastError "Failed to load providers") es)
  /\ (forall providerId,
        let '(st', es) := loadAvailableDates providerId (Throw error) st in
        availableDates st' = [] /\ dateOptions st' = [] /\ isLoadingDates st' = false
        /\ In (Toast ToastError "Failed to load available dates") es)
  /\ (forall providerId date,
        let '(st', es) := loadTimeSlots providerId date (Throw error) st in
        timeSlots st' = [] /\ timeSlotOptions st' = [] /\ isLoadingSlots st' = false
        /\ In (Toast ToastError "Failed to load time slots") es).
Proof.
  intros Hall. repeat match goal with |- _ /\ _ => split end.
  - apply failed_answers_frame. assumption.
  - intros providerType.
    destruct (failed_answers_frame answers (fst (loadProviders_begin providerType st)) Hall)
      as (H & _). rewrite H. reflexivity.
  - intros providerId.
    destruct (failed_answers_frame answers (fst (loadAvailableDates_begin providerId st)) Hall)
      as (_ & H & _). rewrite H. reflexivity.
  - intros providerId date.
    destruct (failed_answers_frame answers (fst (loadTimeSlots_begin providerId date st)) Hall)
      as (_ & _ & H & _). rewrite H. reflexivity.
  - reflexivity.
  - reflexivity.
  - reflexivity.
  - intros providerType. unfold loadProviders, andThen, set, emit. simpl.
    repeat split. right. left. reflexivity.
  - intros providerId. unfold loadAvailableDates, andThen, set, emit. simpl.
    repeat split.
    + unfold dateOptions. simpl. destruct (truthy_string (selectedProvider st)); reflexivity.
    + right. left. reflexivity.
  - intros providerId date.
    unfold loadTimeSlots, loadTimeSlots_begin, loadTimeSlots_resume, andThen, set, emit.
    simpl. repeat split.
    + unfold timeSlotOptions. simpl. destruct (truthy_string (selectedDate st)); reflexivity.
    + right. left. reflexivity.
Qed.

Lemma nothing_kept_iff {A : Type} (f : A -> bool) (l : list A) :
  (List.length (filter f l) =? 0)%nat = true <-> forall x, In x l -> f x = false.
Proof.
  rewrite Nat.eqb_eq. induction l as [|a l IH]; simpl.
  - split; [intros _ x [] | reflexivity].
  - destruct (f a) eqn:Fa; simpl.
    + split; [discriminate|]. intros H. specialize (H a (or_introl eq_refl)). congruence.
    + rewrite IH. split.
      * intros H x [<- | Hx]; [assumption | apply H; assumption].
      * intros H x Hx. apply H. right. assumption.
Qed.

(** X8. The page announces that nothing is available exactly when no returned
    date, respectively no returned slot, is available; for slots this is
    so even though the returned slots, all of them full, are stored. *)
Theorem nothing_available_is_announced (st : State) :
  (forall providerId dates,
     In (Toast ToastInfo "No available dates found for this provider")
        (snd (loadAvailableDates providerId (Return dates) st))
     <-> forall d, In d dates -> ad_isAvailable d = false)
  /\ (forall providerId date slots,
       (In (Toast ToastInfo "No available time slots for this date")
           (snd (loadTimeSlots providerId date (Return slots) st))
        <-> forall s, In s slots -> isAvailable s = false)
       /\ timeSlots (fst (loadTimeSlots providerId date (Return slots) st)) = slots).
Proof.
  split.
  - intros providerId dates.
    rewrite <- (nothing_kept_iff (fun d => ad_isAvailable d) dates).
    unfold loadAvailableDates, andThen, set, emit, when, skip.
    destruct (List.length (filter (fun d => ad_isAvailable d) dates) =? 0)%nat; simpl.
    + split; [reflexivity|]. intros _. right. left. reflexivity.
    + split; [|discriminate]. intros H. exfalso.
      repeat (destruct H as [H | H]; [discriminate|]). contradiction.
  - intros providerId date slots. split.
    + rewrite <- (nothing_kept_iff (fun s => isAvailable s) slots).
      unfold loadTimeSlots, loadTimeSlots_begin, loadTimeSlots_resume,
        andThen, set, emit, when, skip.
      destruct (List.length (filter (fun s => isAvailable s) slots) =? 0)%nat; simpl.
      * split; [reflexivity|]. intros _. right. left. reflexivity.
      * split; [|discriminate]. intros H. exfalso.
        repeat (destruct H as [H | H]; [discriminate|]). contradiction.
    + unfold loadTimeSlots, loadTimeSlots_begin, loadTimeSlots_resume,
        andThen, set, emit, when, skip.
      destruct (List.length (filter (fun s => isAvailable s) slots) =? 0)%nat; reflexivity.
Qed.

End CustomerPageFacts.

(** ** The provider page: the schedule form *)
Section ScheduleFormMoreFacts.
Import JS Api ProviderPage.

Lemma dayItemValue_parses (day : Z * string) :
  In day ProviderDashboard.DAYS_OF_WEEK ->
  parseInt (ProviderDashboard.dayItemValue day) = Num (fst day)
  /\ truthy_string (ProviderDashboard.dayItemValue day) = true.
Proof.
  intros Hin. unfold ProviderDashboard.DAYS_OF_WEEK in Hin.
  repeat (destruct Hin as [<- | Hin]; [split; vm_compute; reflexivity|]).
  contradiction.
Qed.

(** X9. Choosing a day and a slot type in the form and submitting sends that
    day as its number (Sunday as 0), the flag of the type and the default
    metric of the type: 50 for count-based, 30 for time-divided, whatever
    the metric field held before. *)
Theorem chosen_day_and_type_are_submitted
    (resp : Completion ScheduleConfig) (st : State) (day : Z * string)
    (slotType : string) :
  In day ProviderDashboard.DAYS_OF_WEEK ->
  fd_startTime (formData st) <> "" ->
  fd_endTime (formData st) <> "" ->
  scheduleRequests
    (snd (handleSubmit resp
            (changeSlotType slotType
               (changeDayOfWeek (ProviderDashboard.dayItemValue day) st))))
  = [{| scr_dayOfWeek := Num (fst day);
        scr_startTime := fd_startTime (formData st);
        scr_endTime := fd_endTime (formData st);
        scr_slotMetric := if slotType =? "count" then Num 50 else Num 30;
        scr_isCount := (slotType =? "count") |}].
Proof.
  intros Hday Hstart Hend.
  destruct (dayItemValue_parses day Hday) as [Hparse Htruthy].
  unfold handleSubmit, changeSlotType, changeDayOfWeek, setFormData. simpl.
  rewrite Htruthy, Hparse, (truthy_string_true _ Hstart), (truthy_string_true _ Hend).
  simpl.
  unfold andThen, set, emit, when, skip.
  destruct (slotType =? "count"); simpl;
    destruct resp as [c | [name message | v]]; simpl;
    try destruct (providerProfile st); reflexivity.
Qed.

(** X10. A submission the server rejects costs the provider no input: the form
    keeps its data and stays open, and nothing is reloaded. An accepted one
    resets the form to its defaults, closes it and reloads the schedules,
    and the appointments too once a profile exists. In both cases the
    saving flag is off again. *)
Theorem schedule_submission_outcome (st : State) (z : Z) :
  fd_dayOfWeek (formData st) <> "" ->
  fd_startTime (formData st) <> "" ->
  fd_endTime (formData st) <> "" ->
  fd_slotMetric (formData st) = Num z ->
  (0 < z)%Z ->
  (forall error,
     let '(st', es) := handleSubmit (Throw error) st in
     formData st' = formData st
     /\ showAddForm st' = showAddForm st
     /\ isSaving st' = false
     /\ ~ In LoadSchedules es /\ ~ In LoadAppointments es
     /\ List.length (errorToasts es) = 1%nat)
  /\ (forall created,
       let '(st', es) := handleSubmit (Return created) st in
       formData st' = initialFormData
       /\ showAddForm st' = false
       /\ isSaving st' = false
       /\ In LoadSchedules es
       /\ (In LoadAppointments es <-> providerProfile st <> None)
       /\ errorToasts es = []).
Proof.
  intros Hday Hstart Hend Hmetric Hpos.
  assert (Hguard : forall resp,
            handleSubmit resp st
            = (andThen (set (setIsSaving true))
                 (andThen (emit (CreateScheduleConfig {|
                                   scr_dayOfWeek := parseInt (fd_dayOfWeek (formData st));
                                   scr_startTime := fd_startTime (formData st);
                                   scr_endTime := fd_endTime (formData st);
                                   scr_slotMetric := fd_slotMetric (formData st);
                                   scr_isCount := fd_isCount (formData st) |}))
                    (andThen
                       match resp with
                       | Return _ =>
                           andThen (emit (Toast ToastSuccess
                                            "Schedule configuration added successfully!"))
                             (andThen (set (setFormData (fun _ => initialFormData)))
                                (andThen (set (setShowAddForm false))
                                   (andThen (emit LoadSchedules)
                                      (when match providerProfile st with
                                            | Some _ => true
                                            | None => false
                                            end (emit LoadAppointments)))))
                       | Throw error =>
                           emit (Toast ToastError
                                   match error with
                                   | ErrorObject _ message => message
                                   | OtherThrown _ => "Failed to add schedule"
                                   end)
                       end
                       (set (setIsSaving false))))) st).
  { intros resp. unfold handleSubmit.
    rewrite (truthy_string_true _ Hday), (truthy_string_true _ Hstart),
      (truthy_string_true _ Hend), Hmetric. simpl.
    destruct (Z.leb_spec z 0); [lia | reflexivity]. }
  split.
  - intros error. rewrite Hguard. unfold andThen, set, emit. simpl.
    repeat split.
    + intros [H | [H | []]]; discriminate.
    + intros [H | [H | []]]; discriminate.
  - intros created. rewrite Hguard. unfold andThen, set, emit, when, skip.
    destruct (providerProfile st) as [profile|]; simpl; repeat split;
      try discriminate; try (right; right; left; reflexivity).
    + intros _. right. right. right. left. reflexivity.
    + intros H. exfalso. repeat (destruct H as [H | H]; [discriminate|]). contradiction.
    + intros H. exfalso. apply H. reflexivity.
Qed.

End ScheduleFormMoreFacts.

(** ** The provider page: day names and the expanded appointments *)
Section DashboardFacts.
Import JS Api ProviderDashboard.

(** X11. [getDayName] gives every day of the form its label and [Unknown] for
    everything else, [NaN] included. *)
Theorem day_names (n : Number) :
  (forall day, In day DAYS_OF_WEEK -> getDayName (Num (fst day)) = snd day)
  /\ (getDayName n = "Unknown" <-> forall day, In day DAYS_OF_WEEK -> n <> Num (fst day)).
Proof.
  split.
  - intros day Hin. unfold DAYS_OF_WEEK in Hin.
    repeat (destruct Hin as [<- | Hin]; [reflexivity|]). contradiction.
  - destruct n as [|z].
    + split; [intros _ day _; discriminate | reflexivity].
    + assert (Hcases : (z = 0 \/ z = 1 \/ z = 2 \/ z = 3 \/ z = 4 \/ z = 5 \/ z = 6
                        \/ (z < 0 \/ 6 < z))%Z) by lia.
      assert (Hnamed : forall label, In (z, label) DAYS_OF_WEEK ->
                ~ (forall day, In day DAYS_OF_WEEK -> Num z <> Num (fst day))).
      { intros label Hin H. apply (H (z, label) Hin). reflexivity. }
      destruct Hcases as [-> | [-> | [-> | [-> | [-> | [-> | [-> | Hout]]]]]]].
      1-7: split; [discriminate|]; intros H; exfalso; revert H; eapply Hnamed;
           unfold DAYS_OF_WEEK; simpl; eauto 10.
      split.
      * intros _ day Hin [= Hz]. unfold DAYS_OF_WEEK in Hin.
        repeat (destruct Hin as [<- | Hin]; [simpl in Hz; lia|]). contradiction.
      * intros _. unfold getDayName, DAYS_OF_WEEK, num_eq. cbn [find fst snd].
        repeat match goal with
               | |- context [(?a =? z)%Z] =>
                   destruct (Z.eqb_spec a z); [lia|]
               end.
        reflexivity.
Qed.

Lemma has_delete (x id : string) (s : StringSet) :
  has x (delete id s) = if x =? id then false else has x s.
Proof.
  unfold has, delete. induction s as [|y s IH]; simpl.
  - destruct (x =? id); reflexivity.
  - destruct (String.eqb_spec id y) as [-> | Hne]; simpl.
    + rewrite IH. destruct (String.eqb_spec x y); reflexivity.
    + rewrite IH. destruct (String.eqb_spec x y) as [-> | Hxy]; simpl; [|reflexivity].
      destruct (String.eqb_spec y id); [congruence | reflexivity].
Qed.

Lemma has_add (x id : string) (s : StringSet) :
  has x (add id s) = if x =? id then true else has x s.
Proof.
  unfold add. destruct (has id s) eqn:Hid.
  - destruct (String.eqb_spec x id) as [-> | Hne]; [assumption | reflexivity].
  - unfold has. rewrite existsb_app. simpl. rewrite orb_false_r.
    destruct (String.eqb_spec x id) as [-> | Hne].
    + apply orb_true_r.
    + apply orb_false_r.
Qed.

(** X12. Toggling an appointment flips whether it is expanded and touches no
    other appointment; toggling it twice shows the list as before; the set
    never holds an appointment twice. *)
Theorem toggle_expanded (id : string) (s : StringSet) :
  (forall x, has x (toggleAppointmentExpanded id s)
             = if x =? id then negb (has x s) else has x s)
  /\ (forall x, has x (toggleAppointmentExpanded id (toggleAppointmentExpanded id s))
                = has x s)
  /\ (NoDup s -> NoDup (toggleAppointmentExpanded id s)).
Proof.
  assert (Hflip : forall t x, has x (toggleAppointmentExpanded id t)
                              = if x =? id then negb (has x t) else has x t).
  { intros t x. unfold toggleAppointmentExpanded. destruct (has id t) eqn:Hid.
    - rewrite has_delete. destruct (String.eqb_spec x id) as [-> | _]; [|reflexivity].
      rewrite Hid. reflexivity.
    - rewrite has_add. destruct (String.eqb_spec x id) as [-> | _]; [|reflexivity].
      rewrite Hid. reflexivity. }
  split; [apply Hflip|]. split.
  - intros x. rewrite !Hflip. destruct (x =? id); [|reflexivity].
    apply negb_involutive.
  - intros Hnd. unfold toggleAppointmentExpanded. destruct (has id s) eqn:Hid.
    + unfold delete. apply NoDup_filter. assumption.
    + unfold add. rewrite Hid. apply NoDup_app; [assumption | repeat constructor; intros [] | ].
      intros x Hx [Heq | []]. subst x. unfold has in Hid.
      assert (existsb (String.eqb id) s = true).
      { apply existsb_exists. exists id. split; [assumption | apply String.eqb_refl]. }
      congruence.
Qed.

End DashboardFacts.

(** ** Sorting with a comparator *)
Section SortFacts.
Import JS ProviderDashboard.
Context {A : Type} (cmp : A -> A -> Number).

Lemma insert_by_perm (x : A) (l : list A) : Permutation (x :: l) (insert_by cmp x l).
Proof.
  induction l as [|y l IH]; simpl; [apply Permutation_refl|].
  destruct (goes_before cmp x y); [apply Permutation_refl|].
  eapply Permutation_trans; [apply perm_swap|]. apply perm_skip. assumption.
Qed.

(** Sorting loses nothing and adds nothing, whatever the comparator. *)
Lemma sort_by_perm (l : list A) : Permutation l (sort_by cmp l).
Proof.
  unfold sort_by. induction l as [|x l IH]; simpl; [apply perm_nil|].
  eapply Permutation_trans; [apply perm_skip; eassumption|]. apply insert_by_perm.
Qed.

Variable P : A -> Prop.
Variable R : A -> A -> Prop.
Hypothesis before_sound :
  forall x y, P x -> P y -> goes_before cmp x y = true -> R x y.
Hypothesis before_total :
  forall x y, P x -> P y -> goes_before cmp x y = false -> R y x.
Hypothesis R_trans :
  forall x y z, P x -> P y -> P z -> R x y -> R y z -> R x z.

Lemma insert_by_sorted (x : A) (l : list A) :
  P x -> Forall P l -> StronglySorted R l -> StronglySorted R (insert_by cmp x l).
Proof.
  intros Px. induction l as [|y l IH]; intros HP Hs; simpl.
  - constructor; constructor.
  - inversion HP as [|? ? Py HPl]; subst. inversion Hs as [|? ? Hsl Hyl]; subst.
    destruct (goes_before cmp x y) eqn:Hb.
    + constructor; [assumption|]. constructor.
      * apply before_sound; assumption.
      * rewrite Forall_forall in *. intros z Hz.
        apply (R_trans x y z); auto.
    + constructor; [apply IH; assumption|].
      rewrite Forall_forall in *. intros z Hz.
      apply (Permutation_in _ (Permutation_sym (insert_by_perm x l))) in Hz.
      destruct Hz as [<- | Hz]; [apply before_total; assumption | auto].
Qed.

(** With a comparator that agrees with an order on the elements at hand,
    the sorted list is in that order. *)
Lemma sort_by_sorted (l : list A) : Forall P l -> StronglySorted R (sort_by cmp l).
Proof.
  unfold sort_by. induction l as [|x l IH]; intros HP; simpl; [constructor|].
  inversion HP as [|? ? Px HPl]; subst.
  apply insert_by_sorted; [assumption | | apply IH; assumption].
  rewrite Forall_forall in *. intros z Hz.
  apply HPl. apply (Permutation_in _ (Permutation_sym (sort_by_perm l))). assumption.
Qed.

End SortFacts.

(** ** The provider page: the appointment and schedule lists *)
Section DashboardListFacts.
Import JS Api ProviderDashboard.
Variable host : JSDate.Host.

Ltac dated a :=
  let Hd := fresh "Hd" in
  let Ht := fresh "Ht" in
  match goal with
  | H : wellDated host a |- _ =>
      destruct H as [Hd Ht];
      destruct (JSDate.Date host (ap_appointmentDate a)) eqn:?; [|contradiction];
      destruct (JSDate.Date host (ap_startTime a)) eqn:?; [|contradiction];
      clear Hd Ht
  end.

Ltac compare_dated :=
  unfold goes_before, compareAppointments, getTime, notAfter, statusRank, num_eq, num_sub;
  repeat match goal with
         | H : JSDate.Date host _ = Some _ |- _ => rewrite H
         end;
  repeat match goal with
         | |- context [(?a =? ?b)%Z] => destruct (Z.eqb_spec a b); simpl
         | |- context [String.eqb ?s "scheduled"] => destruct (String.eqb s "scheduled"); simpl
         | |- context [(?a <=? ?b)%Z] => destruct (Z.leb_spec a b); simpl
         end;
  try discriminate; try lia.

Lemma compareAppointments_sound (a b : Appointment) :
  wellDated host a -> wellDated host b ->
  goes_before (compareAppointments host) a b = true -> notAfter host a b.
Proof. intros Ha Hb. dated a. dated b. compare_dated; intros _; lia. Qed.

Lemma compareAppointments_total (a b : Appointment) :
  wellDated host a -> wellDated host b ->
  goes_before (compareAppointments host) a b = false -> notAfter host b a.
Proof. intros Ha Hb. dated a. dated b. compare_dated; intros _; lia. Qed.

Lemma notAfter_trans (a b c : Appointment) :
  wellDated host a -> wellDated host b -> wellDated host c ->
  notAfter host a b -> notAfter host b c -> notAfter host a c.
Proof.
  intros Ha Hb Hc. dated a. dated b. dated c. unfold notAfter.
  repeat match goal with
         | H : JSDate.Date host _ = Some _ |- _ => rewrite H
         end.
  lia.
Qed.

(** X13. The appointments the page shows are those the server returned, none
    lost and none added; when every date and start time parses they stand
    by date, then by start time, then scheduled before the rest. A failed
    load, or a response that is not an array, leaves the list empty. *)
Theorem appointments_are_shown_in_order (st : State) :
  (forall l,
     let st' := fst (loadAppointments host (Return (Some l)) st) in
     Permutation l (appointments st')
     /\ (Forall (wellDated host) l -> StronglySorted (notAfter host) (appointments st'))
     /\ isLoadingAppointments st' = false)
  /\ (forall error,
       let '(st', es) := loadAppointments host (Throw error) st in
       appointments st' = [] /\ isLoadingAppointments st' = false
       /\ exists message, In (ToastError message) es)
  /\ appointments (fst (loadAppointments host (Return None) st)) = [].
Proof.
  split; [|split].
  - intros l. unfold loadAppointments, andThen, set, emit. simpl. split; [|split].
    + apply sort_by_perm.
    + intros Hl.
      apply (sort_by_sorted (compareAppointments host) (wellDated host) (notAfter host)).
      * apply compareAppointments_sound.
      * apply compareAppointments_total.
      * apply notAfter_trans.
      * assumption.
    + reflexivity.
  - intros error. unfold loadAppointments, andThen, set, emit. simpl.
    repeat split. eexists. right. right. left. reflexivity.
  - reflexivity.
Qed.

Lemma compareSchedules_sound (a b : ScheduleConfig) :
  sc_dayOfWeek a <> NaN -> sc_dayOfWeek b <> NaN ->
  goes_before compareSchedules a b = true -> dayNotAfter a b.
Proof.
  unfold goes_before, compareSchedules, dayNotAfter, num_sub.
  destruct (sc_dayOfWeek a), (sc_dayOfWeek b); try contradiction. intros _ _.
  destruct (Z.leb_spec (z - z0) 0); [lia | discriminate].
Qed.

Lemma compareSchedules_total (a b : ScheduleConfig) :
  sc_dayOfWeek a <> NaN -> sc_dayOfWeek b <> NaN ->
  goes_before compareSchedules a b = false -> dayNotAfter b a.
Proof.
  unfold goes_before, compareSchedules, dayNotAfter, num_sub.
  destruct (sc_dayOfWeek a), (sc_dayOfWeek b); try contradiction. intros _ _.
  destruct (Z.leb_spec (z - z0) 0); [discriminate | lia].
Qed.

Lemma dayNotAfter_trans (a b c : ScheduleConfig) :
  sc_dayOfWeek a <> NaN -> sc_dayOfWeek b <> NaN -> sc_dayOfWeek c <> NaN ->
  dayNotAfter a b -> dayNotAfter b c -> dayNotAfter a c.
Proof.
  unfold dayNotAfter.
  destruct (sc_dayOfWeek a), (sc_dayOfWeek b), (sc_dayOfWeek c); try contradiction.
  lia.
Qed.

(** X14. The provider id of [loadSchedules] is the signed-in user's when
    that is not empty, else the id of the profile held by the page, else
    none. The request for the schedules is made exactly when that id
    exists and is not empty; the id only decides this, the request is the
    same for every id. The list shown after a successful load holds exactly
    the schedules returned, by day of week once every day is a number. A
    failed load keeps the list that was shown. Without an id no request is
    made, a warning is logged and the list is emptied. The loading flag is
    off at the end in every case. *)
Theorem schedules_are_shown_by_day (userProviderId : option string) (st : State) :
  (forall p, userProviderId = Some p -> p <> "" ->
     scheduleProviderId userProviderId st = Some p)
  /\ (userProviderId = None \/ userProviderId = Some "" ->
      scheduleProviderId userProviderId st
      = match providerProfile st with
        | Some profile => Some (id profile)
        | None => None
        end)
  /\ (forall resp,
        In GetProviderSchedules (snd (loadSchedules userProviderId resp st))
        <-> exists p, scheduleProviderId userProviderId st = Some p /\ p <> "")
  /\ (forall providerId l,
       scheduleProviderId userProviderId st = Some providerId -> providerId <> "" ->
       let '(st', es) := loadSchedules userProviderId (Return l) st in
       Permutation l (schedules st')
       /\ (Forall (fun c => sc_dayOfWeek c <> NaN) l ->
           StronglySorted dayNotAfter (schedules st'))
       /\ es = [GetProviderSchedules]
       /\ isLoadingSchedules st' = false)
  /\ (forall providerId error,
       scheduleProviderId userProviderId st = Some providerId -> providerId <> "" ->
       let '(st', es) := loadSchedules userProviderId (Throw error) st in
       schedules st' = schedules st /\ isLoadingSchedules st' = false
       /\ es = [GetProviderSchedules; ConsoleError "Failed to load schedules:"])
  /\ (forall resp,
       scheduleProviderId userProviderId st = None
       \/ scheduleProviderId userProviderId st = Some "" ->
       let '(st', es) := loadSchedules userProviderId resp st in
       schedules st' = [] /\ isLoadingSchedules st' = false
       /\ es = [ConsoleWarn "No providerId available to load schedules"]).
Proof.
  repeat match goal with |- _ /\ _ => split end.
  - intros p -> Hp. unfold scheduleProviderId. rewrite (truthy_string_true p Hp).
    reflexivity.
  - intros [-> | ->]; reflexivity.
  - intros resp. unfold loadSchedules.
    destruct (scheduleProviderId userProviderId st) as [p|] eqn:Hid.
    + unfold truthy_string. destruct (String.eqb_spec p "") as [-> | Hne]; simpl.
      * unfold andThen, set, emit. simpl. split.
        -- intros [H | []]. discriminate.
        -- intros (q & [= <-] & Hq). contradiction.
      * split.
        -- intros _. exists p. split; [reflexivity | assumption].
        -- intros _. unfold andThen, set, emit. destruct resp; simpl; left; reflexivity.
    + unfold andThen, set, emit. simpl. split.
      * intros [H | []]. discriminate.
      * intros (q & Hq & _). discriminate.
  - intros providerId l Hid Hne. unfold loadSchedules. rewrite Hid.
    rewrite (truthy_string_true providerId Hne).
    unfold andThen, set, emit. simpl. split; [|split; [|split]]; try reflexivity.
    + apply sort_by_perm.
    + intros Hl.
      apply (sort_by_sorted compareSchedules (fun c => sc_dayOfWeek c <> NaN) dayNotAfter).
      * apply compareSchedules_sound.
      * apply compareSchedules_total.
      * apply dayNotAfter_trans.
      * assumption.
  - intros providerId error Hid Hne. unfold loadSchedules. rewrite Hid.
    rewrite (truthy_string_true providerId Hne).
    unfold andThen, set, emit. simpl. repeat split; reflexivity.
  - intros resp [Hid | Hid]; unfold loadSchedules; rewrite Hid;
      unfold andThen, set, emit; simpl; repeat split; reflexivity.
Qed.

End DashboardListFacts.

(** ** The login page *)
Section LoginFacts.
Import JS Api ApiClient LoginPage.

(** X15. Login needs a phone number and a password: without one of them nothing
    is sent. A successful login stores the access token, so that later
    requests carry it as bearer token, and leads a provider to [/provider]
    and a customer to [/customer]. A failed login stores nothing and leads
    nowhere. The loading flag is off again either way. *)
Theorem login_outcome (st : State) (storage : Storage) :
  (forall resp, phone st = "" \/ password st = "" ->
     handleSubmit resp st storage = (st, storage, [ToastError "Please fill in all fields"]))
  /\ (phone st <> "" -> password st <> "" ->
      (forall response,
         let '(st', storage', es) := handleSubmit (Return response) st storage in
         loginRequests es = [{| lr_phone := phone st; lr_password := password st |}]
         /\ getToken storage' = Some (accessToken response)
         /\ navigations es = [match u_userType (user response) with
                              | provider => "/provider"
                              | customer => "/customer"
                              end]
         /\ isLoading st' = false
         /\ (accessToken response <> "" ->
             forall env endpoint options,
               header "Authorization" (spread [] (ri_headers options)) = None ->
               header "Authorization"
                 (fc_headers (fetch_call env storage' endpoint options))
               = Some ("Bearer " ++ accessToken response)))
      /\ (forall error,
            let '(st', storage', es) := handleSubmit (Throw error) st storage in
            storage' = storage /\ navigations es = [] /\ isLoading st' = false
            /\ exists message, In (ToastError message) es)).
Proof.
  split.
  - intros resp H. unfold handleSubmit.
    destruct H as [-> | ->]; simpl; rewrite ?orb_true_r; reflexivity.
  - intros Hphone Hpass. split.
    + intros response. unfold handleSubmit.
      rewrite (truthy_string_true _ Hphone), (truthy_string_true _ Hpass). simpl.
      split; [reflexivity|]. split; [reflexivity|]. split; [reflexivity|].
      split; [reflexivity|].
      intros Htoken env endpoint options Hnone. unfold fetch_call.
      replace (getToken (setToken (accessToken response) storage))
        with (Some (accessToken response)) by reflexivity.
      cbv zeta. rewrite (truthy_string_true _ Htoken). cbn [fc_headers].
      apply header_kept_by_spread; [reflexivity | assumption].
    + intros error. unfold handleSubmit.
      rewrite (truthy_string_true _ Hphone), (truthy_string_true _ Hpass). simpl.
      repeat split. eexists. right. left. reflexivity.
Qed.

End LoginFacts.

(** ** The reminder form *)
Section ReminderFacts.
Import JS ReminderForm.

(** The two ways a submission of the reminder form can go. *)
Lemma reminder_submission_cases (resp : Completion unit) (st : State) :
  (inRange (formData st)
   /\ handleSubmit resp st
      = (setIsSaving false (setIsSaving true st),
         [ToastError "apiService.createReminderSchedule is not a function"]))
  \/ (~ inRange (formData st)
      /\ exists message,
           handleSubmit resp st = (st, [ToastError message])
           /\ (message = "Please fill in all fields"
               \/ message = "Days before must be between 1 and 365"
               \/ message = "Percentage must be between 1 and 100")).
Proof.
  unfold handleSubmit, inRange, truthy_number, num_lt, num_gt.
  destruct (formData st) as [t v] eqn:Hform. cbn [type value].
  destruct t; (destruct v as [|z]; simpl;
               [right; split; [intros [] | eexists; split; [reflexivity | auto]]|]);
    (destruct (Z.eqb_spec z 0); simpl;
     [right; split; [lia | eexists; split; [reflexivity | auto]]|]);
    (destruct (Z.ltb_spec z 1); simpl;
     [right; split; [lia | eexists; split; [reflexivity | auto]]|]);
    match goal with
    | |- context [(?b <? z)%Z] => destruct (Z.ltb_spec b z); simpl
    end;
    try (right; split; [lia | eexists; split; [reflexivity | auto]]);
    left; (split; [lia|]); reflexivity.
Qed.

(** X16. With the service as [api.ts] declares it, the reminder form never
    sends a request and never reports success: [apiService] has no
    [createReminderSchedule], so a submission that passes the validation
    fails at the call, shows the error of that call and leaves the form
    open with its data. The validation lets a submission pass exactly when
    its value is a whole number in the range of its type, 1 to 365 days or
    1 to 100 percent; any other submission stops at its validation message
    with the state untouched: the message for missing fields when the value
    is [NaN] or 0, else the message of the type. The value field can never
    hold [NaN], an emptied field counts as 0, and choosing a type sets a
    value in range. *)
Theorem reminder_form_validates_but_never_sends (resp : Completion unit) (st : State) :
  reminderRequests (snd (handleSubmit resp st)) = []
  /\ (forall message, ~ In (ToastSuccess message) (snd (handleSubmit resp st)))
  /\ ~ In LoadReminders (snd (handleSubmit resp st))
  /\ (inRange (formData st) <->
      handleSubmit resp st
      = (setIsSaving false (setIsSaving true st),
         [ToastError "apiService.createReminderSchedule is not a function"]))
  /\ (~ inRange (formData st) ->
      fst (handleSubmit resp st) = st
      /\ exists message, snd (handleSubmit resp st) = [ToastError message]
                         /\ message <> "apiService.createReminderSchedule is not a function")
  /\ (value (formData st) = NaN \/ value (formData st) = Num 0 ->
      handleSubmit resp st = (st, [ToastError "Please fill in all fields"]))
  /\ (forall z, type (formData st) = days_before -> value (formData st) = Num z ->
        (z < 0 \/ 365 < z)%Z ->
        handleSubmit resp st = (st, [ToastError "Days before must be between 1 and 365"]))
  /\ (forall z, type (formData st) = percentage -> value (formData st) = Num z ->
        (z < 0 \/ 100 < z)%Z ->
        handleSubmit resp st = (st, [ToastError "Percentage must be between 1 and 100"]))
  /\ (forall input, value (formData (changeValue input st)) <> NaN)
  /\ value (formData (changeValue "" st)) = Num 0
  /\ (forall t, inRange (formData (changeType t st))).
Proof.
  repeat match goal with |- _ /\ _ => split end.
  - destruct (reminder_submission_cases resp st) as [[_ H] | [_ (m & H & _)]];
      rewrite H; reflexivity.
  - intros message.
    destruct (reminder_submission_cases resp st) as [[_ H] | [_ (m & H & _)]];
      rewrite H; intros [Hin | []]; discriminate.
  - destruct (reminder_submission_cases resp st) as [[_ H] | [_ (m & H & _)]];
      rewrite H; intros [Hin | []]; discriminate.
  - destruct (reminder_submission_cases resp st) as [[Hin H] | [Hout (m & H & Hm)]].
    + split; intros _; assumption.
    + split; [contradiction|]. rewrite H. intros Heq. exfalso.
      injection Heq as _ Hmsg. destruct Hm as [-> | [-> | ->]]; discriminate.
  - intros Hout.
    destruct (reminder_submission_cases resp st) as [[Hin _] | [_ (m & H & Hm)]];
      [contradiction|].
    rewrite H. split; [reflexivity|]. exists m. split; [reflexivity|].
    destruct Hm as [-> | [-> | ->]]; discriminate.
  - unfold handleSubmit, truthy_number. intros [-> | ->].
    + rewrite orb_true_r. reflexivity.
    + rewrite orb_true_r. reflexivity.
  - intros z Ht Hv Hz. unfold handleSubmit, truthy_number, num_lt, num_gt.
    rewrite Ht, Hv. simpl.
    destruct (Z.eqb_spec z 0); [lia|]. simpl.
    destruct (Z.ltb_spec z 1); simpl; [reflexivity|].
    destruct (Z.ltb_spec 365 z); simpl; [reflexivity | lia].
  - intros z Ht Hv Hz. unfold handleSubmit, truthy_number, num_lt, num_gt.
    rewrite Ht, Hv. simpl.
    destruct (Z.eqb_spec z 0); [lia|]. simpl.
    destruct (Z.ltb_spec z 1); simpl; [reflexivity|].
    destruct (Z.ltb_spec 100 z); simpl; [reflexivity | lia].
  - intros input. unfold changeValue, setFormData. simpl.
    destruct (parseInt input) as [|z]; simpl; [discriminate|].
    destruct (negb (z =? 0)%Z); discriminate.
  - reflexivity.
  - intros t. unfold inRange, changeType, setFormData. destruct t; simpl; lia.
Qed.

End ReminderFacts.

(** ** The sign-up page *)
Section SignupFacts.
Import JS Api ApiClient SignupPage.

Lemma filled_dec (f : FormData) :
  filled f \/ (phone f = "" \/ firstName f = "" \/ lastName f = "" \/ password f = "").
Proof.
  unfold filled.
  destruct (string_dec (phone f) ""); [right; auto|].
  destruct (string_dec (firstName f) ""); [right; auto|].
  destruct (string_dec (lastName f) ""); [right; auto|].
  destruct (string_dec (password f) ""); [right; auto|].
  left. auto.
Qed.

Lemma signup_guard_filled (f : FormData) :
  filled f ->
  negb (truthy_string (phone f)) || negb (truthy_string (firstName f))
  || negb (truthy_string (lastName f)) || negb (truthy_string (password f)) = false.
Proof.
  intros (H1 & H2 & H3 & H4).
  rewrite (truthy_string_true _ H1), (truthy_string_true _ H2),
    (truthy_string_true _ H3), (truthy_string_true _ H4). reflexivity.
Qed.

Lemma signup_guard_missing (f : FormData) :
  phone f = "" \/ firstName f = "" \/ lastName f = "" \/ password f = "" ->
  negb (truthy_string (phone f)) || negb (truthy_string (firstName f))
  || negb (truthy_string (lastName f)) || negb (truthy_string (password f)) = true.
Proof.
  intros [H | [H | [H | H]]]; rewrite H; simpl; rewrite ?orb_true_r; reflexivity.
Qed.

Lemma not_filled_missing (f : FormData) :
  ~ filled f -> phone f = "" \/ firstName f = "" \/ lastName f = "" \/ password f = "".
Proof.
  intros Hn. destruct (filled_dec f) as [Hf | Hm]; [contradiction | assumption].
Qed.

(** X17. Signing up needs a phone number, both names and a password, and no
    e-mail address: a registration goes out exactly when the four are
    filled in, and carries the form as it stands. On success the token is
    stored and the way leads where the user type of the answer says; on
    failure nothing is stored and the page stays. *)
Theorem signup_outcome (st : State) (storage : Storage) :
  (forall resp,
     registrations (snd (handleSubmit resp st storage)) = [formData st]
     <-> filled (formData st))
  /\ (forall resp, ~ filled (formData st) ->
        handleSubmit resp st storage
        = (st, storage, [ToastError "Please fill in all required fields"]))
  /\ (forall address, filled (formData st) ->
        filled (formData (handleChange "email" address st)))
  /\ (filled (formData st) ->
      (forall response,
         let '(st', storage', es) := handleSubmit (Return response) st storage in
         getToken storage' = Some (LoginPage.accessToken response)
         /\ navigations es
            = [match LoginPage.u_userType (LoginPage.user response) with
               | LoginPage.provider => "/provider"
               | LoginPage.customer => "/customer"
               end]
         /\ isLoading st' = false)
      /\ (forall error,
            let '(st', storage', es) := handleSubmit (Throw error) st storage in
            storage' = storage /\ navigations es = [] /\ isLoading st' = false)).
Proof.
  split; [|split; [|split]].
  - intros resp. destruct (filled_dec (formData st)) as [Hf | Hn].
    + unfold handleSubmit. rewrite (signup_guard_filled _ Hf).
      destruct resp as [r | e]; simpl; (split; [intros _; assumption | reflexivity]).
    + unfold handleSubmit. rewrite (signup_guard_missing _ Hn). simpl.
      split; [discriminate|].
      intros (H1 & H2 & H3 & H4). destruct Hn as [H | [H | [H | H]]]; contradiction.
  - intros resp Hn. unfold handleSubmit.
    rewrite (signup_guard_missing _ (not_filled_missing _ Hn)). reflexivity.
  - intros address Hf. exact Hf.
  - intros Hf. split.
    + intros response. unfold handleSubmit. rewrite (signup_guard_filled _ Hf).
      simpl. repeat split.
    + intros error. unfold handleSubmit. rewrite (signup_guard_filled _ Hf).
      simpl. repeat split.
Qed.

End SignupFacts.

(** ** The provider set-up page *)
Section ProviderSetupFacts.
Import JS Api ProviderSetupPage.

(** X18. The set-up form needs a provider type and a business name. The request
    it sends names both, the two numbers, and of specialization, licence
    number and bio those that are not empty. Only an accepted request leads
    to [/provider]. *)
Theorem provider_setup_outcome (resp : Completion Provider) (st : State) :
  (profileRequests (snd (handleSubmit resp st)) <> []
   <-> providerType (formData st) <> "" /\ businessName (formData st) <> "")
  /\ (forall r, In r (profileRequests (snd (handleSubmit resp st))) ->
        map fst (profile_body r)
        = (["providerType"; "businessName"]
           ++ (if truthy_string (specialization (formData st))
               then ["specialization"] else [])
           ++ (if truthy_string (licenseNumber (formData st))
               then ["licenseNumber"] else [])
           ++ (if truthy_string (bio (formData st)) then ["bio"] else [])
           ++ ["slotDurationMinutes"; "bookingLimitDays"])%list)
  /\ (navigations (snd (handleSubmit resp st)) = ["/provider"]
      <-> (providerType (formData st) <> "" /\ businessName (formData st) <> "")
          /\ exists profile, resp = Return profile)
  /\ isLoading (fst (handleSubmit resp st))
     = if negb (truthy_string (providerType (formData st)))
          || negb (truthy_string (businessName (formData st)))
       then isLoading st else false.
Proof.
  assert (Hkeys : forall r,
            r = {| pr_providerType := providerType (formData st);
                   pr_businessName := businessName (formData st);
                   pr_specialization := or_undefined (specialization (formData st));
                   pr_licenseNumber := or_undefined (licenseNumber (formData st));
                   pr_bio := or_undefined (bio (formData st));
                   pr_slotDurationMinutes := slotDurationMinutes (formData st);
                   pr_bookingLimitDays := bookingLimitDays (formData st) |} ->
            map fst (profile_body r)
            = (["providerType"; "businessName"]
               ++ (if truthy_string (specialization (formData st))
                   then ["specialization"] else [])
               ++ (if truthy_string (licenseNumber (formData st))
                   then ["licenseNumber"] else [])
               ++ (if truthy_string (bio (formData st)) then ["bio"] else [])
               ++ ["slotDurationMinutes"; "bookingLimitDays"])%list).
  { intros r ->. unfold profile_body, or_undefined, optional_property. simpl.
    destruct (truthy_string (specialization (formData st)));
      destruct (truthy_string (licenseNumber (formData st)));
      destruct (truthy_string (bio (formData st))); reflexivity. }
  unfold handleSubmit.
  destruct (string_dec (providerType (formData st)) "") as [Ht | Ht].
  { rewrite Ht. simpl. split; [|split; [|split]].
    - split; [intros H | intros [H _]]; exfalso; apply H; reflexivity.
    - intros r [].
    - split; [discriminate | intros [[H _] _]; exfalso; apply H; reflexivity].
    - reflexivity. }
  destruct (string_dec (businessName (formData st)) "") as [Hb | Hb].
  { rewrite Hb. simpl. rewrite orb_true_r. simpl. split; [|split; [|split]].
    - split; [intros H | intros [_ H]]; exfalso; apply H; reflexivity.
    - intros r [].
    - split; [discriminate | intros [[_ H] _]; exfalso; apply H; reflexivity].
    - reflexivity. }
  rewrite (truthy_string_true _ Ht), (truthy_string_true _ Hb). simpl.
  destruct resp as [profile | error]; simpl; (split; [|split; [|split]]).
  - split; [intros _; split; assumption | discriminate].
  - intros r [<- | []]. apply Hkeys. reflexivity.
  - split; [intros _; split; [split; assumption | eauto] | reflexivity].
  - reflexivity.
  - split; [intros _; split; assumption | discriminate].
  - intros r [<- | []]. apply Hkeys. reflexivity.
  - split; [discriminate | intros [_ [p Hp]]; discriminate].
  - reflexivity.
Qed.

End ProviderSetupFacts.

(** ** The provider page: the summary cards and deletion *)
Section ProviderCardFacts.
Import JS Api ProviderCards.

(** X19. The time-based and the count-based card add up to the card of all
    schedule configurations. *)
Theorem cards_add_up (schedules : list ScheduleConfig) :
  timeBased schedules + countBased schedules = scheduleConfigs schedules.
Proof.
  unfold timeBased, countBased, scheduleConfigs.
  induction schedules as [|c l IH]; simpl; [reflexivity|].
  destruct (sc_isCount c); simpl; lia.
Qed.

(** X20. A schedule is deleted only after the provider confirmed; the schedules
    are reloaded exactly when the deletion succeeded, and the appointments
    exactly when it succeeded and a profile is loaded. *)
Theorem delete_needs_confirmation (scheduleId : string) (confirmed : bool)
    (resp : Completion unit) (providerProfile : option Provider) :
  let es := handleDelete scheduleId confirmed resp providerProfile in
  (In (DeleteScheduleConfig scheduleId) es <-> confirmed = true)
  /\ (In LoadSchedules es <-> confirmed = true /\ exists u, resp = Return u)
  /\ (In LoadAppointments es
      <-> confirmed = true /\ (exists u, resp = Return u) /\ providerProfile <> None).
Proof.
  unfold handleDelete.
  destruct confirmed; simpl.
  - destruct resp as [u | e]; [destruct providerProfile as [p|]|]; simpl;
      (split; [|split]); split;
      try (intros _; repeat split; eauto; discriminate);
      try (intros H; repeat (destruct H as [H | H]; [try discriminate|]);
           try contradiction; repeat split; eauto; discriminate);
      try (intros (_ & _ & H); congruence);
      try (intros (_ & [u' H]); discriminate);
      try (intros (_ & [u' H] & _); discriminate);
      try (intros _; auto 6).
  - repeat split; try contradiction; try (intros [H _]; discriminate); discriminate.
Qed.

End ProviderCardFacts.

(* ===================================================================== *)
(** * Part V. The further properties at concrete inputs                   *)
(* ===================================================================== *)

Section MoreInstances.
Import JS Api.



(** Where the date query rejects, the appointment query returns the empty
    list and reports the format. *)
Lemma appointment_list_witness :
  ApiClient.getProviderAppointments MoreScenarios.null_payload
  = Return (VArray [], true).
Proof.
  destruct (appointment_list_is_always_an_array MoreScenarios.null_payload)
    as (_ & _ & _ & _ & H).
  apply (H VNull eq_refl).
  - intros items. discriminate.
  - intros fields items. discriminate.
Defined.

(** A token is stored beside the theme and sent with the next booking; an
    empty token is stored too, and sent with nothing. *)
Lemma token_round_trip_witness :
  ApiClient.getToken (ApiClient.setToken "t0k3n" MoreScenarios.browser) = Some "t0k3n"
  /\ ApiClient.getItem "theme" (ApiClient.setToken "t0k3n" MoreScenarios.browser)
     = Some "dark"
  /\ ApiClient.fc_headers
       (ApiClient.fetch_call None (ApiClient.setToken "t0k3n" MoreScenarios.browser)
          "/appointments/book" (ApiClient.bookAppointment_init
                                  {| bar_providerId := "p1";
                                     bar_appointmentDate := "2025-01-06";
                                     bar_startTime := "09:00";
                                     bar_serviceDescription := None |}))
     = [("Content-Type", "application/json"); ("Authorization", "Bearer t0k3n")]
  /\ ApiClient.fc_headers
       (ApiClient.fetch_call None (ApiClient.setToken "" MoreScenarios.browser)
          "/providers/schedule" ApiClient.get_init)
     = [("Content-Type", "application/json")].
Proof.
  destruct (token_round_trip "t0k3n" MoreScenarios.browser) as (H1 & _ & H3 & H4 & _).
  destruct (token_round_trip "" MoreScenarios.browser) as (_ & _ & _ & _ & _ & H6 & _).
  split; [exact H1|]. split; [|split].
  - destruct (H3 "theme" ltac:(discriminate)) as [H _]. exact H.
  - apply H4; [discriminate | reflexivity].
  - apply H6; reflexivity.
Defined.

Lemma booking_needs_all_selections_witness :
  CustomerPage.bookingRequests
    (snd (CustomerPage.handleBookAppointment Scenarios.utc
            (Return Scenarios.booked) Scenarios.slot_chosen)) <> [].
Proof.
  destruct (booking_needs_all_selections Scenarios.utc (Return Scenarios.booked)
              Scenarios.slot_chosen) as [[_ H] _].
  apply H. exact slot_chosen_complete.
Defined.

(** Only Tuesday, which is unavailable, is returned: the page says so. *)
Lemma nothing_available_witness :
  In (CustomerPage.Toast CustomerPage.ToastInfo "No available dates found for this provider")
     (snd (CustomerPage.loadAvailableDates "p1" (Return [Scenarios.tuesday])
             CustomerPage.initial)).
Proof.
  destruct (nothing_available_is_announced CustomerPage.initial) as [H _].
  apply (H "p1" [Scenarios.tuesday]).
  intros d [<- | []]. reflexivity.
Defined.

(** Sunday, count-based: the request carries day 0, the flag and 50. *)
Lemma chosen_day_and_type_witness :
  ProviderPage.scheduleRequests
    (snd (ProviderPage.handleSubmit (Throw (ErrorObject "Error" "offline"))
            (ProviderPage.changeSlotType "count"
               (ProviderPage.changeDayOfWeek "0" Scenarios.slot_metric_cleared))))
  = [{| scr_dayOfWeek := Num 0; scr_startTime := "09:00"; scr_endTime := "17:00";
        scr_slotMetric := Num 50; scr_isCount := true |}].
Proof.
  apply (chosen_day_and_type_are_submitted (Throw (ErrorObject "Error" "offline"))
           Scenarios.slot_metric_cleared (0%Z, "Sunday") "count").
  - left. reflexivity.
  - vm_compute. discriminate.
  - vm_compute. discriminate.
Defined.

Lemma schedule_submission_witness :
  ProviderPage.formData
    (fst (ProviderPage.handleSubmit (Throw (ErrorObject "Error" "offline"))
            MoreScenarios.friday_form))
  = ProviderPage.formData MoreScenarios.friday_form.
Proof.
  destruct (schedule_submission_outcome MoreScenarios.friday_form 30
              ltac:(vm_compute; discriminate) ltac:(vm_compute; discriminate)
              ltac:(vm_compute; discriminate) eq_refl ltac:(lia)) as [H _].
  specialize (H (ErrorObject "Error" "offline")).
  destruct (ProviderPage.handleSubmit (Throw (ErrorObject "Error" "offline"))
              MoreScenarios.friday_form) as [st' es].
  destruct H as [H _]. exact H.
Defined.

Lemma day_names_witness :
  ProviderDashboard.getDayName (Num 0) = "Sunday"
  /\ ProviderDashboard.getDayName (Num 7) = "Unknown".
Proof.
  destruct (day_names (Num 7)) as [Hlabel [_ Hunknown]]. split.
  - apply (Hlabel (0%Z, "Sunday")). left. reflexivity.
  - apply Hunknown. intros day Hin. unfold ProviderDashboard.DAYS_OF_WEEK in Hin.
    repeat (destruct Hin as [<- | Hin]; [discriminate|]). contradiction.
Defined.

Lemma toggle_expanded_witness :
  NoDup (ProviderDashboard.toggleAppointmentExpanded "a2" ["a1"])
  /\ ProviderDashboard.has "a2" (ProviderDashboard.toggleAppointmentExpanded "a2" ["a1"])
     = true.
Proof.
  destruct (toggle_expanded "a2" ["a1"]) as (Hflip & _ & Hnodup). split.
  - apply Hnodup. repeat constructor. intros [].
  - rewrite Hflip. reflexivity.
Defined.

Lemma wellDated_scenario :
  Forall (ProviderDashboard.wellDated Scenarios.utc)
    [MoreScenarios.late; MoreScenarios.cancelled_early;
     MoreScenarios.early; MoreScenarios.midday].
Proof. repeat constructor; vm_compute; discriminate. Defined.

(** Four appointments arrive out of order and are shown by date, time and
    status. *)
Lemma appointments_in_order_witness :
  StronglySorted (ProviderDashboard.notAfter Scenarios.utc)
    (ProviderDashboard.appointments
       (fst (ProviderDashboard.loadAppointments Scenarios.utc
               (Return (Some [MoreScenarios.late; MoreScenarios.cancelled_early;
                              MoreScenarios.early; MoreScenarios.midday]))
               MoreScenarios.dashboard))).
Proof.
  destruct (appointments_are_shown_in_order Scenarios.utc MoreScenarios.dashboard)
    as [H _].
  destruct (H [MoreScenarios.late; MoreScenarios.cancelled_early;
               MoreScenarios.early; MoreScenarios.midday]) as (_ & Hsorted & _).
  apply Hsorted. exact wellDated_scenario.
Defined.

Example appointments_in_order_example :
  map ap_id
    (ProviderDashboard.appointments
       (fst (ProviderDashboard.loadAppointments Scenarios.utc
               (Return (Some [MoreScenarios.late; MoreScenarios.cancelled_early;
                              MoreScenarios.early; MoreScenarios.midday]))
               MoreScenarios.dashboard)))
  = ["a3"; "a2"; "a4"; "a1"].
Proof. vm_compute. reflexivity. Qed.

(** A failed reload of the schedules keeps the schedule that was shown;
    a user without provider id loads the schedules through the profile of
    the page. *)
Lemma schedules_by_day_witness :
  ProviderDashboard.schedules
    (fst (ProviderDashboard.loadSchedules (Some "p1")
            (Throw (ErrorObject "Error" "offline")) MoreScenarios.dashboard))
  = [MoreScenarios.schedule "old" 3 false]
  /\ In ProviderDashboard.GetProviderSchedules
        (snd (ProviderDashboard.loadSchedules None (Return [])
                MoreScenarios.dashboard_with_profile)).
Proof.
  split.
  - destruct (schedules_are_shown_by_day (Some "p1") MoreScenarios.dashboard)
      as (_ & _ & _ & _ & H & _).
    specialize (H "p1" (ErrorObject "Error" "offline") eq_refl ltac:(discriminate)).
    destruct (ProviderDashboard.loadSchedules (Some "p1")
                (Throw (ErrorObject "Error" "offline")) MoreScenarios.dashboard)
      as [st' es].
    destruct H as [H _]. exact H.
  - destruct (schedules_are_shown_by_day None MoreScenarios.dashboard_with_profile)
      as (_ & Hid & Hreq & _).
    apply Hreq. exists "prov-7". split.
    + rewrite (Hid (or_introl eq_refl)). reflexivity.
    + discriminate.
Defined.

Example schedules_by_day_example :
  map sc_id
    (ProviderDashboard.schedules
       (fst (ProviderDashboard.loadSchedules (Some "p1")
               (Return [MoreScenarios.schedule "wed" 3 false;
                        MoreScenarios.schedule "sun" 0 true;
                        MoreScenarios.schedule "mon" 1 false])
               MoreScenarios.dashboard)))
  = ["sun"; "mon"; "wed"].
Proof. vm_compute. reflexivity. Qed.

(** A provider logs in: the token is stored and the way leads to
    [/provider]. *)
Lemma login_outcome_witness :
  let '(st', storage', es) :=
    LoginPage.handleSubmit (Return MoreScenarios.provider_session)
      MoreScenarios.credentials MoreScenarios.browser in
  ApiClient.getToken storage' = Some "t0k3n"
  /\ LoginPage.navigations es = ["/provider"].
Proof.
  destruct (login_outcome MoreScenarios.credentials MoreScenarios.browser) as [_ H].
  destruct (H ltac:(discriminate) ltac:(discriminate)) as [Hok _].
  specialize (Hok MoreScenarios.provider_session).
  destruct (LoginPage.handleSubmit (Return MoreScenarios.provider_session)
              MoreScenarios.credentials MoreScenarios.browser) as [[st' storage'] es].
  destruct Hok as (_ & Htoken & Hnav & _).
  split; [exact Htoken | exact Hnav].
Defined.

(** 400 days before is out of range and stops at the validation; two days
    before passes it and fails at the call. *)
Lemma reminder_form_witness :
  fst (ReminderForm.handleSubmit (Return tt) MoreScenarios.far_reminder)
  = MoreScenarios.far_reminder
  /\ snd (ReminderForm.handleSubmit (Return tt) MoreScenarios.near_reminder)
     = [ReminderForm.ToastError "apiService.createReminderSchedule is not a function"].
Proof.
  split.
  - destruct (reminder_form_validates_but_never_sends (Return tt)
                MoreScenarios.far_reminder) as (_ & _ & _ & _ & H & _).
    destruct (H ltac:(vm_compute; intros [_ Hle]; apply Hle; reflexivity)) as [Hst _].
    exact Hst.
  - destruct (reminder_form_validates_but_never_sends (Return tt)
                MoreScenarios.near_reminder) as (_ & _ & _ & [H _] & _).
    rewrite H; [reflexivity|]. vm_compute. split; discriminate.
Defined.

(** A sign-up without e-mail address is sent, with the address empty. *)
Lemma signup_outcome_witness :
  map SignupPage.email
    (SignupPage.registrations
       (snd (SignupPage.handleSubmit (Return MoreScenarios.provider_session)
               MoreScenarios.new_customer MoreScenarios.browser)))
  = [""].
Proof.
  destruct (signup_outcome MoreScenarios.new_customer MoreScenarios.browser) as [H _].
  destruct (H (Return MoreScenarios.provider_session)) as [_ Hsent].
  rewrite Hsent; [reflexivity|].
  unfold SignupPage.filled. repeat split; vm_compute; discriminate.
Defined.

(** The set-up of a salon with a bio only is sent; specialization and
    licence number are left out of the request. *)
Lemma provider_setup_witness :
  ProviderSetupPage.profileRequests
    (snd (ProviderSetupPage.handleSubmit (Throw (ErrorObject "Error" "offline"))
            MoreScenarios.salon_setup)) <> [].
Proof.
  destruct (provider_setup_outcome (Throw (ErrorObject "Error" "offline"))
              MoreScenarios.salon_setup) as ([_ H] & _).
  apply H. split; vm_compute; discriminate.
Defined.

Example provider_setup_example :
  map (fun r => map fst (ProviderSetupPage.profile_body r))
    (ProviderSetupPage.profileRequests
       (snd (ProviderSetupPage.handleSubmit (Throw (ErrorObject "Error" "offline"))
               MoreScenarios.salon_setup)))
  = [["providerType"; "businessName"; "bio"; "slotDurationMinutes"; "bookingLimitDays"]].
Proof. vm_compute. reflexivity. Qed.

(** A click on the bin that is not confirmed deletes nothing. *)
Lemma delete_needs_confirmation_witness :
  ~ In (ProviderCards.DeleteScheduleConfig "s1")
       (ProviderCards.handleDelete "s1" false (Return tt) None).
Proof.
  destruct (delete_needs_confirmation "s1" false (Return tt) None) as [[H _] _].
  intros Hin. specialize (H Hin). discriminate.
Defined.

(** The user moves from provider [p1] to [p2]; the dates asked for [p1]
    arrive afterwards and are offered under [p2], while the slot chosen
    before stays cleared whatever arrives. *)
Lemma late_answer_witness :
  CustomerPage.dateOptions
    (fst (CustomerEvents.arrive Scenarios.utc
            (CustomerEvents.DatesAnswer
               (Return [Scenarios.monday; Scenarios.tuesday; Scenarios.wednesday]))
            (fst (CustomerEvents.selectProvider "p2" Scenarios.slot_chosen))))
  = filter (fun d => ad_isAvailable d)
      [Scenarios.monday; Scenarios.tuesday; Scenarios.wednesday]
  /\ CustomerPage.selectedTimeSlot
       (fst (CustomerEvents.arrive_all Scenarios.utc MoreScenarios.late_answers
               (fst (CustomerEvents.selectProvider "p2" Scenarios.slot_chosen))))
     = "".
Proof.
  destruct (changing_a_selection_clears_downstream Scenarios.utc "p2"
              MoreScenarios.late_answers (Return Scenarios.booked) Scenarios.slot_chosen)
    as (_ & (_ & Hslot & _) & _ & _ & _ & _ & _ & _ & _ & _ & Hlate).
  split.
  - apply Hlate. discriminate.
  - exact Hslot.
Defined.

(** The providers are asked for again and only failures come back: the
    list of providers stays empty. *)
Lemma failed_answers_witness :
  CustomerPage.providers
    (fst (CustomerEvents.arrive_all Scenarios.utc MoreScenarios.failures
            (fst (CustomerEvents.loadProviders_begin "salon" Scenarios.slot_chosen))))
  = [].
Proof.
  destruct (failed_answers_alter_no_list Scenarios.utc Scenarios.conflict
              MoreScenarios.failures Scenarios.slot_chosen eq_refl)
    as (_ & H & _).
  apply H.
Defined.

End MoreInstances.
